(** * SlideGeneratorApi: the content rendering engine, its cache and its endpoint

    A shallow embedding of [src/services.py] and [src/main.py]:
    - [re_split] and [_process_markdown_to_runs]: the inline markup parser,
    - [_apply_font_style]: the style resolver,
    - [_add_title_slide], [_add_bullet_points_slide], [_add_two_column_slide]
      and [create_presentation]: the layout renderers and the assembler,
    - [generate_slides_content]: the bounded content cache in front of the
      generative model,
    - [generate_presentation]: the endpoint behind its rate limit.

    Python objects that the code mutates in place (runs, paragraphs, text
    frames, the cache dictionary) are values here and every mutation is an
    explicit functional update; an exception is a [Raise] in the [result]
    type.  What [json.loads] returns is a [value], and the code reads it the
    way Python does: a method or an operation that the value at hand does
    not have raises.  Texts are taken to be ASCII: [lower] and [strip] treat
    the letters and the white space of ASCII. *)

From Stdlib Require Import ZArith Ascii String List Bool Lia SpecFloat.
From stdpp Require Import base option list gmap strings.

Local Open Scope string_scope.

(** ** Python runtime: values, exceptions, strings, ranges, dictionaries *)

(** The values [json.loads] builds: [None], [bool], [int], [float], [str],
    [list] and [dict], the latter with its items in insertion order and no
    key twice. *)
#[warnings="-register-all"]
Inductive value :=
| PyNone
| PyBool (b : bool)
| PyInt (n : Z)
| PyFloat (x : spec_float)
| PyStr (s : string)
| PyList (items : list value)
| PyDict (items : list (string * value)).

(** The exceptions that are raised here: those of Python, the
    [PackageNotFoundError] of python-pptx, the [RateLimitExceeded] of
    slowapi and the [HTTPException] of FastAPI; [OtherError] is any other
    one, with its message. *)
Inductive exception :=
| IndexError
| KeyError
| AttributeError
| TypeError
| FileNotFoundError
| PackageNotFoundError
| RateLimitExceeded
| HTTPException (status_code : Z) (detail : value)
| OtherError (msg : string).

Inductive result (A : Type) :=
| Ok (a : A)
| Raise (e : exception).
Arguments Ok {A} a.
Arguments Raise {A} e.

Definition bind {A B} (r : result A) (k : A -> result B) : result B :=
  match r with
  | Ok a => k a
  | Raise e => Raise e
  end.

Notation "'do' x <- e ; k" := (bind e (fun x => k))
  (at level 10, x name, e at level 100, k at level 200).

(** [l[i]] on a Python list. *)
Definition getitem {A} (l : list A) (i : nat) : result A :=
  match l !! i with
  | Some x => Ok x
  | None => Raise IndexError
  end.

(** [range(start, stop, step)] for a positive [step]; [fuel] bounds the
    number of elements and [py_range] supplies enough of it. *)
Fixpoint range_from (fuel start stop step : nat) : list nat :=
  match fuel with
  | 0 => []
  | S fuel' =>
      if (start <? stop)%nat then start :: range_from fuel' (start + step) stop step
      else []
  end.

Definition py_range (start stop step : nat) : list nat :=
  range_from stop start stop step.

Definition newline : ascii := ascii_of_nat 10.

(** [s.startswith(p)], returning what follows the prefix. *)
Fixpoint strip_prefix (p s : string) : option string :=
  match p with
  | EmptyString => Some s
  | String a p' =>
      match s with
      | EmptyString => None
      | String b s' => if Ascii.eqb a b then strip_prefix p' s' else None
      end
  end.

Definition startswith (s p : string) : bool :=
  match strip_prefix p s with Some _ => true | None => false end.

Fixpoint string_rev (s : string) : string :=
  match s with
  | EmptyString => EmptyString
  | String a s' => string_rev s' +:+ String a EmptyString
  end.

Definition endswith (s p : string) : bool :=
  startswith (string_rev s) (string_rev p).

(** [s[n:]] and [s[:-n]]. *)
Fixpoint drop_chars (n : nat) (s : string) : string :=
  match n, s with
  | 0, _ => s
  | S n', String _ s' => drop_chars n' s'
  | S _, EmptyString => EmptyString
  end.

Definition drop_last_chars (n : nat) (s : string) : string :=
  string_rev (drop_chars n (string_rev s)).

(** ASCII whitespace as [str.strip()] sees it. *)
Definition is_space (c : ascii) : bool :=
  let n := nat_of_ascii c in
  ((9 <=? n) && (n <=? 13) || (28 <=? n) && (n <=? 32))%nat.

Fixpoint lstrip (s : string) : string :=
  match s with
  | EmptyString => EmptyString
  | String a s' => if is_space a then lstrip s' else s
  end.

Definition strip (s : string) : string :=
  string_rev (lstrip (string_rev (lstrip s))).

(** [str.lower()] on ASCII letters. *)
Definition lower_char (c : ascii) : ascii :=
  let n := nat_of_ascii c in
  if ((65 <=? n) && (n <=? 90))%nat then ascii_of_nat (n + 32) else c.

Fixpoint lower (s : string) : string :=
  match s with
  | EmptyString => EmptyString
  | String a s' => String (lower_char a) (lower s')
  end.

(** [needle in hay] for strings. *)
Fixpoint occurs (needle hay : string) : bool :=
  match strip_prefix needle hay with
  | Some _ => true
  | None =>
      match hay with
      | EmptyString => false
      | String _ hay' => occurs needle hay'
      end
  end.

(** [s.replace(old, new)] for one-character [old] and [new]. *)
Fixpoint replace (old new : ascii) (s : string) : string :=
  match s with
  | EmptyString => EmptyString
  | String a s' => String (if Ascii.eqb a old then new else a) (replace old new s')
  end.

(** A [dict] keeps its keys in insertion order: an association list without
    duplicate keys, oldest first. *)
Section Dict.
Context {K V : Type} `{EqDecision K}.

Fixpoint dict_get (d : list (K * V)) (k : K) : option V :=
  match d with
  | [] => None
  | (k', v) :: d' => if decide (k' = k) then Some v else dict_get d' k
  end.

(** [d[k] = v]: a present key keeps its position, a new one goes last. *)
Fixpoint dict_set (d : list (K * V)) (k : K) (v : V) : list (K * V) :=
  match d with
  | [] => [(k, v)]
  | (k', v') :: d' =>
      if decide (k' = k) then (k', v) :: d' else (k', v') :: dict_set d' k v
  end.

(** [del d[k]] for a key that is present. *)
Fixpoint dict_del (d : list (K * V)) (k : K) : list (K * V) :=
  match d with
  | [] => []
  | (k', v') :: d' => if decide (k' = k) then d' else (k', v') :: dict_del d' k
  end.

(** [next(iter(d))]. *)
Definition dict_first (d : list (K * V)) : option K :=
  match d with
  | [] => None
  | (k, _) :: _ => Some k
  end.

Definition keys (d : list (K * V)) : list K := map fst d.
End Dict.

(** ** What the code does with a value *)

(** [bool(v)], the test of [if v:] and [not v]. *)
Definition truthy (v : value) : bool :=
  match v with
  | PyNone => false
  | PyBool b => b
  | PyInt n => negb (n =? 0)%Z
  | PyFloat x => match x with S754_zero _ => false | _ => true end
  | PyStr s => negb (String.eqb s "")
  | PyList items => match items with [] => false | _ :: _ => true end
  | PyDict items => match items with [] => false | _ :: _ => true end
  end.

(** [v == s] for a [str] [s]. *)
Definition is_str (v : value) (s : string) : bool :=
  match v with
  | PyStr t => String.eqb t s
  | _ => false
  end.

(** [d.get(key, default)]: only a [dict] has the method. *)
Definition py_get (d : value) (key : string) (dflt : value) : result value :=
  match d with
  | PyDict items => Ok (default dflt (dict_get items key))
  | _ => Raise AttributeError
  end.

(** [d[key]] for a [str] [key]. *)
Definition py_getitem (d : value) (key : string) : result value :=
  match d with
  | PyDict items =>
      match dict_get items key with
      | Some v => Ok v
      | None => Raise KeyError
      end
  | _ => Raise TypeError
  end.

(** The items that [for x in v] goes through: the elements of a [list], the
    characters of a [str], the keys of a [dict]. *)
Definition py_iter (v : value) : result (list value) :=
  match v with
  | PyList items => Ok items
  | PyStr s => Ok (map (fun c => PyStr (String c "")) (list_ascii_of_string s))
  | PyDict items => Ok (map (fun item => PyStr (fst item)) items)
  | _ => Raise TypeError
  end.

(** [key in v] for a [str] [key]: a key of a [dict], an element of a
    [list], a part of a [str]. *)
Definition py_in (key : string) (v : value) : result bool :=
  match v with
  | PyDict items =>
      Ok (match dict_get items key with Some _ => true | None => false end)
  | PyList items => Ok (existsb (fun item => is_str item key) items)
  | PyStr s => Ok (occurs key s)
  | _ => Raise TypeError
  end.

(** ** The pattern [(\*\*|__)(.*?)\1] and [re.split] *)

Inductive delimiter := Bold | Underline.

Definition delimiter_text (d : delimiter) : string :=
  match d with
  | Bold => "**"
  | Underline => "__"
  end.

(** Group 1, [(\*\*|__)], tried at the head of [s]. *)
Definition match_delimiter (s : string) : option (delimiter * string) :=
  match s with
  | String a (String b r) =>
      if Ascii.eqb a "*" && Ascii.eqb b "*" then Some (Bold, r)
      else if Ascii.eqb a "_" && Ascii.eqb b "_" then Some (Underline, r)
      else None
  | _ => None
  end.

(** Group 2 and the backreference, [(.*?)\1]: the lazy star tries the
    closing delimiter before it takes one more character, and [.] takes
    any character but a line feed. *)
Fixpoint match_lazy (d : delimiter) (s : string) : option (string * string) :=
  match strip_prefix (delimiter_text d) s with
  | Some rest => Some (EmptyString, rest)
  | None =>
      match s with
      | EmptyString => None
      | String c r =>
          if Ascii.eqb c newline then None
          else match match_lazy d r with
               | Some (inner, rest) => Some (String c inner, rest)
               | None => None
               end
      end
  end.

(** The whole pattern anchored at the head of [s]. *)
Definition match_here (s : string) : option (delimiter * string * string) :=
  match match_delimiter s with
  | Some (d, r) =>
      match match_lazy d r with
      | Some (inner, rest) => Some (d, inner, rest)
      | None => None
      end
  | None => None
  end.

(** [pattern.search(s)]: the leftmost match, as the text before it, the
    two groups, and the text after it. *)
Fixpoint search (s : string) : option (string * delimiter * string * string) :=
  match match_here s with
  | Some (d, inner, rest) => Some (EmptyString, d, inner, rest)
  | None =>
      match s with
      | EmptyString => None
      | String c r =>
          match search r with
          | Some (before, d, inner, rest) => Some (String c before, d, inner, rest)
          | None => None
          end
      end
  end.

(** [re.split(pattern, s)]: the text before each match, then the match's
    groups, and at last the text after the final match.  A match is never
    empty, so [fuel] steps are enough for a string of [fuel] characters. *)
Fixpoint split_from (fuel : nat) (s : string) : list string :=
  match fuel with
  | 0 => [s]
  | S fuel' =>
      match search s with
      | Some (before, d, inner, rest) =>
          before :: delimiter_text d :: inner :: split_from fuel' rest
      | None => [s]
      end
  end.

Definition re_split (s : string) : list string :=
  split_from (String.length s) s.

(** [re.split(pattern, text)] as the parser calls it: a [text] that is no
    [str] is a [TypeError]. *)
Definition py_re_split (text : value) : result (list string) :=
  match text with
  | PyStr s => Ok (re_split s)
  | _ => Raise TypeError
  end.

(** ** The python-pptx objects the service touches *)

(** [run.font]: every attribute is [None] until it is set, which means
    "inherit from the placeholder, layout or theme". *)
Record Font := {
  font_bold : option bool;
  font_underline : option bool;
  font_name : option string;
  font_size : option Z;
  font_color : option (Z * Z * Z)
}.

Record Run := {
  run_text : string;
  run_font : Font
}.

Record Paragraph := {
  paragraph_runs : list Run;
  paragraph_level : nat
}.

(** A text frame holds one paragraph at least. *)
Record TextFrame := {
  first_paragraph : Paragraph;
  more_paragraphs : list Paragraph
}.

Definition paragraphs (tf : TextFrame) : list Paragraph :=
  first_paragraph tf :: more_paragraphs tf.

(** A slide's text placeholders by their [idx]; the title is [idx] 0. *)
Record Slide := {
  slide_layout : nat;
  slide_placeholders : gmap nat TextFrame
}.

(** A layout is known here by the [idx] of the placeholders it hands down
    to a new slide. *)
Record SlideLayout := {
  layout_placeholders : list nat
}.

Record Presentation := {
  slide_layouts : list SlideLayout;
  slides : list Slide
}.

Definition no_font : Font :=
  {| font_bold := None; font_underline := None; font_name := None;
     font_size := None; font_color := None |}.

Definition empty_paragraph : Paragraph :=
  {| paragraph_runs := []; paragraph_level := 0 |}.

Definition empty_text_frame : TextFrame :=
  {| first_paragraph := empty_paragraph; more_paragraphs := [] |}.

(** [paragraph.clear()]: the content goes, the paragraph properties stay. *)
Definition paragraph_clear (p : Paragraph) : Paragraph :=
  {| paragraph_runs := []; paragraph_level := paragraph_level p |}.

(** [run = paragraph.add_run()] followed by the assignments to [run]: the
    run is appended as it stands after them. *)
Definition add_run (p : Paragraph) (r : Run) : Paragraph :=
  {| paragraph_runs := paragraph_runs p ++ [r];
     paragraph_level := paragraph_level p |}.

Definition set_level (p : Paragraph) (l : nat) : Paragraph :=
  {| paragraph_runs := paragraph_runs p; paragraph_level := l |}.

(** [text_frame.clear()] removes all paragraphs except one empty one: the
    first paragraph is kept and cleared. *)
Definition text_frame_clear (tf : TextFrame) : TextFrame :=
  {| first_paragraph := paragraph_clear (first_paragraph tf);
     more_paragraphs := [] |}.

(** [p = text_frame.add_paragraph()] followed by the work on [p]: the new
    paragraph goes after the ones the frame holds. *)
Definition add_paragraph (tf : TextFrame) (p : Paragraph) : TextFrame :=
  {| first_paragraph := first_paragraph tf;
     more_paragraphs := more_paragraphs tf ++ [p] |}.

Definition set_first_paragraph (tf : TextFrame) (p : Paragraph) : TextFrame :=
  {| first_paragraph := p; more_paragraphs := more_paragraphs tf |}.

(** [paragraph.text] and [text_frame.text]. *)
Definition paragraph_text (p : Paragraph) : string :=
  String.concat "" (map run_text (paragraph_runs p)).

Definition text_frame_text (tf : TextFrame) : string :=
  String.concat (String newline "") (map paragraph_text (paragraphs tf)).

(** [prs.slide_layouts[i]]. *)
Definition get_layout (prs : Presentation) (i : nat) : result SlideLayout :=
  getitem (slide_layouts prs) i.

(** [prs.slides.add_slide(layout)]: the new slide gets an empty placeholder
    for each one of the layout; it joins [prs.slides] once the renderer is
    done with it (see [append_slide]). *)
Definition new_slide (i : nat) (layout : SlideLayout) : Slide :=
  {| slide_layout := i;
     slide_placeholders :=
       list_to_map (map (fun idx => (idx, empty_text_frame))
                        (layout_placeholders layout)) |}.

Definition append_slide (prs : Presentation) (s : Slide) : Presentation :=
  {| slide_layouts := slide_layouts prs; slides := slides prs ++ [s] |}.

(** [slide.shapes.title.text_frame]: [shapes.title] is [None] on a slide
    without a title placeholder. *)
Definition title_text_frame (s : Slide) : result TextFrame :=
  match slide_placeholders s !! 0 with
  | Some tf => Ok tf
  | None => Raise AttributeError
  end.

(** [slide.placeholders[idx].text_frame]. *)
Definition placeholder_text_frame (s : Slide) (idx : nat) : result TextFrame :=
  match slide_placeholders s !! idx with
  | Some tf => Ok tf
  | None => Raise KeyError
  end.

Definition set_text_frame (s : Slide) (idx : nat) (tf : TextFrame) : Slide :=
  {| slide_layout := slide_layout s;
     slide_placeholders := <[idx := tf]> (slide_placeholders s) |}.

(** [Pt(n)], a length in English Metric Units. *)
Definition Pt (n : Z) : Z := (n * 12700)%Z.

Definition RGBColor (r g b : Z) : Z * Z * Z := (r, g, b).

(** ** [PresentationStyles] *)

Definition TITLE_FONT_NAME : string := "Calibri Light".
Definition BODY_FONT_NAME : string := "Calibri".
Definition TITLE_FONT_SIZE : Z := Pt 36.
Definition BODY_FONT_SIZE : Z := Pt 18.
Definition TITLE_COLOR : Z * Z * Z := RGBColor 10 44 82.
Definition BODY_COLOR : Z * Z * Z := RGBColor 51 51 51.

(** ** [SlideBuilderService] *)

Definition is_ctrl_char (c : ascii) : bool :=
  let n := nat_of_ascii c in
  ((n <=? 8) || (11 <=? n) && (n <=? 31))%nat.

Definition hex_digit (n : nat) : ascii :=
  if (n <? 10)%nat then ascii_of_nat (48 + n) else ascii_of_nat (55 + n).

(** ["_x%04X_" % ord(c)]. *)
Definition escape_ctrl_char (c : ascii) : string :=
  let n := nat_of_ascii c in
  "_x00" +:+ String (hex_digit (n / 16)) (String (hex_digit (n mod 16)) "_").

(** [CT_RegularTextRun._escape_ctrl_chars] of python-pptx, which the setter
    of [run.text] goes through: each character of [[\x00-\x08\x0B-\x1F]] is
    replaced by its code written as [_xHHHH_]; tab and line feed stay. *)
Fixpoint _escape_ctrl_chars (s : string) : string :=
  match s with
  | EmptyString => EmptyString
  | String c s' =>
      (if is_ctrl_char c then escape_ctrl_char c else String c EmptyString)
      +:+ _escape_ctrl_chars s'
  end.

(** [run.text = t]. *)
Definition set_text (r : Run) (t : string) : Run :=
  {| run_text := _escape_ctrl_chars t; run_font := run_font r |}.

Definition set_bold (r : Run) (b : bool) : Run :=
  {| run_text := run_text r;
     run_font := {| font_bold := Some b;
                    font_underline := font_underline (run_font r);
                    font_name := font_name (run_font r);
                    font_size := font_size (run_font r);
                    font_color := font_color (run_font r) |} |}.

Definition set_underline (r : Run) (b : bool) : Run :=
  {| run_text := run_text r;
     run_font := {| font_bold := font_bold (run_font r);
                    font_underline := Some b;
                    font_name := font_name (run_font r);
                    font_size := font_size (run_font r);
                    font_color := font_color (run_font r) |} |}.

Definition set_name (r : Run) (n : string) : Run :=
  {| run_text := run_text r;
     run_font := {| font_bold := font_bold (run_font r);
                    font_underline := font_underline (run_font r);
                    font_name := Some n;
                    font_size := font_size (run_font r);
                    font_color := font_color (run_font r) |} |}.

Definition set_size (r : Run) (sz : Z) : Run :=
  {| run_text := run_text r;
     run_font := {| font_bold := font_bold (run_font r);
                    font_underline := font_underline (run_font r);
                    font_name := font_name (run_font r);
                    font_size := Some sz;
                    font_color := font_color (run_font r) |} |}.

Definition set_color (r : Run) (c : Z * Z * Z) : Run :=
  {| run_text := run_text r;
     run_font := {| font_bold := font_bold (run_font r);
                    font_underline := font_underline (run_font r);
                    font_name := font_name (run_font r);
                    font_size := font_size (run_font r);
                    font_color := Some c |} |}.

(** A run as [paragraph.add_run()] returns it. *)
Definition fresh_run : Run := {| run_text := ""; run_font := no_font |}.

(** The body of the loop [for i in range(1, len(parts), 3)], for the
    indices [idx] still to visit. *)
Fixpoint markdown_loop (parts : list string) (idx : list nat) (paragraph : Paragraph)
  : result Paragraph :=
  match idx with
  | [] => Ok paragraph
  | i :: idx' =>
      do delimiter <- getitem parts i;
      do content <- getitem parts (i + 1);
      let run := set_text fresh_run content in
      let run :=
        if String.eqb delimiter "**" then set_bold run true
        else if String.eqb delimiter "__" then set_underline run true
        else run in
      let paragraph := add_run paragraph run in
      if (i + 2 <? length parts)%nat then
        do trailing <- getitem parts (i + 2);
        markdown_loop parts idx' (add_run paragraph (set_text fresh_run trailing))
      else
        markdown_loop parts idx' paragraph
  end.

Definition _process_markdown_to_runs (paragraph : Paragraph) (text : value)
  : result Paragraph :=
  let paragraph := paragraph_clear paragraph in
  do parts <- py_re_split text;
  do head <- getitem parts 0;
  let paragraph := add_run paragraph (set_text fresh_run head) in
  markdown_loop parts (py_range 1 (length parts) 3) paragraph.

(** The body of the two loops of [_apply_font_style], for one run. *)
Definition apply_font_style_run (is_title : bool) (run : Run) : Run :=
  if is_title then
    let run :=
      if bool_decide (font_bold (run_font run) = Some true) then run
      else set_name run TITLE_FONT_NAME in
    let run := set_size run TITLE_FONT_SIZE in
    set_color run TITLE_COLOR
  else
    let run :=
      if bool_decide (font_bold (run_font run) = Some true) then run
      else set_name run BODY_FONT_NAME in
    let run := set_size run BODY_FONT_SIZE in
    set_color run BODY_COLOR.

Definition apply_font_style_paragraph (is_title : bool) (p : Paragraph) : Paragraph :=
  {| paragraph_runs := map (apply_font_style_run is_title) (paragraph_runs p);
     paragraph_level := paragraph_level p |}.

Definition _apply_font_style (text_frame : TextFrame) (is_title : bool) : TextFrame :=
  {| first_paragraph := apply_font_style_paragraph is_title (first_paragraph text_frame);
     more_paragraphs := map (apply_font_style_paragraph is_title) (more_paragraphs text_frame) |}.

(** [content] is what [slide_info.get("content")] gave: any value.  The
    placeholder 1 is looked up before the title's text frame is asked for,
    and [content.get] is evaluated after the paragraph argument. *)
Definition _add_title_slide (prs : Presentation) (content : value)
  : result Presentation :=
  do slide_layout <- get_layout prs 0;
  let slide := new_slide 0 slide_layout in
  do subtitle_tf <- placeholder_text_frame slide 1;
  do title_tf <- title_text_frame slide;
  do text <- py_get content "title" (PyStr "Presentation Title");
  do p <- _process_markdown_to_runs (first_paragraph title_tf) text;
  let title_tf := set_first_paragraph title_tf p in
  do text <- py_get content "subtitle" (PyStr "");
  do p <- _process_markdown_to_runs (first_paragraph subtitle_tf) text;
  let subtitle_tf := set_first_paragraph subtitle_tf p in
  let title_tf := _apply_font_style title_tf true in
  let subtitle_tf := _apply_font_style subtitle_tf false in
  Ok (append_slide prs
        (set_text_frame (set_text_frame slide 0 title_tf) 1 subtitle_tf)).

(** [for point_text in ...: p = tf.add_paragraph(); ...; p.level = level]. *)
Fixpoint points_loop (level : nat) (point_texts : list value) (tf : TextFrame)
  : result TextFrame :=
  match point_texts with
  | [] => Ok tf
  | point_text :: rest =>
      do p <- _process_markdown_to_runs empty_paragraph point_text;
      points_loop level rest (add_paragraph tf (set_level p level))
  end.

Definition _add_bullet_points_slide (prs : Presentation) (content : value)
  : result Presentation :=
  do slide_layout <- get_layout prs 1;
  let slide := new_slide 1 slide_layout in
  do tf <- placeholder_text_frame slide 1;
  do title_tf <- title_text_frame slide;
  do text <- py_get content "title" (PyStr "Slide Title");
  do p <- _process_markdown_to_runs (first_paragraph title_tf) text;
  let title_tf := set_first_paragraph title_tf p in
  let title_tf := _apply_font_style title_tf true in
  let tf := text_frame_clear tf in
  do points <- py_get content "points" (PyList []);
  do point_texts <- py_iter points;
  do tf <- points_loop 0 point_texts tf;
  let tf := _apply_font_style tf false in
  Ok (append_slide prs (set_text_frame (set_text_frame slide 0 title_tf) 1 tf)).

(** One column of [_add_two_column_slide], up to the styling: the frame is
    cleared, then the heading, if [data.get("heading")] is true, then the
    points. *)
Definition fill_column (data : value) (tf : TextFrame) : result TextFrame :=
  let tf := text_frame_clear tf in
  do heading <- py_get data "heading" PyNone;
  do tf <-
    (if truthy heading then
       do heading <- py_getitem data "heading";
       do p_heading <- _process_markdown_to_runs empty_paragraph heading;
       Ok (add_paragraph tf (set_level p_heading 0))
     else Ok tf);
  do points <- py_get data "points" (PyList []);
  do point_texts <- py_iter points;
  points_loop 1 point_texts tf.

Definition _add_two_column_slide (prs : Presentation) (content : value)
  : result Presentation :=
  do slide_layout <- get_layout prs 3;
  let slide := new_slide 3 slide_layout in
  do title_tf <- title_text_frame slide;
  do text <- py_get content "title" (PyStr "Two Column Title");
  do p <- _process_markdown_to_runs (first_paragraph title_tf) text;
  let title_tf := set_first_paragraph title_tf p in
  let title_tf := _apply_font_style title_tf true in
  do left_data <- py_get content "left_column" (PyDict []);
  do left_tf <- placeholder_text_frame slide 1;
  do left_tf <- fill_column left_data left_tf;
  do right_data <- py_get content "right_column" (PyDict []);
  do right_tf <- placeholder_text_frame slide 2;
  do right_tf <- fill_column right_data right_tf;
  let left_tf := _apply_font_style left_tf false in
  let right_tf := _apply_font_style right_tf false in
  Ok (append_slide prs
        (set_text_frame
           (set_text_frame (set_text_frame slide 0 title_tf) 1 left_tf)
           2 right_tf)).

(** The body of the loop of [create_presentation] for one slide record. *)
Definition add_slide_for (prs : Presentation) (slide_info : value)
  : result Presentation :=
  do layout_name <- py_get slide_info "layout" PyNone;
  do content <- py_get slide_info "content" PyNone;
  if is_str layout_name "title_slide" then
    _add_title_slide prs content
  else if is_str layout_name "bullet_points" then
    _add_bullet_points_slide prs content
  else if is_str layout_name "two_column" then
    _add_two_column_slide prs content
  else Ok prs.

Fixpoint slides_loop (slide_infos : list value) (prs : Presentation)
  : result Presentation :=
  match slide_infos with
  | [] => Ok prs
  | slide_info :: rest =>
      do prs <- add_slide_for prs slide_info;
      slides_loop rest prs
  end.

(** [Presentation()]: the default template of python-pptx, eleven layouts
    and no slide.  Date, footer and slide number placeholders are not
    handed down to a new slide and are left out. *)
Definition default_presentation : Presentation :=
  {| slide_layouts :=
       [ {| layout_placeholders := [0; 1] |};
         {| layout_placeholders := [0; 1] |};
         {| layout_placeholders := [0; 1] |};
         {| layout_placeholders := [0; 1; 2] |};
         {| layout_placeholders := [0; 1; 2; 3; 4] |};
         {| layout_placeholders := [0] |};
         {| layout_placeholders := [] |};
         {| layout_placeholders := [0; 1; 2] |};
         {| layout_placeholders := [0; 1; 2] |};
         {| layout_placeholders := [0; 1] |};
         {| layout_placeholders := [0; 1] |} ];
     slides := [] |}.

(** What [create_presentation] leaves behind: the lines it printed and the
    document written at [output_path]. *)
Record Written := {
  stdout : list string;
  saved_path : string;
  saved : Presentation
}.

(** [open_pptx path] stands for [Presentation(path)]: the document stored
    at [path], or the exception raised on the way. *)
Definition create_presentation (open_pptx : string -> result Presentation)
    (presentation_data : value) (output_path aspect_ratio : string)
  : result Written :=
  let template_path := "template_16_9.pptx" in
  let template_path :=
    if String.eqb aspect_ratio "4:3" then "template_4_3.pptx" else template_path in
  do opened <-
    match open_pptx template_path with
    | Ok prs => Ok (prs, ["Using template: " +:+ template_path])
    | Raise FileNotFoundError =>
        Ok (default_presentation,
            ["WARNING: '" +:+ template_path
             +:+ "' not found. Using default blank presentation."])
    | Raise e => Raise e
    end;
  do slides_data <- py_get presentation_data "slides" (PyList []);
  do slide_infos <- py_iter slides_data;
  do prs <- slides_loop slide_infos (fst opened);
  Ok {| stdout := snd opened; saved_path := output_path; saved := prs |}.

(** [Presentation(path)] as python-pptx carries it out over the packages
    [files]: at a path where there is no package it raises its own
    [pptx.exc.PackageNotFoundError] ("Package not found at ..."), a
    subclass of [Exception] that is no [OSError]. *)
Definition Presentation_at (files : gmap string Presentation) (path : string)
  : result Presentation :=
  match files !! path with
  | Some prs => Ok prs
  | None => Raise PackageNotFoundError
  end.

(** ** [LLMService] *)

(** What awaiting [generate_content_async(prompt)] gives: the response text,
    or an exception with its message.  The prompt is built from [topic] and
    [num_slides] alone, so the model is a function of the two. *)
Inductive reply :=
| Text (text : string)
| Raises (message : string).

(** The dictionary [generate_slides_content] returns: the parsed content,
    or [{"error": ..., "details": ...}]. *)
Inductive response (Tree : Type) :=
| Parsed (tree : Tree)
| Failure (error details : string).
Arguments Parsed {Tree} tree.
Arguments Failure {Tree} error details.

Definition max_cache_size : nat := 100.

(** The service object: the cache, and the requests sent to the model so
    far, latest last. *)
Record LLMService (Tree : Type) := {
  cache : list (string * Z * Tree);
  model_calls : list (string * Z)
}.
Arguments cache {Tree} _.
Arguments model_calls {Tree} _.

Definition new_service {Tree} : LLMService Tree :=
  {| cache := []; model_calls := [] |}.

Section Generate.
Context {Tree : Type}.
(** [json.loads]: the value, or the message of the [JSONDecodeError]. *)
Variable json_loads : string -> Tree + string.
Variable model : string -> Z -> reply.

Definition generate_slides_content (self : LLMService Tree)
    (topic : string) (num_slides : Z) : response Tree * LLMService Tree :=
  let cache_key := (lower topic, num_slides) in
  match dict_get (cache self) cache_key with
  | Some tree => (Parsed tree, self)
  | None =>
      let self :=
        {| cache := cache self;
           model_calls := model_calls self ++ [(topic, num_slides)] |} in
      let failed details :=
        (Failure "Failed to generate or parse content from LLM." details, self) in
      match model topic num_slides with
      | Raises message => failed message
      | Text text =>
          let response_text := strip text in
          let response_text :=
            if startswith response_text "```json"
            then drop_chars 7 response_text else response_text in
          let response_text :=
            if endswith response_text "```"
            then drop_last_chars 3 response_text else response_text in
          match json_loads response_text with
          | inr message => failed message
          | inl parsed_json =>
              let cache' := dict_set (cache self) cache_key parsed_json in
              let cache' :=
                if (max_cache_size <? length cache')%nat then
                  match dict_first cache' with
                  | Some oldest_key => dict_del cache' oldest_key
                  | None => cache'
                  end
                else cache' in
              (Parsed parsed_json,
               {| cache := cache'; model_calls := model_calls self |})
          end
      end
  end.
End Generate.

(** A run of requests against one service object; the model may answer
    each request in its own way. *)
Fixpoint serve {Tree} (json_loads : string -> Tree + string)
    (self : LLMService Tree) (requests : list ((string -> Z -> reply) * string * Z))
  : LLMService Tree :=
  match requests with
  | [] => self
  | (model, topic, num_slides) :: rest =>
      serve json_loads
        (snd (generate_slides_content json_loads model self topic num_slides)) rest
  end.

Definition cache_key_of (request : (string -> Z -> reply) * string * Z) : string * Z :=
  (lower (snd (fst request)), snd request).

(** The [response] as the caller holds it, a Python value: the parsed
    reply itself, or the dictionary of the [except] branch. *)
Definition returned (r : response value) : value :=
  match r with
  | Parsed tree => tree
  | Failure error details =>
      PyDict [("error", PyStr error); ("details", PyStr details)]
  end.

(** ** [src/models.py] and the endpoint of [src/main.py] *)

Inductive AspectRatio := widescreen | standard.

(** [aspect_ratio.value]. *)
Definition AspectRatio_value (a : AspectRatio) : string :=
  match a with
  | widescreen => "16:9"
  | standard => "4:3"
  end.

(** A request body that passed validation. *)
Record PresentationRequest := {
  topic : string;
  num_slides : Z;
  aspect_ratio : AspectRatio
}.

(** What the endpoint returns when it does not raise. *)
Record FileResponse := {
  path : string;
  media_type : string;
  filename : string
}.

Definition OUTPUT_DIR : string := "generated_presentations".

Definition PPTX_MEDIA_TYPE : string :=
  "application/vnd.openxmlformats-officedocument.presentationml.presentation".

(** The module state of [main.py]: the service object and, for the
    directory of generated presentations, the documents written so far. *)
Record App := {
  llm_service : LLMService value;
  output_files : list Written
}.

Section Endpoint.
Variable json_loads : string -> value + string.
(** [str(e)]. *)
Variable str_of_exception : exception -> string.

(** The two tests of [generate_presentation] on [content_data] (lines 59
    to 65), with the argument of the first log line, which is evaluated
    too. *)
Definition check_content (content_data : value) : result unit :=
  do has_error <- py_in "error" content_data;
  do checked <-
    (if has_error then
       do details <- py_get content_data "details" PyNone;
       do detail <- py_getitem content_data "error";
       Raise (HTTPException 500 detail)
     else Ok tt);
  do invalid <-
    (if negb (truthy content_data) then Ok true
     else do has_slides <- py_in "slides" content_data; Ok (negb has_slides));
  if invalid then
    Raise (HTTPException 500 (PyStr "Failed to generate valid slide content."))
  else Ok tt.

(** [generate_presentation] under [@limiter.limit("5/minute")].
    [within_limit] is the verdict of the limiter on the request: when the
    client has used up its five requests of the minute, the decorator
    raises [RateLimitExceeded], which the application answers with status
    429, and the body does not run.  [uuid4] is the value of [uuid.uuid4()]
    for this request, and [os.path.join] joins with [/].  An exception
    raised by [create_presentation] is caught and wrapped; any other one
    leaves the endpoint as it is. *)
Definition generate_presentation (model : string -> Z -> reply)
    (open_pptx : string -> result Presentation) (uuid4 : string)
    (within_limit : bool) (app : App) (presentation_request : PresentationRequest)
  : result FileResponse * App :=
  if negb within_limit then (Raise RateLimitExceeded, app)
  else
    let generated :=
      generate_slides_content json_loads model (llm_service app)
        (topic presentation_request) (num_slides presentation_request) in
    let content_data := returned (fst generated) in
    let app := {| llm_service := snd generated; output_files := output_files app |} in
    match check_content content_data with
    | Raise e => (Raise e, app)
    | Ok _ =>
        let unique_filename := uuid4 +:+ ".pptx" in
        let output_path := OUTPUT_DIR +:+ "/" +:+ unique_filename in
        match create_presentation open_pptx content_data output_path
                (AspectRatio_value (aspect_ratio presentation_request)) with
        | Raise e =>
            (Raise (HTTPException 500
                      (PyStr ("Failed to create presentation file: "
                              +:+ str_of_exception e))), app)
        | Ok file =>
            (Ok {| path := output_path;
                   media_type := PPTX_MEDIA_TYPE;
                   filename := replace " " "_" (topic presentation_request)
                               +:+ "_presentation.pptx" |},
             {| llm_service := llm_service app;
                output_files := output_files app ++ [file] |})
        end
    end.
End Endpoint.

(** ** Vocabulary of the properties *)

(** A text cut at its delimiter pairs: a plain head, then for each pair
    the delimiter, the text inside the pair and the plain text after it. *)
Record Segment := {
  segment_delimiter : delimiter;
  segment_inner : string;
  segment_trailing : string
}.

Fixpoint written_segments (segments : list Segment) : string :=
  match segments with
  | [] => ""
  | s :: rest =>
      delimiter_text (segment_delimiter s) +:+ segment_inner s
      +:+ delimiter_text (segment_delimiter s) +:+ segment_trailing s
      +:+ written_segments rest
  end.

(** The text with its delimiters, and with the delimiter pairs removed. *)
Definition written (head : string) (segments : list Segment) : string :=
  head +:+ written_segments segments.

Fixpoint stripped_segments (segments : list Segment) : string :=
  match segments with
  | [] => ""
  | s :: rest => segment_inner s +:+ segment_trailing s +:+ stripped_segments rest
  end.

Definition stripped (head : string) (segments : list Segment) : string :=
  head +:+ stripped_segments segments.

(** The parts [re.split] gives for such a text. *)
Definition segment_parts (s : Segment) : list string :=
  [delimiter_text (segment_delimiter s); segment_inner s; segment_trailing s].

Definition parts_of (head : string) (segments : list Segment) : list string :=
  head :: flat_map segment_parts segments.

Definition opens (s : string) : bool :=
  match match_delimiter s with Some _ => true | None => false end.

(** No [**] and no [__] begins at a position of [p] when [t] follows [p]. *)
Fixpoint no_delimiter_in (p t : string) : bool :=
  match p with
  | EmptyString => true
  | String a p' => negb (opens (String a (p' +:+ t))) && no_delimiter_in p' t
  end.

(** Delimiter-balanced, pairs not nested: no [**] and no [__] begins
    inside the text of a pair or inside a plain part, so the delimiters of
    the pairs are the only ones the text has. *)
Fixpoint balanced_segments (segments : list Segment) : bool :=
  match segments with
  | [] => true
  | s :: rest =>
      no_delimiter_in (segment_inner s) (delimiter_text (segment_delimiter s))
      && no_delimiter_in (segment_trailing s) (written_segments rest)
      && balanced_segments rest
  end.

Definition balanced (head : string) (segments : list Segment) : bool :=
  no_delimiter_in head (written_segments segments) && balanced_segments segments.

Fixpoint on_one_line (s : string) : bool :=
  match s with
  | EmptyString => true
  | String a s' => negb (Ascii.eqb a newline) && on_one_line s'
  end.

Definition inner_on_one_line (segments : list Segment) : bool :=
  forallb (fun s => on_one_line (segment_inner s)) segments.

(** The text has no control character but tab and line feed, so that
    python-pptx stores it as it is. *)
Fixpoint no_ctrl_char (s : string) : bool :=
  match s with
  | EmptyString => true
  | String a s' => negb (is_ctrl_char a) && no_ctrl_char s'
  end.

(** The runs of a paragraph, span by span. *)
Definition plain_run (t : string) : Run := set_text fresh_run t.

Definition styled_run (d : delimiter) (t : string) : Run :=
  match d with
  | Bold => set_bold (set_text fresh_run t) true
  | Underline => set_underline (set_text fresh_run t) true
  end.

Definition segment_runs (s : Segment) : list Run :=
  [styled_run (segment_delimiter s) (segment_inner s); plain_run (segment_trailing s)].

Definition runs_of (head : string) (segments : list Segment) : list Run :=
  plain_run head :: flat_map segment_runs segments.

(** The text of a run with the delimiters of its style put back. *)
Definition run_source (r : Run) : string :=
  if bool_decide (font_bold (run_font r) = Some true)
  then "**" +:+ run_text r +:+ "**"
  else if bool_decide (font_underline (run_font r) = Some true)
  then "__" +:+ run_text r +:+ "__"
  else run_text r.

Definition paragraph_source (p : Paragraph) : string :=
  String.concat "" (map run_source (paragraph_runs p)).

(** [p] with the runs [rs] added at its end. *)
Definition with_runs (p : Paragraph) (rs : list Run) : Paragraph :=
  {| paragraph_runs := paragraph_runs p ++ rs; paragraph_level := paragraph_level p |}.

(** The runs the parser leaves in a paragraph for the text [text]. *)
Definition markdown_runs (text : string) : list Run :=
  match _process_markdown_to_runs empty_paragraph (PyStr text) with
  | Ok p => paragraph_runs p
  | Raise _ => []
  end.

(** A paragraph of a body region: parsed, put at [level], styled as body. *)
Definition body_paragraph (text : string) (level : nat) : Paragraph :=
  {| paragraph_runs := map (apply_font_style_run false) (markdown_runs text);
     paragraph_level := level |}.

Definition title_paragraph (text : string) : Paragraph :=
  {| paragraph_runs := map (apply_font_style_run true) (markdown_runs text);
     paragraph_level := 0 |}.

(** The content of a slide as the prompt of [generate_slides_content] asks
    the model for it: every key may be missing, and a value that is there
    is a text, a list of texts or a column. *)
Record Column := {
  heading : option string;
  column_points : option (list string)
}.

Record Content := {
  title : option string;
  subtitle : option string;
  points : option (list string);
  left_column : option Column;
  right_column : option Column
}.

Definition empty_column : Column :=
  {| heading := None; column_points := None |}.

Definition empty_content : Content :=
  {| title := None; subtitle := None; points := None;
     left_column := None; right_column := None |}.

(** The dictionary of such a content: the fields that are there, in the
    order of the prompt. *)
Definition entry {A} (key : string) (to_value : A -> value) (field : option A)
  : list (string * value) :=
  match field with
  | Some a => [(key, to_value a)]
  | None => []
  end.

Definition str_list (texts : list string) : value := PyList (map PyStr texts).

Definition column_dict (c : Column) : value :=
  PyDict (entry "heading" PyStr (heading c)
          ++ entry "points" str_list (column_points c)).

Definition content_dict (c : Content) : value :=
  PyDict (entry "title" PyStr (title c)
          ++ entry "subtitle" PyStr (subtitle c)
          ++ entry "points" str_list (points c)
          ++ entry "left_column" column_dict (left_column c)
          ++ entry "right_column" column_dict (right_column c)).

(** A value that has the shape of a content: a dictionary whose [title],
    [subtitle], [points], [left_column] and [right_column], where present,
    are of the types above; other keys may be there too. *)
Definition is_text (v : value) : bool :=
  match v with
  | PyStr _ => true
  | _ => false
  end.

Definition is_text_list (v : value) : bool :=
  match v with
  | PyList items => forallb is_text items
  | _ => false
  end.

Definition optional (check : value -> bool) (items : list (string * value))
    (key : string) : bool :=
  match dict_get items key with
  | Some v => check v
  | None => true
  end.

Definition is_column (v : value) : bool :=
  match v with
  | PyDict items =>
      optional is_text items "heading" && optional is_text_list items "points"
  | _ => false
  end.

Definition is_content (v : value) : bool :=
  match v with
  | PyDict items =>
      optional is_text items "title"
      && optional is_text items "subtitle"
      && optional is_text_list items "points"
      && optional is_column items "left_column"
      && optional is_column items "right_column"
  | _ => false
  end.

(** The content that a value of that shape holds. *)
Definition text_of (v : value) : string :=
  match v with
  | PyStr s => s
  | _ => ""
  end.

Definition texts_of (v : value) : list string :=
  match v with
  | PyList items => map text_of items
  | _ => []
  end.

Definition field {A} (of_value : value -> A) (v : value) (key : string) : option A :=
  match v with
  | PyDict items => of_value <$> dict_get items key
  | _ => None
  end.

Definition column_of (v : value) : Column :=
  {| heading := field text_of v "heading";
     column_points := field texts_of v "points" |}.

Definition content_of (v : value) : Content :=
  {| title := field text_of v "title";
     subtitle := field text_of v "subtitle";
     points := field texts_of v "points";
     left_column := field column_of v "left_column";
     right_column := field column_of v "right_column" |}.

(** The paragraphs a column is given: the heading, when there is one and
    it is not empty, at level 0, then the points at level 1. *)
Definition column_paragraphs (data : Column) : list Paragraph :=
  match heading data with
  | Some h => if String.eqb h "" then [] else [body_paragraph h 0]
  | None => []
  end
  ++ map (fun point_text => body_paragraph point_text 1)
         (default [] (column_points data)).

(** The layout of a slide record, [None] when it has none. *)
Definition layout_name_of (slide_info : value) : value :=
  match slide_info with
  | PyDict items => default PyNone (dict_get items "layout")
  | _ => PyNone
  end.

Definition recognised (slide_info : value) : bool :=
  is_str (layout_name_of slide_info) "title_slide"
  || is_str (layout_name_of slide_info) "bullet_points"
  || is_str (layout_name_of slide_info) "two_column".

Definition is_two_column (slide_info : value) : bool :=
  is_str (layout_name_of slide_info) "two_column".

(** The index into [prs.slide_layouts] that each renderer uses. *)
Definition layout_index (slide_info : value) : nat :=
  if is_str (layout_name_of slide_info) "title_slide" then 0
  else if is_str (layout_name_of slide_info) "bullet_points" then 1
  else 3.

(** A slide record as the prompt describes it: a dictionary, with a content
    of the shape above when its layout is one of the three. *)
Definition well_formed (slide_info : value) : bool :=
  match slide_info with
  | PyDict items =>
      negb (recognised slide_info)
      || match dict_get items "content" with
         | Some content => is_content content
         | None => false
         end
  | _ => false
  end.

Definition has_placeholders (prs : Presentation) (i : nat) (idxs : list nat) : bool :=
  match slide_layouts prs !! i with
  | Some l => forallb (fun idx => bool_decide (idx ∈ layout_placeholders l)) idxs
  | None => false
  end.

(** The document has the layouts and placeholders the renderers reach for. *)
Definition supports (prs : Presentation) : bool :=
  has_placeholders prs 0 [0; 1]
  && has_placeholders prs 1 [0; 1]
  && has_placeholders prs 3 [0; 1; 2].

(** The slides one record adds to a document with these layouts. *)
Definition rendered (layouts : list SlideLayout) (slide_info : value)
  : result (list Slide) :=
  match add_slide_for {| slide_layouts := layouts; slides := [] |} slide_info with
  | Ok prs => Ok (slides prs)
  | Raise e => Raise e
  end.

Definition template_path_for (aspect_ratio : string) : string :=
  if String.eqb aspect_ratio "4:3" then "template_4_3.pptx" else "template_16_9.pptx".

(** The slides the three renderers build from a layout [l]. *)
Definition title_frame (text : string) : TextFrame :=
  {| first_paragraph := title_paragraph text; more_paragraphs := [] |}.

Definition title_slide_of (l : SlideLayout) (content : Content) : Slide :=
  set_text_frame
    (set_text_frame (new_slide 0 l) 0
       (title_frame (default "Presentation Title" (title content))))
    1 {| first_paragraph := body_paragraph (default "" (subtitle content)) 0;
         more_paragraphs := [] |}.

Definition bullet_points_slide_of (l : SlideLayout) (content : Content) : Slide :=
  set_text_frame
    (set_text_frame (new_slide 1 l) 0
       (title_frame (default "Slide Title" (title content))))
    1 {| first_paragraph := empty_paragraph;
         more_paragraphs :=
           map (fun t => body_paragraph t 0) (default [] (points content)) |}.

Definition column_frame (data : Column) : TextFrame :=
  {| first_paragraph := empty_paragraph; more_paragraphs := column_paragraphs data |}.

Definition two_column_slide_of (l : SlideLayout) (content : Content) : Slide :=
  set_text_frame
    (set_text_frame
       (set_text_frame (new_slide 3 l) 0
          (title_frame (default "Two Column Title" (title content))))
       1 (column_frame (default empty_column (left_column content))))
    2 (column_frame (default empty_column (right_column content))).

(** What the [try] block of [generate_slides_content] comes to on a miss:
    the parsed content, or the message of the exception. *)
Definition produced {Tree} (json_loads : string -> Tree + string)
    (model : string -> Z -> reply) (topic : string) (num_slides : Z) : Tree + string :=
  match model topic num_slides with
  | Raises message => inr message
  | Text text =>
      let response_text := strip text in
      let response_text :=
        if startswith response_text "```json"
        then drop_chars 7 response_text else response_text in
      let response_text :=
        if endswith response_text "```"
        then drop_last_chars 3 response_text else response_text in
      json_loads response_text
  end.

Definition succeeds {Tree} (json_loads : string -> Tree + string)
    (request : (string -> Z -> reply) * string * Z) : bool :=
  match produced json_loads (fst (fst request)) (snd (fst request)) (snd request) with
  | inl _ => true
  | inr _ => false
  end.

Definition record_call {Tree} (self : LLMService Tree) (topic : string) (num_slides : Z)
  : LLMService Tree :=
  {| cache := cache self; model_calls := model_calls self ++ [(topic, num_slides)] |}.

(** The text has a [*] or a [_] in it. *)
Fixpoint has_delimiter_char (s : string) : bool :=
  match s with
  | EmptyString => false
  | String a s' => Ascii.eqb a "*" || Ascii.eqb a "_" || has_delimiter_char s'
  end.


Fixpoint all_space (s : string) : bool :=
  match s with
  | EmptyString => true
  | String a s' => is_space a && all_space s'
  end.

(** A segment as the pattern can match it: the inner text stays on one
    line and does not hold the delimiter of the pair. *)
Definition matched_segment (s : Segment) : bool :=
  on_one_line (segment_inner s)
  && negb (occurs (delimiter_text (segment_delimiter s)) (segment_inner s)).

(** The request that reached the model for the key [k] is among [calls]. *)
Definition asked_for (calls : list (string * Z)) (k : string * Z) : Prop :=
  exists topic, (topic, snd k) ∈ calls /\ lower topic = fst k.

(** What a request hands to the model when it is a miss. *)
Definition call_of (request : (string -> Z -> reply) * string * Z) : string * Z :=
  (snd (fst request), snd request).

(** [s] between two double quotes, as a JSON text writes a string without
    special characters. *)
Definition quoted (s : string) : string :=
  String (ascii_of_nat 34) (s +:+ String (ascii_of_nat 34) EmptyString).

(** A request as it reaches the application: the verdict of the limiter on
    it, what the model and the template store would answer at that moment,
    the identifier that would be drawn, and the validated body. *)
Record Arrival := {
  arrival_within_limit : bool;
  arrival_model : string -> Z -> reply;
  arrival_open_pptx : string -> result Presentation;
  arrival_uuid4 : string;
  arrival_request : PresentationRequest
}.

(** The application after a run of requests, one after the other. *)
Fixpoint handle_all (json_loads : string -> value + string)
    (str_of_exception : exception -> string) (app : App) (arrivals : list Arrival)
  : App :=
  match arrivals with
  | [] => app
  | a :: rest =>
      handle_all json_loads str_of_exception
        (snd (generate_presentation json_loads str_of_exception
                (arrival_model a) (arrival_open_pptx a) (arrival_uuid4 a)
                (arrival_within_limit a) app (arrival_request a)))
        rest
  end.

Definition is_dict (v : value) : bool :=
  match v with
  | PyDict _ => true
  | _ => false
  end.

(** ** Strings *)

Lemma append_cons a s t : String a s +:+ t = String a (s +:+ t).
Proof. reflexivity. Qed.

Lemma append_empty_l s : "" +:+ s = s.
Proof. reflexivity. Qed.

Lemma append_empty_r s : s +:+ "" = s.
Proof. induction s as [|a s IH]; [reflexivity|]. rewrite append_cons. by rewrite IH. Qed.

Lemma append_assoc s t u : (s +:+ t) +:+ u = s +:+ t +:+ u.
Proof.
  induction s as [|a s IH]; [reflexivity|].
  rewrite !append_cons. by rewrite IH.
Qed.

Lemma length_append s t : String.length (s +:+ t) = String.length s + String.length t.
Proof.
  induction s as [|a s IH]; [reflexivity|].
  rewrite append_cons. simpl. by rewrite IH.
Qed.

Lemma strip_prefix_sound p s r : strip_prefix p s = Some r -> s = p +:+ r.
Proof.
  revert s. induction p as [|a p IH]; intros s H; simpl in H.
  - by inversion H.
  - destruct s as [|b s]; [discriminate|].
    destruct (Ascii.eqb_spec a b) as [->|]; [|discriminate].
    rewrite append_cons. f_equal. by apply IH.
Qed.

(** ** The pattern: what a match is made of *)

Lemma match_delimiter_sound s d r :
  match_delimiter s = Some (d, r) -> s = delimiter_text d +:+ r.
Proof.
  destruct s as [|a [|b s]]; simpl; try discriminate.
  destruct (Ascii.eqb_spec a "*"), (Ascii.eqb_spec b "*"); simpl;
    try (intros [= <- <-]; by subst);
    destruct (Ascii.eqb_spec a "_"), (Ascii.eqb_spec b "_"); simpl;
    try discriminate; intros [= <- <-]; by subst.
Qed.

Lemma match_delimiter_text d r :
  match_delimiter (delimiter_text d +:+ r) = Some (d, r).
Proof. by destruct d. Qed.

Lemma match_lazy_sound d s inner rest :
  match_lazy d s = Some (inner, rest) -> s = inner +:+ delimiter_text d +:+ rest.
Proof.
  revert inner rest. induction s as [|c s IH]; intros inner rest.
  - simpl. destruct (strip_prefix (delimiter_text d) "") as [r|] eqn:E; [|discriminate].
    intros [= <- <-]. by apply strip_prefix_sound in E.
  - simpl. destruct (strip_prefix (delimiter_text d) (String c s)) as [r|] eqn:E.
    + intros [= <- <-]. by apply strip_prefix_sound in E.
    + destruct (Ascii.eqb c newline); [discriminate|].
      destruct (match_lazy d s) as [[i r]|]; [|discriminate].
      intros [= <- <-]. rewrite append_cons. f_equal. by apply IH.
Qed.

Lemma match_here_sound s d inner rest :
  match_here s = Some (d, inner, rest) ->
  s = delimiter_text d +:+ inner +:+ delimiter_text d +:+ rest.
Proof.
  unfold match_here.
  destruct (match_delimiter s) as [[d' r]|] eqn:Ed; [|discriminate].
  destruct (match_lazy d' r) as [[i r']|] eqn:El; [|discriminate].
  intros [= <- <- <-].
  apply match_delimiter_sound in Ed. apply match_lazy_sound in El. by subst.
Qed.

Lemma search_sound s before d inner rest :
  search s = Some (before, d, inner, rest) ->
  s = before +:+ delimiter_text d +:+ inner +:+ delimiter_text d +:+ rest.
Proof.
  revert before. induction s as [|c s IH]; intros before.
  - discriminate.
  - simpl. destruct (match_here (String c s)) as [[[d' i] r]|] eqn:E.
    + intros [= <- <- <- <-]. by apply match_here_sound in E.
    + destruct (search s) as [[[[b d'] i] r]|]; [|discriminate].
      intros [= <- <- <- <-]. rewrite append_cons. f_equal. by apply IH.
Qed.

Lemma search_consumes s before d inner rest :
  search s = Some (before, d, inner, rest) -> String.length rest < String.length s.
Proof.
  intros H. apply search_sound in H. subst s.
  rewrite !length_append. destruct d; simpl; lia.
Qed.

(** ** [re.split]: enough fuel, and the shape of the result *)

Lemma split_from_enough f1 f2 s :
  String.length s <= f1 -> String.length s <= f2 ->
  split_from f1 s = split_from f2 s.
Proof.
  revert f2 s. induction f1 as [|f1 IH]; intros f2 s H1 H2.
  - destruct s; [|simpl in H1; lia]. by destruct f2.
  - destruct f2 as [|f2].
    + destruct s; [|simpl in H2; lia]. reflexivity.
    + simpl. destruct (search s) as [[[[b d] i] r]|] eqn:E; [|reflexivity].
      apply search_consumes in E. do 3 f_equal. apply IH; lia.
Qed.

Lemma re_split_eq s :
  re_split s =
  match search s with
  | Some (before, d, inner, rest) =>
      before :: delimiter_text d :: inner :: re_split rest
  | None => [s]
  end.
Proof.
  unfold re_split. destruct s as [|c s]; [reflexivity|].
  change (String.length (String c s)) with (S (String.length s)).
  cbn [split_from]. destruct (search (String c s)) as [[[[b d] i] r]|] eqn:E; [|reflexivity].
  apply search_consumes in E. simpl in E. do 3 f_equal. apply split_from_enough; lia.
Qed.

Lemma split_from_shape fuel s :
  exists head segments,
    split_from fuel s = parts_of head segments /\ written head segments = s.
Proof.
  revert s. induction fuel as [|fuel IH]; intros s.
  - exists s, []. split; [reflexivity|]. apply append_empty_r.
  - simpl. destruct (search s) as [[[[b d] i] r]|] eqn:E.
    + destruct (IH r) as (h & segs & Hp & Hw).
      exists b, ({| segment_delimiter := d; segment_inner := i;
                    segment_trailing := h |} :: segs).
      split.
      * rewrite Hp. reflexivity.
      * apply search_sound in E. rewrite E. unfold written in *. simpl.
        by rewrite <- Hw.
    + exists s, []. split; [reflexivity|]. apply append_empty_r.
Qed.

Lemma length_parts_of head segments :
  length (parts_of head segments) = 1 + 3 * length segments.
Proof.
  unfold parts_of. simpl. f_equal.
  induction segments as [|s segs IH]; [reflexivity|]. simpl. lia.
Qed.

(** ** The loop over the parts *)

Lemma with_runs_nil p : with_runs p [] = p.
Proof. destruct p. unfold with_runs. simpl. by rewrite app_nil_r. Qed.

Lemma with_runs_app p rs1 rs2 : with_runs (with_runs p rs1) rs2 = with_runs p (rs1 ++ rs2).
Proof. unfold with_runs. simpl. by rewrite app_assoc. Qed.

Lemma add_run_with_runs p r : add_run p r = with_runs p [r].
Proof. reflexivity. Qed.

Lemma getitem_app_r {A} (pre l : list A) (i : nat) :
  getitem (pre ++ l) (length pre + i) = getitem l i.
Proof.
  unfold getitem. rewrite lookup_app_r by lia.
  by replace (length pre + i - length pre) with i by lia.
Qed.

Lemma styled_run_eq d t :
  (if String.eqb (delimiter_text d) "**" then set_bold (set_text fresh_run t) true
   else if String.eqb (delimiter_text d) "__" then set_underline (set_text fresh_run t) true
   else set_text fresh_run t) = styled_run d t.
Proof. by destruct d. Qed.

Lemma markdown_loop_segments segments : forall pre fuel p,
  3 * length segments <= fuel ->
  markdown_loop (pre ++ flat_map segment_parts segments)
    (range_from fuel (length pre) (length pre + 3 * length segments) 3) p
  = Ok (with_runs p (flat_map segment_runs segments)).
Proof.
  induction segments as [|s segs IH]; intros pre fuel p Hfuel.
  - simpl. rewrite with_runs_nil.
    destruct fuel; simpl; [reflexivity|].
    replace (length pre + 0) with (length pre) by lia.
    by rewrite Nat.ltb_irrefl.
  - destruct fuel as [|fuel]; [simpl in Hfuel; lia|].
    cbn [range_from].
    assert ((length pre <? length pre + 3 * length (s :: segs))%nat = true) as ->
      by (apply Nat.ltb_lt; simpl; lia).
    cbn [markdown_loop flat_map].
    replace (length pre) with (length pre + 0) at 1 by lia.
    rewrite !getitem_app_r. cbn [getitem segment_parts app lookup list_lookup bind].
    rewrite styled_run_eq.
    match goal with
    | |- context [(?a <? ?b)%nat] =>
        assert ((a <? b)%nat = true) as ->
          by (apply Nat.ltb_lt; rewrite length_app; simpl; lia)
    end.
    change (pre ++ delimiter_text (segment_delimiter s) :: segment_inner s
                :: segment_trailing s :: flat_map segment_parts segs)%list
      with (pre ++ segment_parts s ++ flat_map segment_parts segs)%list.
    rewrite (app_assoc pre).
    replace (length pre + 3) with (length (pre ++ segment_parts s)%list)
      by (rewrite length_app; reflexivity).
    replace (length pre + 3 * length (s :: segs))
      with (length (pre ++ segment_parts s)%list + 3 * length segs)
      by (rewrite length_app; simpl; lia).
    rewrite IH by (simpl in Hfuel; lia).
    rewrite !add_run_with_runs, !with_runs_app. reflexivity.
Qed.

Lemma process_markdown_parts paragraph text head segments :
  re_split text = parts_of head segments ->
  _process_markdown_to_runs paragraph (PyStr text) =
  Ok {| paragraph_runs := runs_of head segments;
        paragraph_level := paragraph_level paragraph |}.
Proof.
  intros Hparts. unfold _process_markdown_to_runs. cbn [py_re_split bind].
  rewrite Hparts.
  cbn [getitem parts_of lookup list_lookup bind].
  rewrite length_parts_of. unfold py_range.
  exact (markdown_loop_segments segments [head] (1 + 3 * length segments)
           (add_run (paragraph_clear paragraph) (set_text fresh_run head))
           ltac:(lia)).
Qed.

(** ** Control characters in the text of a run *)

Lemma escape_append s t :
  _escape_ctrl_chars (s +:+ t) = _escape_ctrl_chars s +:+ _escape_ctrl_chars t.
Proof.
  induction s as [|a s IH]; [reflexivity|].
  rewrite append_cons. cbn [_escape_ctrl_chars]. by rewrite IH, append_assoc.
Qed.

Lemma escape_no_ctrl_char s : no_ctrl_char s = true -> _escape_ctrl_chars s = s.
Proof.
  induction s as [|a s IH]; [reflexivity|].
  cbn [no_ctrl_char _escape_ctrl_chars]. intros [Ha Hs]%andb_prop.
  apply negb_true_iff in Ha. by rewrite Ha, (IH Hs).
Qed.

Lemma escape_delimiter d : _escape_ctrl_chars (delimiter_text d) = delimiter_text d.
Proof. by destruct d. Qed.

Lemma no_ctrl_char_append s t :
  no_ctrl_char (s +:+ t) = no_ctrl_char s && no_ctrl_char t.
Proof.
  induction s as [|a s IH]; [reflexivity|].
  rewrite append_cons. cbn [no_ctrl_char]. by rewrite IH, andb_assoc.
Qed.

Lemma no_ctrl_char_delimiter d : no_ctrl_char (delimiter_text d) = true.
Proof. by destruct d. Qed.

Lemma concat_empty_cons x l : String.concat "" (x :: l) = x +:+ String.concat "" l.
Proof. destruct l; simpl; [by rewrite append_empty_r|reflexivity]. Qed.

Lemma run_text_styled d t : run_text (styled_run d t) = _escape_ctrl_chars t.
Proof. by destruct d. Qed.

Lemma text_of_runs head segments :
  String.concat "" (map run_text (runs_of head segments))
  = _escape_ctrl_chars (stripped head segments).
Proof.
  unfold runs_of, stripped. rewrite map_cons, concat_empty_cons, escape_append.
  f_equal.
  induction segments as [|s segs IH]; [reflexivity|].
  cbn [flat_map segment_runs app map stripped_segments].
  rewrite !concat_empty_cons, IH, run_text_styled, !escape_append. reflexivity.
Qed.

Lemma run_source_styled d t :
  run_source (styled_run d t)
  = delimiter_text d +:+ _escape_ctrl_chars t +:+ delimiter_text d.
Proof. by destruct d. Qed.

Lemma run_source_plain t : run_source (plain_run t) = _escape_ctrl_chars t.
Proof. reflexivity. Qed.

Lemma source_of_runs head segments :
  String.concat "" (map run_source (runs_of head segments))
  = _escape_ctrl_chars (written head segments).
Proof.
  unfold runs_of, written. rewrite map_cons, concat_empty_cons, escape_append.
  rewrite run_source_plain. f_equal.
  induction segments as [|s segs IH]; [reflexivity|].
  cbn [flat_map segment_runs app map written_segments].
  rewrite !concat_empty_cons, IH, run_source_styled, run_source_plain.
  rewrite !escape_append, !escape_delimiter. by rewrite !append_assoc.
Qed.

(** The delimiters do not count: a text and the same text without its
    delimiter pairs have control characters, or none, together. *)
Lemma no_ctrl_char_stripped head segments :
  no_ctrl_char (written head segments) = no_ctrl_char (stripped head segments).
Proof.
  unfold written, stripped. rewrite !no_ctrl_char_append. f_equal.
  induction segments as [|s segs IH]; [reflexivity|].
  cbn [written_segments stripped_segments].
  rewrite !no_ctrl_char_append, !no_ctrl_char_delimiter, IH. reflexivity.
Qed.

(** ** The pattern on a delimiter-balanced text *)

Lemma opens_append a b r t :
  opens (String a (String b r) +:+ t) = opens (String a (String b r)).
Proof.
  rewrite !append_cons. unfold opens, match_delimiter.
  by repeat case_match.
Qed.

Lemma opens_false_match_here s : opens s = false -> match_here s = None.
Proof.
  unfold opens, match_here. by destruct (match_delimiter s) as [[d r]|].
Qed.

Lemma strip_prefix_opens d s r :
  strip_prefix (delimiter_text d) s = Some r -> opens s = true.
Proof.
  intros H. apply strip_prefix_sound in H. subst s.
  unfold opens. by rewrite match_delimiter_text.
Qed.

Lemma search_here s d inner rest :
  match_here s = Some (d, inner, rest) -> search s = Some ("", d, inner, rest).
Proof. intros H. destruct s; [discriminate|]. cbn [search]. by rewrite H. Qed.

Lemma search_skip p t :
  no_delimiter_in p t = true ->
  search (p +:+ t) =
  match search t with
  | Some (before, d, inner, rest) => Some (p +:+ before, d, inner, rest)
  | None => None
  end.
Proof.
  induction p as [|a p IH]; intros H.
  - rewrite append_empty_l. by destruct (search t) as [[[[b d] i] r]|].
  - simpl in H. apply andb_prop in H as [Ha Hp].
    apply negb_true_iff in Ha. rewrite append_cons. simpl.
    rewrite (opens_false_match_here _ Ha), (IH Hp).
    by destruct (search t) as [[[[b d] i] r]|].
Qed.

Lemma match_lazy_here d rest : match_lazy d (delimiter_text d +:+ rest) = Some ("", rest).
Proof. by destruct d. Qed.

Lemma match_lazy_inner d inner rest :
  no_delimiter_in inner (delimiter_text d) = true ->
  on_one_line inner = true ->
  match_lazy d (inner +:+ delimiter_text d +:+ rest) = Some (inner, rest).
Proof.
  induction inner as [|a inner IH]; intros Hd Hl.
  - apply match_lazy_here.
  - simpl in Hd, Hl. apply andb_prop in Hd as [Ha Hd]. apply andb_prop in Hl as [Hn Hl].
    apply negb_true_iff in Ha, Hn.
    rewrite append_cons. simpl.
    destruct (strip_prefix (delimiter_text d) (String a (inner +:+ delimiter_text d +:+ rest)))
      as [r|] eqn:E.
    + apply strip_prefix_opens in E.
      assert (opens (String a (inner +:+ delimiter_text d) +:+ rest) = true) as E'
        by (by rewrite append_cons, append_assoc).
      destruct (inner +:+ delimiter_text d) as [|b w] eqn:Ew.
      { destruct inner, d; discriminate. }
      rewrite opens_append in E'. congruence.
    + rewrite Hn. by rewrite (IH Hd Hl).
Qed.

Lemma search_segment s rest :
  no_delimiter_in (segment_inner s) (delimiter_text (segment_delimiter s)) = true ->
  on_one_line (segment_inner s) = true ->
  search (delimiter_text (segment_delimiter s) +:+ segment_inner s
          +:+ delimiter_text (segment_delimiter s) +:+ rest)
  = Some ("", segment_delimiter s, segment_inner s, rest).
Proof.
  intros Hd Hl. apply search_here. unfold match_here.
  rewrite match_delimiter_text. by rewrite match_lazy_inner.
Qed.

Lemma re_split_balanced segments : forall head,
  no_delimiter_in head (written_segments segments) = true ->
  balanced_segments segments = true ->
  inner_on_one_line segments = true ->
  re_split (head +:+ written_segments segments) = parts_of head segments.
Proof.
  induction segments as [|s segs IH]; intros head Hh Hb Hl; rewrite re_split_eq.
  - rewrite (search_skip _ _ Hh). simpl. by rewrite append_empty_r.
  - simpl in Hb, Hl.
    apply andb_prop in Hb as [Hb Hsegs]. apply andb_prop in Hb as [Hi Ht].
    apply andb_prop in Hl as [Hl Hls].
    rewrite (search_skip _ _ Hh). cbn [written_segments].
    rewrite (search_segment s _ Hi Hl), append_empty_r.
    rewrite (IH _ Ht Hsegs Hls). reflexivity.
Qed.

Lemma length_runs_of head segments :
  length (runs_of head segments) = 1 + 2 * length segments.
Proof.
  unfold runs_of. cbn [length]. f_equal.
  induction segments as [|s segs IH]; [reflexivity|].
  cbn [flat_map segment_runs app length]. rewrite IH. lia.
Qed.

(** ** The markup parser *)

(** C1, as amended.  A text made of a plain head and of delimiter pairs,
    each followed by a plain part, in which no [**] and no [__] begins
    inside a pair or inside a plain part (so the pairs are not nested) and
    in which the text of every pair stays on one line, is parsed into one
    run per span, the zero-length plain ones included.  The texts of the
    runs, joined in order, are the text with the delimiter pairs removed as
    python-pptx stores it; when the text has no control character but tab
    and line feed, they are the text with the delimiter pairs removed. *)
Theorem span_concatenation_identity (paragraph : Paragraph) (head : string)
    (segments : list Segment) :
  balanced head segments = true ->
  inner_on_one_line segments = true ->
  exists p,
    _process_markdown_to_runs paragraph (PyStr (written head segments)) = Ok p
    /\ paragraph_runs p = runs_of head segments
    /\ length (paragraph_runs p) = 1 + 2 * length segments
    /\ paragraph_text p = _escape_ctrl_chars (stripped head segments)
    /\ (no_ctrl_char (written head segments) = true ->
        paragraph_text p = stripped head segments).
Proof.
  intros Hb Hl. unfold balanced in Hb. apply andb_prop in Hb as [Hh Hb].
  eexists. split.
  - apply process_markdown_parts. unfold written. by apply re_split_balanced.
  - cbn [paragraph_runs]. split; [reflexivity|]. split; [apply length_runs_of|].
    unfold paragraph_text. cbn [paragraph_runs]. rewrite text_of_runs.
    split; [reflexivity|].
    intros Hc. apply escape_no_ctrl_char. by rewrite <- no_ctrl_char_stripped.
Qed.

Lemma span_concatenation_identity_witness :
  exists p,
    _process_markdown_to_runs empty_paragraph (PyStr "a **b**__c__") = Ok p
    /\ length (paragraph_runs p) = 5
    /\ map run_text (paragraph_runs p) = ["a "; "b"; ""; "c"; ""]
    /\ paragraph_text p = "a bc".
Proof.
  destruct (span_concatenation_identity empty_paragraph "a "
              [ {| segment_delimiter := Bold; segment_inner := "b";
                   segment_trailing := "" |};
                {| segment_delimiter := Underline; segment_inner := "c";
                   segment_trailing := "" |} ]
              eq_refl eq_refl)
    as (p & Hp & Hruns & Hlen & _ & Htext).
  exists p. split; [exact Hp|]. split; [exact Hlen|].
  split; [rewrite Hruns; reflexivity|exact (Htext eq_refl)].
Defined.

(** C1 as the specification words it fails in three ways.  A pair around a
    line feed is not matched, since [.] stops at a line feed: the one run
    keeps the delimiters.  Of two nested pairs the outer one is matched and
    the inner delimiters stay in the text of the run.  A carriage return is
    stored as [_x000D_], so the runs do not spell the text any more. *)
Lemma span_concatenation_fails :
  let line_feed := String "a" (String newline "b") in
  let carriage_return := String "a" (String (ascii_of_nat 13) "b") in
  (exists p,
      _process_markdown_to_runs empty_paragraph
        (PyStr ("**" +:+ line_feed +:+ "**")) = Ok p
      /\ paragraph_text p = "**" +:+ line_feed +:+ "**"
      /\ paragraph_text p <> line_feed)
  /\ (exists p,
        _process_markdown_to_runs empty_paragraph (PyStr "**a __b__ c**") = Ok p
        /\ paragraph_text p = "a __b__ c"
        /\ paragraph_text p <> "a b c")
  /\ (exists p,
        _process_markdown_to_runs empty_paragraph
          (PyStr ("**" +:+ carriage_return +:+ "**")) = Ok p
        /\ balanced "" [ {| segment_delimiter := Bold;
                            segment_inner := carriage_return;
                            segment_trailing := "" |} ] = true
        /\ paragraph_text p = "a_x000D_b"
        /\ paragraph_text p <> carriage_return).
Proof.
  cbv zeta. split; [|split].
  - eexists. split; [reflexivity|]. split; [reflexivity|discriminate].
  - eexists. split; [reflexivity|]. split; [reflexivity|discriminate].
  - eexists. split; [reflexivity|]. split; [reflexivity|].
    split; [reflexivity|discriminate].
Qed.

Lemma range_from_bound fuel start stop step i :
  i ∈ range_from fuel start stop step ->
  exists j, i = start + j * step /\ i < stop.
Proof.
  revert start. induction fuel as [|fuel IH]; intros start; simpl.
  - intros Hi. by apply elem_of_nil in Hi.
  - destruct (Nat.ltb_spec start stop) as [Hlt|Hge];
      [|intros Hi; by apply elem_of_nil in Hi].
    intros [->|Hi]%elem_of_cons.
    + exists 0. lia.
    + destruct (IH _ Hi) as (j & -> & Hj). exists (S j). lia.
Qed.

Lemma re_split_shape text :
  exists head segments,
    re_split text = parts_of head segments /\ written head segments = text.
Proof. apply split_from_shape. Qed.

(** C10, as amended.  The parser is total on texts.  [re.split] gives a
    list of length 1 modulo 3, every index of the stride-3 loop has its two
    neighbours in the list, and the parser returns a paragraph for every
    text.  Nothing of the text is lost: with the delimiters put back around
    the styled runs, the runs spell the text as python-pptx stores it, and
    the text itself when it has no control character but tab and line feed.
    A text in which the pattern finds no pair, the lone [**] for one, comes
    back as one plain run with the delimiter in it. *)
Theorem markup_parser_total (paragraph : Paragraph) (text : string) :
  length (re_split text) mod 3 = 1
  /\ Forall (fun i => i + 2 < length (re_split text))
       (py_range 1 (length (re_split text)) 3)
  /\ (exists p, _process_markdown_to_runs paragraph (PyStr text) = Ok p
                /\ paragraph_source p = _escape_ctrl_chars text
                /\ (no_ctrl_char text = true -> paragraph_source p = text))
  /\ (search text = None ->
      _process_markdown_to_runs paragraph (PyStr text) =
      Ok {| paragraph_runs :=
              [ {| run_text := _escape_ctrl_chars text; run_font := no_font |} ];
            paragraph_level := paragraph_level paragraph |})
  /\ (search text = None -> no_ctrl_char text = true ->
      _process_markdown_to_runs paragraph (PyStr text) =
      Ok {| paragraph_runs := [ {| run_text := text; run_font := no_font |} ];
            paragraph_level := paragraph_level paragraph |})
  /\ _process_markdown_to_runs paragraph (PyStr "**") =
     Ok {| paragraph_runs := [ {| run_text := "**"; run_font := no_font |} ];
           paragraph_level := paragraph_level paragraph |}.
Proof.
  destruct (re_split_shape text) as (head & segments & Hparts & Hwritten).
  assert (Hlen : length (re_split text) = 1 + 3 * length segments)
    by (rewrite Hparts; apply length_parts_of).
  assert (Hplain : search text = None ->
            _process_markdown_to_runs paragraph (PyStr text) =
            Ok {| paragraph_runs :=
                    [ {| run_text := _escape_ctrl_chars text; run_font := no_font |} ];
                  paragraph_level := paragraph_level paragraph |}).
  { intros Hnone. apply (process_markdown_parts _ _ text []).
    by rewrite re_split_eq, Hnone. }
  split; [|split; [|split; [|split; [|split]]]].
  - rewrite Hlen. replace (1 + 3 * length segments) with (1 + length segments * 3) by lia.
    by rewrite Nat.Div0.mod_add.
  - apply Forall_forall. intros i Hi. unfold py_range in Hi.
    apply range_from_bound in Hi as (j & -> & Hj). lia.
  - eexists. split; [by apply process_markdown_parts|].
    unfold paragraph_source. cbn [paragraph_runs].
    rewrite source_of_runs, Hwritten. split; [reflexivity|].
    apply escape_no_ctrl_char.
  - exact Hplain.
  - intros Hnone Hc. rewrite (Hplain Hnone). by rewrite (escape_no_ctrl_char _ Hc).
  - by apply (process_markdown_parts _ _ "**" []).
Qed.

Lemma markup_parser_total_witness :
  _process_markdown_to_runs empty_paragraph (PyStr "a ** b") =
  Ok {| paragraph_runs := [ {| run_text := "a ** b"; run_font := no_font |} ];
        paragraph_level := 0 |}.
Proof.
  exact (proj1 (proj2 (proj2 (proj2 (proj2
           (markup_parser_total empty_paragraph "a ** b"))))) eq_refl eq_refl).
Defined.

(** C10 as the specification words it: a lone [**] after a carriage return
    finds no pair and is kept, but the text does not come out unchanged, the
    carriage return is stored as [_x000D_]. *)
Lemma stray_delimiter_after_carriage_return :
  let text := String (ascii_of_nat 13) "**" in
  search text = None
  /\ _process_markdown_to_runs empty_paragraph (PyStr text) =
     Ok {| paragraph_runs := [ {| run_text := "_x000D_**"; run_font := no_font |} ];
           paragraph_level := 0 |}
  /\ "_x000D_**" <> text.
Proof. cbv zeta. split; [reflexivity|]. split; [reflexivity|discriminate]. Qed.

(** ** Parsing a text never raises *)

Lemma process_markdown_total paragraph text :
  _process_markdown_to_runs paragraph (PyStr text) =
  Ok {| paragraph_runs := markdown_runs text;
        paragraph_level := paragraph_level paragraph |}.
Proof.
  destruct (re_split_shape text) as (head & segments & Hparts & _).
  unfold markdown_runs.
  by rewrite !(process_markdown_parts _ _ _ _ Hparts).
Qed.

(** ** New slides and their placeholders *)

Lemma new_slide_placeholder i layout idx :
  idx ∈ layout_placeholders layout ->
  slide_placeholders (new_slide i layout) !! idx = Some empty_text_frame.
Proof.
  unfold new_slide. cbn [slide_placeholders].
  induction (layout_placeholders layout) as [|x l IH]; intros Hin.
  - by apply elem_of_nil in Hin.
  - cbn [map]. rewrite list_to_map_cons. destruct (decide (x = idx)) as [->|Hne].
    + by rewrite lookup_insert_eq.
    + rewrite lookup_insert_ne by done. apply IH.
      apply elem_of_cons in Hin as [->|]; [done|assumption].
Qed.

Lemma has_placeholders_spec prs i idxs :
  has_placeholders prs i idxs = true ->
  exists l, get_layout prs i = Ok l
            /\ Forall (fun idx => idx ∈ layout_placeholders l) idxs.
Proof.
  unfold has_placeholders, get_layout, getitem.
  destruct (slide_layouts prs !! i) as [l|]; [|discriminate].
  intros H. exists l. split; [reflexivity|].
  apply Forall_forall. intros idx Hidx.
  rewrite forallb_forall in H. apply list_elem_of_In in Hidx.
  specialize (H idx Hidx). by apply bool_decide_eq_true in H.
Qed.

(** ** Reading a content *)

Lemma dict_get_cons {V} (k' k : string) (v : V) (d : list (string * V)) :
  dict_get ((k', v) :: d) k = if String.eqb k' k then Some v else dict_get d k.
Proof.
  simpl. destruct (String.eqb_spec k' k); [by rewrite decide_True|by rewrite decide_False].
Qed.

Lemma get_text items key dflt :
  optional is_text items key = true ->
  py_get (PyDict items) key (PyStr dflt)
  = Ok (PyStr (default dflt (field text_of (PyDict items) key))).
Proof.
  unfold optional, py_get, field.
  destruct (dict_get items key) as [v|]; [|reflexivity].
  by destruct v.
Qed.

Lemma texts_of_texts items :
  forallb is_text items = true -> map PyStr (map text_of items) = items.
Proof.
  induction items as [|v items IH]; [reflexivity|].
  cbn [forallb map]. intros [Hv Hitems]%andb_prop.
  rewrite (IH Hitems). by destruct v.
Qed.

Lemma get_texts items key :
  optional is_text_list items key = true ->
  exists v,
    py_get (PyDict items) key (PyList []) = Ok v
    /\ py_iter v = Ok (map PyStr (default [] (field texts_of (PyDict items) key))).
Proof.
  unfold optional, py_get, field.
  destruct (dict_get items key) as [v|]; [|intros _; by eexists].
  intros Hv. exists v. split; [reflexivity|].
  destruct v; try discriminate. cbn. by rewrite texts_of_texts.
Qed.

Lemma get_column items key :
  optional is_column items key = true ->
  exists data,
    py_get (PyDict items) key (PyDict []) = Ok data
    /\ is_column data = true
    /\ column_of data = default empty_column (field column_of (PyDict items) key).
Proof.
  unfold optional, py_get, field.
  destruct (dict_get items key) as [v|]; [|intros _; by eexists].
  intros Hv. by exists v.
Qed.

Lemma text_of_map texts : map text_of (map PyStr texts) = texts.
Proof. rewrite map_map. cbn. apply map_id. Qed.

Lemma is_text_map texts : forallb is_text (map PyStr texts) = true.
Proof. by induction texts. Qed.

Lemma column_of_dict c : column_of (column_dict c) = c.
Proof.
  destruct c as [[h|] [p|]]; unfold column_of, column_dict, field; cbn [heading column_points entry app];
    rewrite ?dict_get_cons; cbn; rewrite ?text_of_map; reflexivity.
Qed.

Lemma is_column_dict c : is_column (column_dict c) = true.
Proof.
  destruct c as [[h|] [p|]]; unfold is_column, column_dict, optional;
    cbn [heading column_points entry app]; rewrite ?dict_get_cons; cbn;
    rewrite ?is_text_map; reflexivity.
Qed.

Lemma content_of_dict c : content_of (content_dict c) = c.
Proof.
  destruct c as [[t|] [s|] [p|] [lc|] [rc|]]; unfold content_of, content_dict, field;
    cbn [title subtitle points left_column right_column entry app];
    rewrite ?dict_get_cons; cbn -[column_of column_dict];
    rewrite ?text_of_map, ?column_of_dict; reflexivity.
Qed.

Lemma is_content_dict c : is_content (content_dict c) = true.
Proof.
  destruct c as [[t|] [s|] [p|] [lc|] [rc|]]; unfold is_content, content_dict, optional;
    cbn [title subtitle points left_column right_column entry app];
    rewrite ?dict_get_cons; cbn -[is_column column_dict];
    rewrite ?is_text_map, ?is_column_dict; reflexivity.
Qed.

(** ** The loops of the renderers *)

Lemma points_loop_spec level point_texts : forall tf,
  points_loop level (map PyStr point_texts) tf =
  Ok {| first_paragraph := first_paragraph tf;
        more_paragraphs :=
          more_paragraphs tf
          ++ map (fun t => {| paragraph_runs := markdown_runs t;
                              paragraph_level := level |}) point_texts |}.
Proof.
  induction point_texts as [|t ts IH]; intros tf.
  - simpl. rewrite app_nil_r. by destruct tf.
  - cbn [points_loop map]. rewrite process_markdown_total. cbn [bind].
    rewrite IH. cbn. by rewrite <- app_assoc.
Qed.

Lemma fill_column_spec data :
  is_column data = true ->
  exists tf,
    fill_column data empty_text_frame = Ok tf
    /\ paragraphs (_apply_font_style tf false)
       = empty_paragraph :: column_paragraphs (column_of data).
Proof.
  destruct data as [| | | | |?|items]; try discriminate.
  cbn [is_column]. intros [Hh Hp]%andb_prop.
  destruct (get_texts _ _ Hp) as (pv & Hget & Hiter).
  unfold fill_column, column_paragraphs.
  cbn [column_of heading column_points].
  unfold optional in Hh. unfold py_get at 1, py_getitem, field at 1.
  destruct (dict_get items "heading") as [h|]; [destruct h; try discriminate|];
    cbn [default from_option id truthy bind fmap option_fmap option_map text_of].
  - destruct (String.eqb s ""); cbn [negb bind].
    + rewrite Hget. cbn [bind]. rewrite Hiter. cbn [bind]. rewrite points_loop_spec.
      eexists. split; [reflexivity|]. unfold paragraphs. cbn. by rewrite map_map.
    + rewrite process_markdown_total. cbn [bind].
      rewrite Hget. cbn [bind]. rewrite Hiter. cbn [bind]. rewrite points_loop_spec.
      eexists. split; [reflexivity|]. unfold paragraphs. cbn. by rewrite map_map.
  - rewrite Hget. cbn [bind]. rewrite Hiter. cbn [bind]. rewrite points_loop_spec.
    eexists. split; [reflexivity|]. unfold paragraphs. cbn. by rewrite map_map.
Qed.

(** ** What each renderer builds *)

Lemma apply_font_style_eq tf is_title first more :
  paragraphs (_apply_font_style tf is_title) = first :: more ->
  _apply_font_style tf is_title = {| first_paragraph := first; more_paragraphs := more |}.
Proof.
  unfold paragraphs, _apply_font_style. cbn [first_paragraph more_paragraphs].
  by intros [= <- <-].
Qed.

Lemma is_content_fields content :
  is_content content = true ->
  exists items,
    content = PyDict items
    /\ optional is_text items "title" = true
    /\ optional is_text items "subtitle" = true
    /\ optional is_text_list items "points" = true
    /\ optional is_column items "left_column" = true
    /\ optional is_column items "right_column" = true.
Proof.
  destruct content as [| | | | |?|items]; try discriminate.
  cbn [is_content]. intros H.
  apply andb_prop in H as [H Hr]. apply andb_prop in H as [H Hl].
  apply andb_prop in H as [H Hp]. apply andb_prop in H as [Ht Hs].
  by exists items.
Qed.

Lemma add_title_slide_spec prs content l :
  is_content content = true ->
  get_layout prs 0 = Ok l ->
  0 ∈ layout_placeholders l -> 1 ∈ layout_placeholders l ->
  _add_title_slide prs content
  = Ok (append_slide prs (title_slide_of l (content_of content))).
Proof.
  intros (items & -> & Ht & Hs & _)%is_content_fields Hl H0 H1.
  unfold _add_title_slide, title_text_frame, placeholder_text_frame.
  rewrite Hl. cbn [bind].
  rewrite !new_slide_placeholder by assumption. cbn [bind].
  rewrite (get_text _ _ _ Ht). cbn [bind]. rewrite process_markdown_total. cbn [bind].
  rewrite (get_text _ _ _ Hs). cbn [bind]. rewrite process_markdown_total. cbn [bind].
  reflexivity.
Qed.

Lemma add_bullet_points_slide_spec prs content l :
  is_content content = true ->
  get_layout prs 1 = Ok l ->
  0 ∈ layout_placeholders l -> 1 ∈ layout_placeholders l ->
  _add_bullet_points_slide prs content
  = Ok (append_slide prs (bullet_points_slide_of l (content_of content))).
Proof.
  intros (items & -> & Ht & _ & Hp & _)%is_content_fields Hl H0 H1.
  destruct (get_texts _ _ Hp) as (pv & Hget & Hiter).
  unfold _add_bullet_points_slide, title_text_frame, placeholder_text_frame.
  rewrite Hl. cbn [bind].
  rewrite !new_slide_placeholder by assumption. cbn [bind].
  rewrite (get_text _ _ _ Ht). cbn [bind]. rewrite process_markdown_total. cbn [bind].
  rewrite Hget. cbn [bind]. rewrite Hiter. cbn [bind].
  rewrite points_loop_spec. cbn [bind].
  unfold bullet_points_slide_of. do 3 f_equal.
  unfold _apply_font_style. cbn. by rewrite map_map.
Qed.

Lemma add_two_column_slide_spec prs content l :
  is_content content = true ->
  get_layout prs 3 = Ok l ->
  0 ∈ layout_placeholders l -> 1 ∈ layout_placeholders l ->
  2 ∈ layout_placeholders l ->
  _add_two_column_slide prs content
  = Ok (append_slide prs (two_column_slide_of l (content_of content))).
Proof.
  intros (items & -> & Ht & _ & _ & Hlc & Hrc)%is_content_fields Hl H0 H1 H2.
  destruct (get_column _ _ Hlc) as (ldata & Hlget & Hlshape & Hlcol).
  destruct (get_column _ _ Hrc) as (rdata & Hrget & Hrshape & Hrcol).
  destruct (fill_column_spec ldata Hlshape) as (ltf & Hlfill & Hleft).
  destruct (fill_column_spec rdata Hrshape) as (rtf & Hrfill & Hright).
  unfold _add_two_column_slide, title_text_frame, placeholder_text_frame.
  rewrite Hl. cbn [bind].
  rewrite !new_slide_placeholder by assumption. cbn [bind].
  rewrite (get_text _ _ _ Ht). cbn [bind]. rewrite process_markdown_total. cbn [bind].
  rewrite Hlget. cbn [bind]. rewrite Hlfill. cbn [bind].
  rewrite Hrget. cbn [bind]. rewrite Hrfill. cbn [bind].
  unfold two_column_slide_of, column_frame.
  rewrite (apply_font_style_eq _ _ _ _ Hleft), (apply_font_style_eq _ _ _ _ Hright).
  by rewrite Hlcol, Hrcol.
Qed.

(** The same for a content that is given field by field. *)
Lemma add_title_slide_dict prs content l :
  get_layout prs 0 = Ok l ->
  0 ∈ layout_placeholders l -> 1 ∈ layout_placeholders l ->
  _add_title_slide prs (content_dict content)
  = Ok (append_slide prs (title_slide_of l content)).
Proof.
  intros Hl H0 H1.
  rewrite (add_title_slide_spec _ _ l) by (assumption || apply is_content_dict).
  by rewrite content_of_dict.
Qed.

Lemma add_bullet_points_slide_dict prs content l :
  get_layout prs 1 = Ok l ->
  0 ∈ layout_placeholders l -> 1 ∈ layout_placeholders l ->
  _add_bullet_points_slide prs (content_dict content)
  = Ok (append_slide prs (bullet_points_slide_of l content)).
Proof.
  intros Hl H0 H1.
  rewrite (add_bullet_points_slide_spec _ _ l) by (assumption || apply is_content_dict).
  by rewrite content_of_dict.
Qed.

Lemma add_two_column_slide_dict prs content l :
  get_layout prs 3 = Ok l ->
  0 ∈ layout_placeholders l -> 1 ∈ layout_placeholders l ->
  2 ∈ layout_placeholders l ->
  _add_two_column_slide prs (content_dict content)
  = Ok (append_slide prs (two_column_slide_of l content)).
Proof.
  intros Hl H0 H1 H2.
  rewrite (add_two_column_slide_spec _ _ l) by (assumption || apply is_content_dict).
  by rewrite content_of_dict.
Qed.

(** ** The loop of the assembler *)

Lemma supports_spec prs :
  supports prs = true ->
  exists l0 l1 l3,
    (get_layout prs 0 = Ok l0
     /\ 0 ∈ layout_placeholders l0 /\ 1 ∈ layout_placeholders l0)
    /\ (get_layout prs 1 = Ok l1
        /\ 0 ∈ layout_placeholders l1 /\ 1 ∈ layout_placeholders l1)
    /\ (get_layout prs 3 = Ok l3
        /\ 0 ∈ layout_placeholders l3 /\ 1 ∈ layout_placeholders l3
        /\ 2 ∈ layout_placeholders l3).
Proof.
  unfold supports. intros H.
  apply andb_prop in H as [H H3]. apply andb_prop in H as [H0 H1].
  apply has_placeholders_spec in H0 as (l0 & Hl0 & F0).
  apply has_placeholders_spec in H1 as (l1 & Hl1 & F1).
  apply has_placeholders_spec in H3 as (l3 & Hl3 & F3).
  exists l0, l1, l3.
  repeat match goal with
         | F : Forall _ (_ :: _) |- _ => apply Forall_cons in F as [? F]
         end.
  repeat split; assumption.
Qed.

Lemma well_formed_content items :
  well_formed (PyDict items) = true ->
  recognised (PyDict items) = true ->
  exists content,
    dict_get items "content" = Some content /\ is_content content = true.
Proof.
  cbn [well_formed]. intros Hw Hr. rewrite Hr in Hw. cbn [negb orb] in Hw.
  destruct (dict_get items "content") as [content|]; [|discriminate].
  by exists content.
Qed.

Lemma add_slide_for_spec prs slide_info :
  supports prs = true ->
  well_formed slide_info = true ->
  exists new,
    add_slide_for prs slide_info =
      Ok {| slide_layouts := slide_layouts prs; slides := slides prs ++ new |}
    /\ rendered (slide_layouts prs) slide_info = Ok new
    /\ (recognised slide_info = true ->
        exists slide, new = [slide] /\ slide_layout slide = layout_index slide_info)
    /\ (recognised slide_info = false -> new = []).
Proof.
  intros Hs Hw.
  destruct (supports_spec _ Hs)
    as (l0 & l1 & l3 & (Hl0 & H00 & H01) & (Hl1 & H10 & H11) & (Hl3 & H30 & H31 & H32)).
  destruct slide_info as [| | | | |?|items]; try discriminate.
  pose proof (well_formed_content items Hw) as Hcontent.
  unfold rendered, add_slide_for, recognised, layout_index in *.
  cbn [py_get layout_name_of bind] in *.
  destruct (is_str (default PyNone (dict_get items "layout")) "title_slide").
  { destruct (Hcontent eq_refl) as (content & -> & Hshape). cbn [default from_option id].
    exists [title_slide_of l0 (content_of content)].
    rewrite !(add_title_slide_spec _ _ l0) by done.
    split; [done|]. split; [done|]. split; [|done]. intros _. by eexists. }
  destruct (is_str (default PyNone (dict_get items "layout")) "bullet_points").
  { destruct (Hcontent eq_refl) as (content & -> & Hshape). cbn [default from_option id].
    exists [bullet_points_slide_of l1 (content_of content)].
    rewrite !(add_bullet_points_slide_spec _ _ l1) by done.
    split; [done|]. split; [done|]. split; [|done]. intros _. by eexists. }
  destruct (is_str (default PyNone (dict_get items "layout")) "two_column").
  { destruct (Hcontent eq_refl) as (content & -> & Hshape). cbn [default from_option id].
    exists [two_column_slide_of l3 (content_of content)].
    rewrite !(add_two_column_slide_spec _ _ l3) by done.
    split; [done|]. split; [done|]. split; [|done]. intros _. by eexists. }
  exists []. rewrite app_nil_r. destruct prs. by repeat split.
Qed.

Lemma slides_loop_spec slide_infos : forall prs,
  supports prs = true ->
  forallb well_formed slide_infos = true ->
  exists new,
    slides_loop slide_infos prs =
      Ok {| slide_layouts := slide_layouts prs; slides := slides prs ++ new |}
    /\ Forall2 (fun slide_info slide =>
                  rendered (slide_layouts prs) slide_info = Ok [slide])
         (List.filter recognised slide_infos) new
    /\ map slide_layout new = map layout_index (List.filter recognised slide_infos).
Proof.
  induction slide_infos as [|slide_info rest IH]; intros prs Hs Hw.
  - exists []. rewrite app_nil_r. destruct prs. by repeat split.
  - cbn [forallb] in Hw. apply andb_prop in Hw as [Hw Hrest].
    destruct (add_slide_for_spec prs slide_info Hs Hw) as (new1 & Hadd & Hr & Hyes & Hno).
    cbn [slides_loop]. rewrite Hadd. cbn [bind].
    destruct (IH {| slide_layouts := slide_layouts prs; slides := slides prs ++ new1 |}
                Hs Hrest)
      as (new2 & -> & Hall & Hidx).
    cbn [slide_layouts slides] in *.
    exists (new1 ++ new2)%list. rewrite app_assoc. split; [reflexivity|].
    cbn [List.filter]. destruct (recognised slide_info).
    + destruct (Hyes eq_refl) as (slide & -> & Hlayout).
      split; [by constructor|]. cbn. by rewrite Hlayout, Hidx.
    + rewrite (Hno eq_refl). by split.
Qed.

Lemma supports_default_presentation : supports default_presentation = true.
Proof. reflexivity. Qed.

Lemma create_presentation_from open_pptx presentation_data slide_infos
    output_path aspect_ratio prs lines :
  match open_pptx (template_path_for aspect_ratio) with
  | Ok prs => Ok (prs, ["Using template: " +:+ template_path_for aspect_ratio])
  | Raise FileNotFoundError =>
      Ok (default_presentation,
          ["WARNING: '" +:+ template_path_for aspect_ratio
           +:+ "' not found. Using default blank presentation."])
  | Raise e => Raise e
  end = Ok (prs, lines) ->
  supports prs = true ->
  py_get presentation_data "slides" (PyList []) = Ok (PyList slide_infos) ->
  forallb well_formed slide_infos = true ->
  exists new,
    create_presentation open_pptx presentation_data output_path aspect_ratio =
      Ok {| stdout := lines; saved_path := output_path;
            saved := {| slide_layouts := slide_layouts prs;
                        slides := slides prs ++ new |} |}
    /\ Forall2 (fun slide_info slide =>
                  rendered (slide_layouts prs) slide_info = Ok [slide])
         (List.filter recognised slide_infos) new
    /\ map slide_layout new = map layout_index (List.filter recognised slide_infos).
Proof.
  intros Hopen Hs Hslides Hw.
  destruct (slides_loop_spec slide_infos prs Hs Hw) as (new & Hloop & Hall & Hidx).
  exists new. split; [|by split].
  unfold create_presentation. cbv zeta. fold (template_path_for aspect_ratio).
  rewrite Hopen. cbn [bind fst snd]. rewrite Hslides. cbn [bind py_iter].
  by rewrite Hloop.
Qed.

(** ** The assembler *)

(** C5, as amended.  Take a content tree that is a dictionary whose
    [slides], when it has any, is a list of well-formed records: each record
    is a dictionary, and when its layout is [title_slide], [bullet_points] or
    [two_column] it has a content of the shape the prompt describes.  On a
    template that has the layouts the renderers use, the assembler returns
    without an exception, and the slides it adds to the document are, in
    input order, one for each record with one of the three layouts, each the
    slide its renderer builds; a record with another layout, or with none,
    adds nothing, whatever else it holds.  The tree of a record with layout
    [bogus] followed by a [title_slide] record titled [T] adds exactly one
    slide. *)
Theorem one_slide_per_known_layout (open_pptx : string -> result Presentation)
    (presentation_data : value) (slide_infos : list value)
    (output_path aspect_ratio : string) (prs : Presentation) :
  open_pptx (template_path_for aspect_ratio) = Ok prs ->
  supports prs = true ->
  py_get presentation_data "slides" (PyList []) = Ok (PyList slide_infos) ->
  forallb well_formed slide_infos = true ->
  exists new,
    create_presentation open_pptx presentation_data output_path aspect_ratio =
      Ok {| stdout := ["Using template: " +:+ template_path_for aspect_ratio];
            saved_path := output_path;
            saved := {| slide_layouts := slide_layouts prs;
                        slides := slides prs ++ new |} |}
    /\ Forall2 (fun slide_info slide =>
                  rendered (slide_layouts prs) slide_info = Ok [slide])
         (List.filter recognised slide_infos) new
    /\ map slide_layout new = map layout_index (List.filter recognised slide_infos)
    /\ length new = length (List.filter recognised slide_infos)
    /\ (forall bogus_items,
          slide_infos =
            [ PyDict (("layout", PyStr "bogus") :: bogus_items);
              PyDict [ ("layout", PyStr "title_slide");
                       ("content", PyDict [("title", PyStr "T")]) ] ] ->
          exists slide, new = [slide] /\ slide_layout slide = 0).
Proof.
  intros Hopen Hs Hslides Hw.
  destruct (create_presentation_from open_pptx presentation_data slide_infos
              output_path aspect_ratio prs
              ["Using template: " +:+ template_path_for aspect_ratio])
    as (new & Hcreate & Hall & Hidx); [by rewrite Hopen|assumption..|].
  exists new. split; [assumption|]. split; [assumption|]. split; [assumption|].
  split.
  - by rewrite <- (length_map slide_layout), Hidx, length_map.
  - intros bogus_items Hdata. rewrite Hdata in Hidx.
    assert (Hfilter :
      List.filter recognised
        [ PyDict (("layout", PyStr "bogus") :: bogus_items);
          PyDict [ ("layout", PyStr "title_slide");
                   ("content", PyDict [("title", PyStr "T")]) ] ]
      = [ PyDict [ ("layout", PyStr "title_slide");
                   ("content", PyDict [("title", PyStr "T")]) ] ]).
    { cbn [List.filter]. unfold recognised at 1. cbn [layout_name_of].
      rewrite dict_get_cons. reflexivity. }
    rewrite Hfilter in Hidx.
    destruct new as [|slide [|? ?]]; try discriminate.
    exists slide. split; [reflexivity|]. by injection Hidx.
Qed.

Lemma one_slide_per_known_layout_witness :
  exists new,
    create_presentation (fun _ => Ok default_presentation)
      (PyDict
         [ ("slides",
            PyList
              [ PyDict [("layout", PyStr "bogus"); ("content", PyInt 7)];
                PyDict [ ("layout", PyStr "title_slide");
                         ("content", PyDict [("title", PyStr "T")]) ] ]) ])
      "out.pptx" "16:9" =
    Ok {| stdout := ["Using template: template_16_9.pptx"];
          saved_path := "out.pptx";
          saved := {| slide_layouts := slide_layouts default_presentation;
                      slides := new |} |}
    /\ length new = 1.
Proof.
  destruct (one_slide_per_known_layout (fun _ => Ok default_presentation)
              (PyDict
                 [ ("slides",
                    PyList
                      [ PyDict [("layout", PyStr "bogus"); ("content", PyInt 7)];
                        PyDict [ ("layout", PyStr "title_slide");
                                 ("content", PyDict [("title", PyStr "T")]) ] ]) ])
              [ PyDict [("layout", PyStr "bogus"); ("content", PyInt 7)];
                PyDict [ ("layout", PyStr "title_slide");
                         ("content", PyDict [("title", PyStr "T")]) ] ]
              "out.pptx" "16:9" default_presentation
              eq_refl eq_refl eq_refl eq_refl)
    as (new & Hcreate & _ & _ & Hlen & _).
  exists new. split; [exact Hcreate|exact Hlen].
Defined.

(** C5 as the specification words it, for every content tree: a record
    with a known layout and no content makes the assembler leave with an
    [AttributeError], and so does a content that is no dictionary; a title
    that is no text is a [TypeError].  No document is written. *)
Lemma known_layout_without_content_raises :
  supports default_presentation = true
  /\ create_presentation (fun _ => Ok default_presentation)
       (PyDict [("slides", PyList [PyDict [("layout", PyStr "title_slide")]])])
       "out.pptx" "16:9"
     = Raise AttributeError
  /\ create_presentation (fun _ => Ok default_presentation)
       (PyDict [("slides",
                 PyList [ PyDict [("layout", PyStr "bogus")];
                          PyDict [ ("layout", PyStr "bullet_points");
                                   ("content", PyStr "T") ] ])])
       "out.pptx" "16:9"
     = Raise AttributeError
  /\ create_presentation (fun _ => Ok default_presentation)
       (PyDict [("slides",
                 PyList [ PyDict [ ("layout", PyStr "title_slide");
                                   ("content", PyDict [("title", PyNone)]) ] ])])
       "out.pptx" "16:9"
     = Raise TypeError.
Proof. by repeat split. Qed.

(** X18.  The handler of [create_presentation] at work: when opening the
    template raises [FileNotFoundError], the assembler prints the warning
    that names the missing template, goes on from the default blank
    document, and, for a tree of well-formed records, writes a document
    whose slides are one for each record with a known layout, in input
    order. *)
Lemma file_not_found_fallback (open_pptx : string -> result Presentation)
    (presentation_data : value) (slide_infos : list value)
    (output_path aspect_ratio : string) :
  open_pptx (template_path_for aspect_ratio) = Raise FileNotFoundError ->
  py_get presentation_data "slides" (PyList []) = Ok (PyList slide_infos) ->
  forallb well_formed slide_infos = true ->
  exists new,
    create_presentation open_pptx presentation_data output_path aspect_ratio =
      Ok {| stdout := ["WARNING: '" +:+ template_path_for aspect_ratio
                       +:+ "' not found. Using default blank presentation."];
            saved_path := output_path;
            saved := {| slide_layouts := slide_layouts default_presentation;
                        slides := new |} |}
    /\ Forall2 (fun slide_info slide =>
                  rendered (slide_layouts default_presentation) slide_info = Ok [slide])
         (List.filter recognised slide_infos) new
    /\ map slide_layout new = map layout_index (List.filter recognised slide_infos)
    /\ length new = length (List.filter recognised slide_infos).
Proof.
  intros Hopen Hslides Hw.
  destruct (create_presentation_from open_pptx presentation_data slide_infos
              output_path aspect_ratio default_presentation
              ["WARNING: '" +:+ template_path_for aspect_ratio
               +:+ "' not found. Using default blank presentation."])
    as (new & Hcreate & Hall & Hidx);
    [by rewrite Hopen|apply supports_default_presentation|assumption..|].
  exists new. split; [assumption|]. split; [assumption|]. split; [assumption|].
  by rewrite <- (length_map slide_layout), Hidx, length_map.
Qed.

Lemma file_not_found_fallback_witness :
  exists new,
    create_presentation (fun _ => Raise FileNotFoundError)
      (PyDict
         [ ("slides",
            PyList
              [ PyDict [("layout", PyStr "bullet_points"); ("content", PyDict [])];
                PyDict [("content", PyDict [])];
                PyDict [("layout", PyStr "two_column"); ("content", PyDict [])] ]) ])
      "out.pptx" "4:3" =
    Ok {| stdout := ["WARNING: 'template_4_3.pptx' not found. Using default blank presentation."];
          saved_path := "out.pptx";
          saved := {| slide_layouts := slide_layouts default_presentation;
                      slides := new |} |}
    /\ map slide_layout new = [1; 3].
Proof.
  destruct (file_not_found_fallback (fun _ => Raise FileNotFoundError)
              (PyDict
                 [ ("slides",
                    PyList
                      [ PyDict [("layout", PyStr "bullet_points"); ("content", PyDict [])];
                        PyDict [("content", PyDict [])];
                        PyDict [("layout", PyStr "two_column"); ("content", PyDict [])] ]) ])
              [ PyDict [("layout", PyStr "bullet_points"); ("content", PyDict [])];
                PyDict [("content", PyDict [])];
                PyDict [("layout", PyStr "two_column"); ("content", PyDict [])] ]
              "out.pptx" "4:3" eq_refl eq_refl eq_refl)
    as (new & Hcreate & _ & Hidx & _).
  exists new. split; [exact Hcreate|exact Hidx].
Defined.

(** Every other exception raised while the template is opened leaves
    [create_presentation] as it came. *)
Lemma open_error_propagates (open_pptx : string -> result Presentation)
    (presentation_data : value) (output_path aspect_ratio : string) (e : exception) :
  open_pptx (template_path_for aspect_ratio) = Raise e ->
  e <> FileNotFoundError ->
  create_presentation open_pptx presentation_data output_path aspect_ratio = Raise e.
Proof.
  intros Hopen He. unfold create_presentation. cbv zeta.
  fold (template_path_for aspect_ratio). rewrite Hopen.
  by destruct e.
Qed.

(** C6, on the code.  With python-pptx, a template that is not where the
    aspect ratio points is reported by [PackageNotFoundError]; the handler
    of [create_presentation] names [FileNotFoundError] only, so the
    exception leaves the assembler: no blank document is used, nothing is
    printed and no document is written. *)
Theorem missing_template_is_not_recovered (files : gmap string Presentation)
    (presentation_data : value) (output_path aspect_ratio : string) :
  files !! template_path_for aspect_ratio = None ->
  create_presentation (Presentation_at files) presentation_data output_path aspect_ratio
  = Raise PackageNotFoundError.
Proof.
  intros Hmissing. apply open_error_propagates; [|discriminate].
  unfold Presentation_at. by rewrite Hmissing.
Qed.

Lemma missing_template_is_not_recovered_witness :
  create_presentation (Presentation_at ∅)
    (PyDict [("slides", PyList [PyDict [("layout", PyStr "title_slide");
                                        ("content", PyDict [])]])])
    "out.pptx" "16:9"
  = Raise PackageNotFoundError.
Proof.
  exact (missing_template_is_not_recovered ∅
           (PyDict [("slides", PyList [PyDict [("layout", PyStr "title_slide");
                                               ("content", PyDict [])]])])
           "out.pptx" "16:9" (lookup_empty _)).
Defined.

(** ** The style resolver *)

(** C7.  For every run and role, the resolver leaves the font family as it
    is when the run is bold, and sets it to the constant of the role
    ([TITLE_FONT_NAME] or [BODY_FONT_NAME]) when the run is not bold; size
    and color are set to the constants of the role in every case; text,
    bold and underline are not touched.  On the runs of the parser this
    means: a bold run keeps the inherited family, an underline-only run and
    a plain run get the family of the role.  A text frame is styled run by
    run. *)
Theorem style_resolver (run : Run) (is_title : bool) :
  let styled := apply_font_style_run is_title run in
  let family := if is_title then TITLE_FONT_NAME else BODY_FONT_NAME in
  font_name (run_font styled) =
    (if bool_decide (font_bold (run_font run) = Some true)
     then font_name (run_font run) else Some family)
  /\ font_size (run_font styled) =
     Some (if is_title then TITLE_FONT_SIZE else BODY_FONT_SIZE)
  /\ font_color (run_font styled) =
     Some (if is_title then TITLE_COLOR else BODY_COLOR)
  /\ font_bold (run_font styled) = font_bold (run_font run)
  /\ font_underline (run_font styled) = font_underline (run_font run)
  /\ run_text styled = run_text run
  /\ (forall t,
        font_name (run_font (apply_font_style_run is_title (styled_run Bold t))) = None
        /\ font_name (run_font (apply_font_style_run is_title (styled_run Underline t)))
           = Some family
        /\ font_name (run_font (apply_font_style_run is_title (plain_run t)))
           = Some family)
  /\ (forall tf,
        map paragraph_runs (paragraphs (_apply_font_style tf is_title)) =
        map (fun p => map (apply_font_style_run is_title) (paragraph_runs p))
            (paragraphs tf)).
Proof.
  cbv zeta. split; [|split; [|split; [|split; [|split; [|split; [|split]]]]]].
  1-6: unfold apply_font_style_run; destruct is_title;
       by destruct (bool_decide (font_bold (run_font run) = Some true)).
  - intros t. by destruct is_title.
  - intros tf. unfold paragraphs, _apply_font_style. cbn. by rewrite map_map.
Qed.

(** ** The layout renderers *)

Lemma two_column_slide_left l content :
  slide_placeholders (two_column_slide_of l content) !! 1 =
  Some (column_frame (default empty_column (left_column content))).
Proof.
  unfold two_column_slide_of, set_text_frame. cbn [slide_placeholders].
  rewrite lookup_insert_ne by done. by rewrite lookup_insert_eq.
Qed.

Lemma two_column_slide_right l content :
  slide_placeholders (two_column_slide_of l content) !! 2 =
  Some (column_frame (default empty_column (right_column content))).
Proof.
  unfold two_column_slide_of, set_text_frame. cbn [slide_placeholders].
  by rewrite lookup_insert_eq.
Qed.

(** C8, as amended.  In a two-column slide each column region starts with
    the one empty paragraph that clearing a text frame leaves; after it
    come the heading, if the column has one and it is not the empty string,
    at indentation level 0, and then the points in order at level 1.  For
    the left column with heading [H] and points [p1], [p2] the left region
    holds four paragraphs: the empty one, [H] at level 0, [p1] and [p2] at
    level 1. *)
Theorem two_column_regions (prs : Presentation) (content : Content) :
  has_placeholders prs 3 [0; 1; 2] = true ->
  exists slide left_tf right_tf,
    _add_two_column_slide prs (content_dict content) = Ok (append_slide prs slide)
    /\ slide_placeholders slide !! 1 = Some left_tf
    /\ slide_placeholders slide !! 2 = Some right_tf
    /\ paragraphs left_tf =
       empty_paragraph
       :: column_paragraphs (default empty_column (left_column content))
    /\ paragraphs right_tf =
       empty_paragraph
       :: column_paragraphs (default empty_column (right_column content))
    /\ (forall h pts,
          h <> "" ->
          column_paragraphs {| heading := Some h; column_points := Some pts |} =
          body_paragraph h 0 :: map (fun t => body_paragraph t 1) pts)
    /\ (forall pts,
          column_paragraphs {| heading := Some ""; column_points := Some pts |} =
          map (fun t => body_paragraph t 1) pts)
    /\ (left_column content =
          Some {| heading := Some "H"; column_points := Some ["p1"; "p2"] |} ->
        map paragraph_text (paragraphs left_tf) = [""; "H"; "p1"; "p2"]
        /\ map paragraph_level (paragraphs left_tf) = [0; 0; 1; 1]).
Proof.
  intros Hs. apply has_placeholders_spec in Hs as (l & Hl & F).
  repeat match goal with
         | F : Forall _ (_ :: _) |- _ => apply Forall_cons in F as [? F]
         end.
  exists (two_column_slide_of l content),
         (column_frame (default empty_column (left_column content))),
         (column_frame (default empty_column (right_column content))).
  split; [by apply add_two_column_slide_dict|].
  split; [apply two_column_slide_left|].
  split; [apply two_column_slide_right|].
  split; [reflexivity|]. split; [reflexivity|].
  split; [|split].
  - intros h pts Hh. unfold column_paragraphs. cbn [heading column_points].
    by apply String.eqb_neq in Hh as ->.
  - reflexivity.
  - intros ->. by split.
Qed.

Lemma two_column_regions_witness :
  exists slide left_tf,
    _add_two_column_slide default_presentation
      (content_dict
         {| title := None; subtitle := None; points := None;
            left_column :=
              Some {| heading := Some "H"; column_points := Some ["p1"; "p2"] |};
            right_column := None |})
    = Ok (append_slide default_presentation slide)
    /\ slide_placeholders slide !! 1 = Some left_tf
    /\ map paragraph_text (paragraphs left_tf) = [""; "H"; "p1"; "p2"]
    /\ map paragraph_level (paragraphs left_tf) = [0; 0; 1; 1].
Proof.
  destruct (two_column_regions default_presentation
              {| title := None; subtitle := None; points := None;
                 left_column :=
                   Some {| heading := Some "H"; column_points := Some ["p1"; "p2"] |};
                 right_column := None |} eq_refl)
    as (slide & left_tf & right_tf & Hadd & Hleft & _ & _ & _ & _ & _ & Hexample).
  exists slide, left_tf. split; [exact Hadd|]. split; [exact Hleft|].
  exact (Hexample eq_refl).
Defined.

(** C8 as the specification words it: the left region of the example holds
    four paragraphs, not three, and the first of them is empty. *)
Lemma two_column_left_region_has_four_paragraphs :
  exists slide left_tf,
    _add_two_column_slide default_presentation
      (content_dict
         {| title := None; subtitle := None; points := None;
            left_column :=
              Some {| heading := Some "H"; column_points := Some ["p1"; "p2"] |};
            right_column := None |})
    = Ok (append_slide default_presentation slide)
    /\ slide_placeholders slide !! 1 = Some left_tf
    /\ length (paragraphs left_tf) = 4
    /\ length (paragraphs left_tf) <> 3
    /\ paragraphs left_tf !! 0 = Some empty_paragraph.
Proof.
  eexists _, _. split.
  - apply (add_two_column_slide_dict _ _ {| layout_placeholders := [0; 1; 2] |});
      [reflexivity|set_solver..].
  - split; [apply two_column_slide_left|]. by repeat split.
Qed.

Lemma bullet_points_slide_title l content :
  slide_placeholders (bullet_points_slide_of l content) !! 0 =
  Some (title_frame (default "Slide Title" (title content))).
Proof.
  unfold bullet_points_slide_of, set_text_frame. cbn [slide_placeholders].
  rewrite lookup_insert_ne by done. by rewrite lookup_insert_eq.
Qed.

Lemma bullet_points_slide_body l content :
  slide_placeholders (bullet_points_slide_of l content) !! 1 =
  Some {| first_paragraph := empty_paragraph;
          more_paragraphs :=
            map (fun t => body_paragraph t 0) (default [] (points content)) |}.
Proof.
  unfold bullet_points_slide_of, set_text_frame. cbn [slide_placeholders].
  by rewrite lookup_insert_eq.
Qed.

(** C9, as amended.  A [bullet_points] record whose content has no title
    and no points gives a slide whose title text is ["Slide Title"], in one
    run styled as a title, and whose body region holds no paragraph for a
    point: all it holds is the one empty paragraph, without runs and
    without text, that clearing a text frame leaves. *)
Theorem bullet_points_defaults (prs : Presentation) (content : Content) :
  has_placeholders prs 1 [0; 1] = true ->
  title content = None ->
  points content = None ->
  exists slide title_tf body_tf,
    _add_bullet_points_slide prs (content_dict content) = Ok (append_slide prs slide)
    /\ slide_layout slide = 1
    /\ slide_placeholders slide !! 0 = Some title_tf
    /\ text_frame_text title_tf = "Slide Title"
    /\ paragraphs title_tf =
       [ {| paragraph_runs := [apply_font_style_run true (plain_run "Slide Title")];
            paragraph_level := 0 |} ]
    /\ slide_placeholders slide !! 1 = Some body_tf
    /\ paragraphs body_tf = [empty_paragraph]
    /\ more_paragraphs body_tf = []
    /\ text_frame_text body_tf = "".
Proof.
  intros Hs Htitle Hpoints. apply has_placeholders_spec in Hs as (l & Hl & F).
  repeat match goal with
         | F : Forall _ (_ :: _) |- _ => apply Forall_cons in F as [? F]
         end.
  eexists (bullet_points_slide_of l content), _, _.
  split; [by apply add_bullet_points_slide_dict|].
  split; [reflexivity|].
  split; [apply bullet_points_slide_title|].
  rewrite Htitle. split; [reflexivity|]. split; [reflexivity|].
  split; [apply bullet_points_slide_body|].
  rewrite Hpoints. by repeat split.
Qed.

Lemma bullet_points_defaults_witness :
  exists slide title_tf body_tf,
    _add_bullet_points_slide default_presentation (content_dict empty_content)
    = Ok (append_slide default_presentation slide)
    /\ slide_placeholders slide !! 0 = Some title_tf
    /\ text_frame_text title_tf = "Slide Title"
    /\ slide_placeholders slide !! 1 = Some body_tf
    /\ paragraphs body_tf = [empty_paragraph].
Proof.
  destruct (bullet_points_defaults default_presentation empty_content
              eq_refl eq_refl eq_refl)
    as (slide & title_tf & body_tf & Hadd & _ & Ht & Htext & _ & Hb & Hpars & _).
  exists slide, title_tf, body_tf. repeat (split; [assumption|]). assumption.
Defined.

(** C9 as the specification words it: the body region of the slide does
    not hold zero paragraphs; it holds one, which is empty. *)
Lemma bullet_points_body_keeps_one_paragraph :
  exists slide body_tf,
    _add_bullet_points_slide default_presentation (content_dict empty_content)
    = Ok (append_slide default_presentation slide)
    /\ slide_placeholders slide !! 1 = Some body_tf
    /\ length (paragraphs body_tf) = 1
    /\ length (paragraphs body_tf) <> 0.
Proof.
  eexists _, _. split.
  - apply (add_bullet_points_slide_dict _ _ {| layout_placeholders := [0; 1] |});
      [reflexivity|set_solver..].
  - split; [apply bullet_points_slide_body|]. by split.
Qed.

(** ** Ordered dictionaries *)

Section DictFacts.
Context {K V : Type} `{EqDecision K}.
Implicit Types (d : list (K * V)) (k : K) (v : V).

Lemma dict_get_None d k : dict_get d k = None <-> k ∉ keys d.
Proof.
  induction d as [|[k' v'] d IH]; simpl.
  - split; [intros _; apply not_elem_of_nil|done].
  - rewrite not_elem_of_cons. destruct (decide (k' = k)) as [->|Hne].
    + split; [discriminate|]. by intros [? _].
    + rewrite IH. split; [by split|by intros [_ ?]].
Qed.

Lemma dict_set_fresh d k v : dict_get d k = None -> dict_set d k v = (d ++ [(k, v)])%list.
Proof.
  induction d as [|[k' v'] d IH]; simpl; [done|].
  destruct (decide (k' = k)); [discriminate|]. intros Hd. by rewrite IH.
Qed.

Lemma dict_get_last d k v : dict_get d k = None -> dict_get (d ++ [(k, v)])%list k = Some v.
Proof.
  induction d as [|[k' v'] d IH]; simpl.
  - intros _. by rewrite decide_True.
  - destruct (decide (k' = k)); [discriminate|]. apply IH.
Qed.

Lemma dict_del_head k v d : dict_del ((k, v) :: d) k = d.
Proof. simpl. by rewrite decide_True. Qed.

Lemma keys_app d1 d2 : keys (d1 ++ d2)%list = (keys d1 ++ keys d2)%list.
Proof. unfold keys. apply map_app. Qed.
End DictFacts.

(** ** One request *)

Section GenerateFacts.
Context {Tree : Type}.
Variable json_loads : string -> Tree + string.
Implicit Types (self : LLMService Tree) (model : string -> Z -> reply).

Lemma generate_hit model self topic num_slides tree :
  dict_get (cache self) (lower topic, num_slides) = Some tree ->
  generate_slides_content json_loads model self topic num_slides = (Parsed tree, self).
Proof. intros H. unfold generate_slides_content. by rewrite H. Qed.

Lemma generate_failure model self topic num_slides message :
  dict_get (cache self) (lower topic, num_slides) = None ->
  produced json_loads model topic num_slides = inr message ->
  generate_slides_content json_loads model self topic num_slides =
  (Failure "Failed to generate or parse content from LLM." message,
   record_call self topic num_slides).
Proof.
  intros Hmiss Hp. unfold generate_slides_content, produced in *. rewrite Hmiss.
  destruct (model topic num_slides) as [text|m]; cbv zeta in *.
  - by rewrite Hp.
  - by inversion Hp.
Qed.

Lemma generate_success model self topic num_slides tree :
  dict_get (cache self) (lower topic, num_slides) = None ->
  produced json_loads model topic num_slides = inl tree ->
  generate_slides_content json_loads model self topic num_slides =
  (Parsed tree,
   {| cache :=
        if (max_cache_size <=? length (cache self))%nat
        then (tail (cache self) ++ [(lower topic, num_slides, tree)])%list
        else (cache self ++ [(lower topic, num_slides, tree)])%list;
      model_calls := model_calls self ++ [(topic, num_slides)] |}).
Proof.
  intros Hmiss Hp. unfold generate_slides_content, produced in *. rewrite Hmiss.
  destruct (model topic num_slides) as [text|m]; cbv zeta in *; [|discriminate].
  rewrite Hp. cbn [cache model_calls]. rewrite (dict_set_fresh _ _ _ Hmiss).
  rewrite length_app. cbn [length]. do 2 f_equal.
  destruct (Nat.leb_spec max_cache_size (length (cache self))) as [Hfull|Hroom].
  - assert ((max_cache_size <? length (cache self) + 1)%nat = true) as ->
      by (apply Nat.ltb_lt; lia).
    destruct (cache self) as [|[k v] d]; [unfold max_cache_size in Hfull; simpl in Hfull; lia|].
    cbn [app dict_first tail]. apply dict_del_head.
  - assert ((max_cache_size <? length (cache self) + 1)%nat = false) as ->
      by (apply Nat.ltb_ge; lia).
    reflexivity.
Qed.
End GenerateFacts.

(** ** Runs of requests *)

Section CacheFacts.
Context {Tree : Type}.
Variable json_loads : string -> Tree + string.
Implicit Types (self : LLMService Tree) (model : string -> Z -> reply).

Lemma generate_cases model self topic num_slides :
  (exists tree,
      dict_get (cache self) (lower topic, num_slides) = Some tree
      /\ generate_slides_content json_loads model self topic num_slides
         = (Parsed tree, self))
  \/ (exists message,
        dict_get (cache self) (lower topic, num_slides) = None
        /\ produced json_loads model topic num_slides = inr message
        /\ generate_slides_content json_loads model self topic num_slides
           = (Failure "Failed to generate or parse content from LLM." message,
              record_call self topic num_slides))
  \/ (exists tree,
        dict_get (cache self) (lower topic, num_slides) = None
        /\ produced json_loads model topic num_slides = inl tree
        /\ generate_slides_content json_loads model self topic num_slides
           = (Parsed tree,
              {| cache :=
                   if (max_cache_size <=? length (cache self))%nat
                   then (tail (cache self) ++ [(lower topic, num_slides, tree)])%list
                   else (cache self ++ [(lower topic, num_slides, tree)])%list;
                 model_calls := model_calls self ++ [(topic, num_slides)] |})).
Proof.
  destruct (dict_get (cache self) (lower topic, num_slides)) as [tree|] eqn:Hget.
  - left. exists tree. split; [reflexivity|]. by apply generate_hit.
  - right. destruct (produced json_loads model topic num_slides) as [tree|message] eqn:Hp.
    + right. exists tree. split; [reflexivity|]. split; [reflexivity|].
      by apply generate_success.
    + left. exists message. split; [reflexivity|]. split; [reflexivity|].
      by apply generate_failure.
Qed.

Lemma generate_bound model self topic num_slides :
  length (cache self) <= max_cache_size ->
  length (cache (snd (generate_slides_content json_loads model self topic num_slides)))
  <= max_cache_size.
Proof.
  intros Hle.
  destruct (generate_cases model self topic num_slides)
    as [(tree & _ & ->)|[(message & _ & _ & ->)|(tree & _ & _ & ->)]];
    cbn [snd cache record_call]; try assumption.
  destruct (Nat.leb_spec max_cache_size (length (cache self))) as [Hfull|Hroom].
  - rewrite length_app. cbn [length].
    destruct (cache self); simpl in *; [unfold max_cache_size; lia|lia].
  - rewrite length_app. cbn [length]. lia.
Qed.

Lemma serve_bound requests : forall self,
  length (cache self) <= max_cache_size ->
  length (cache (serve json_loads self requests)) <= max_cache_size.
Proof.
  induction requests as [|[[model topic] num_slides] rest IH]; intros self Hle.
  - assumption.
  - cbn [serve]. apply IH. by apply generate_bound.
Qed.

(** With fresh, pairwise distinct keys and a model that succeeds every
    time, the cache holds the latest [max_cache_size] keys, oldest first. *)
Lemma serve_fresh_keys requests : forall self,
  length (cache self) <= max_cache_size ->
  NoDup (keys (cache self) ++ map cache_key_of requests) ->
  forallb (succeeds json_loads) requests = true ->
  keys (cache (serve json_loads self requests)) =
  drop (length (keys (cache self) ++ map cache_key_of requests) - max_cache_size)
       (keys (cache self) ++ map cache_key_of requests).
Proof.
  induction requests as [|[[model topic] num_slides] rest IH]; intros self Hle Hnd Hok.
  - cbn [serve map]. rewrite app_nil_r.
    replace (length (keys (cache self)) - max_cache_size) with 0
      by (unfold keys; rewrite length_map; lia).
    reflexivity.
  - cbn [serve]. cbn [forallb] in Hok. apply andb_prop in Hok as [Hreq Hok].
    unfold succeeds in Hreq. cbn [fst snd] in Hreq.
    assert (Hmiss : dict_get (cache self) (lower topic, num_slides) = None).
    { apply dict_get_None. apply NoDup_app in Hnd as (_ & Hdisj & _).
      intros Hin. apply (Hdisj _ Hin). cbn [map]. apply elem_of_cons. by left. }
    destruct (produced json_loads model topic num_slides) as [tree|] eqn:Hp;
      [|discriminate].
    rewrite (generate_success _ _ _ _ _ _ Hmiss Hp). cbn [snd].
    change (map cache_key_of ((model, topic, num_slides) :: rest))
      with ((lower topic, num_slides) :: map cache_key_of rest) in *.
    set (k := (lower topic, num_slides)) in *.
    destruct (Nat.leb_spec max_cache_size (length (cache self))) as [Hfull|Hroom].
    + destruct (cache self) as [|[k0 v0] d] eqn:Hc;
        [unfold max_cache_size in Hfull; simpl in Hfull; lia|].
      cbn [tail]. rewrite IH; cbn [cache].
      * unfold keys. rewrite !map_app, !length_app, !length_map.
        cbn [map fst app length]. rewrite <- !app_assoc. cbn [app].
        rewrite !length_map.
        match goal with
        | |- drop ?a _ = drop ?b (_ :: _) =>
            replace b with (S a)
              by (cbn [length] in Hfull, Hle; unfold max_cache_size in *; lia)
        end.
        reflexivity.
      * rewrite length_app. cbn [length] in *. lia.
      * rewrite keys_app. cbn [keys map fst app] in *.
        rewrite <- app_assoc. cbn [app].
        by apply NoDup_cons in Hnd as [_ Hnd].
      * assumption.
    + rewrite IH; cbn [cache].
      * rewrite keys_app. cbn [keys map fst]. by rewrite <- !app_assoc.
      * rewrite length_app. cbn [length]. lia.
      * rewrite keys_app. cbn [keys map fst]. by rewrite <- app_assoc.
      * assumption.
Qed.
End CacheFacts.

Lemma dict_get_tail_None {K V} `{EqDecision K} (d : list (K * V)) (k : K) :
  dict_get d k = None -> dict_get (tail d) k = None.
Proof.
  destruct d as [|[k' v'] d]; [done|]. simpl.
  by destruct (decide (k' = k)).
Qed.

(** ** The content cache *)

(** C2.  The cache never holds more than 100 entries: the bound is kept by
    every call and so holds after every run of requests against a new
    service.  A hit returns the stored tree and leaves the service as it
    was, the order of the entries included.  A successful miss puts the new
    entry last; when the cache was full, the one entry that leaves is the
    first, oldest one.  After 101 successful requests with pairwise
    distinct keys the cache holds 100 entries, the keys of the 2nd to the
    101st request in their order; the key of the first request is gone. *)
Theorem cache_fifo_eviction {Tree : Type} (json_loads : string -> Tree + string) :
  (forall requests,
      length (cache (serve json_loads new_service requests)) <= 100)
  /\ (forall model self topic num_slides,
        length (cache self) <= 100 ->
        length (cache (snd (generate_slides_content json_loads model self topic num_slides)))
        <= 100)
  /\ (forall model self topic num_slides tree,
        dict_get (cache self) (lower topic, num_slides) = Some tree ->
        generate_slides_content json_loads model self topic num_slides
        = (Parsed tree, self))
  /\ (forall model self topic num_slides tree oldest others,
        dict_get (cache self) (lower topic, num_slides) = None ->
        produced json_loads model topic num_slides = inl tree ->
        cache self = oldest :: others ->
        length (cache self) = 100 ->
        cache (snd (generate_slides_content json_loads model self topic num_slides))
        = (others ++ [(lower topic, num_slides, tree)])%list)
  /\ (forall model self topic num_slides tree,
        dict_get (cache self) (lower topic, num_slides) = None ->
        produced json_loads model topic num_slides = inl tree ->
        length (cache self) < 100 ->
        cache (snd (generate_slides_content json_loads model self topic num_slides))
        = (cache self ++ [(lower topic, num_slides, tree)])%list)
  /\ (forall first rest,
        length (first :: rest) = 101 ->
        NoDup (map cache_key_of (first :: rest)) ->
        forallb (succeeds json_loads) (first :: rest) = true ->
        let final := cache (serve json_loads new_service (first :: rest)) in
        length final = 100
        /\ keys final = map cache_key_of rest
        /\ dict_get final (cache_key_of first) = None
        /\ Forall (fun request => is_Some (dict_get final (cache_key_of request))) rest).
Proof.
  split; [|split; [|split; [|split; [|split]]]].
  - intros requests. apply (serve_bound json_loads). cbn. unfold max_cache_size. lia.
  - intros model self topic num_slides. apply generate_bound.
  - intros model self topic num_slides tree. apply generate_hit.
  - intros model self topic num_slides tree oldest others Hmiss Hp Hc Hlen.
    rewrite (generate_success _ _ _ _ _ _ Hmiss Hp). cbn [snd cache].
    rewrite Hlen, Hc. reflexivity.
  - intros model self topic num_slides tree Hmiss Hp Hlen.
    rewrite (generate_success _ _ _ _ _ _ Hmiss Hp). cbn [snd cache].
    assert ((max_cache_size <=? length (cache self))%nat = false) as ->
      by (apply Nat.leb_gt; unfold max_cache_size; lia).
    reflexivity.
  - intros first rest Hlen Hnd Hok final.
    assert (Hkeys : keys final = map cache_key_of rest).
    { unfold final. rewrite serve_fresh_keys; cbn [cache new_service keys map app];
        [|cbn [length]; unfold max_cache_size; lia|assumption|assumption].
      cbn [length] in *. rewrite length_map.
      replace (S (length rest) - max_cache_size) with 1
        by (unfold max_cache_size; lia).
      reflexivity. }
    apply NoDup_cons in Hnd as [Hfirst Hnd].
    split; [|split; [|split]].
    + rewrite <- (length_map fst final). fold (keys final). rewrite Hkeys, length_map.
      cbn [length] in Hlen. lia.
    + assumption.
    + apply dict_get_None. by rewrite Hkeys.
    + apply Forall_forall. intros request Hin.
      destruct (dict_get final (cache_key_of request)) eqn:Hget; [by eexists|].
      apply dict_get_None in Hget. exfalso. apply Hget. rewrite Hkeys.
      by apply (list_elem_of_fmap_2 cache_key_of).
Qed.

Lemma cache_fifo_eviction_witness :
  let request i : (string -> Z -> reply) * string * Z :=
    (fun _ _ => Text "{}", "Rome", Z.of_nat i) in
  let first := request 1 in
  let rest := map request (seq 2 100) in
  let final := cache (serve (fun s : string => inl s) new_service (first :: rest)) in
  length final = 100
  /\ keys final = map cache_key_of rest
  /\ dict_get final ("rome", 1%Z) = None
  /\ Forall (fun r => is_Some (dict_get final (cache_key_of r))) rest.
Proof.
  intros request first rest.
  apply (proj2 (proj2 (proj2 (proj2 (proj2
           (cache_fifo_eviction (fun s : string => inl s)))))) first rest).
  - reflexivity.
  - apply (bool_decide_unpack _). vm_compute. exact I.
  - vm_compute. reflexivity.
Defined.






(** ** More on the pattern *)

Lemma strip_prefix_app_some p s r t :
  strip_prefix p s = Some r -> strip_prefix p (s +:+ t) = Some (r +:+ t).
Proof.
  revert s. induction p as [|a p IH]; intros s; simpl.
  - by intros [= ->].
  - destruct s as [|b s]; [discriminate|]. rewrite append_cons.
    destruct (Ascii.eqb a b); [apply IH|discriminate].
Qed.

Lemma match_lazy_inner_matched d s inner rest :
  match_lazy d s = Some (inner, rest) ->
  on_one_line inner = true /\ occurs (delimiter_text d) inner = false.
Proof.
  revert inner rest. induction s as [|c s IH]; intros inner rest; simpl.
  - destruct (strip_prefix (delimiter_text d) "") as [r|]; [|discriminate].
    intros [= <- <-]. split; [reflexivity|]. by destruct d.
  - destruct (strip_prefix (delimiter_text d) (String c s)) as [r|] eqn:E.
    + intros [= <- <-]. split; [reflexivity|]. by destruct d.
    + destruct (Ascii.eqb c newline) eqn:Hc; [discriminate|].
      destruct (match_lazy d s) as [[i r]|] eqn:El; [|discriminate].
      intros [= <- <-]. destruct (IH _ _ eq_refl) as [Hl Ho].
      split; [simpl; by rewrite Hc, Hl|].
      simpl. rewrite Ho.
      destruct (strip_prefix (delimiter_text d) (String c i)) as [r'|] eqn:E'; [|reflexivity].
      apply match_lazy_sound in El. subst s.
      apply (strip_prefix_app_some _ _ _ (delimiter_text d +:+ r)) in E'.
      rewrite append_cons in E'. congruence.
Qed.

Lemma search_inner_matched s before d inner rest :
  search s = Some (before, d, inner, rest) ->
  on_one_line inner = true /\ occurs (delimiter_text d) inner = false.
Proof.
  revert before. induction s as [|c s IH]; intros before; [discriminate|].
  cbn [search]. destruct (match_here (String c s)) as [[[d' i] r]|] eqn:E.
  - intros [= <- <- <- <-]. unfold match_here in E.
    destruct (match_delimiter (String c s)) as [[d0 r0]|]; [|discriminate].
    destruct (match_lazy d0 r0) as [[i0 r1]|] eqn:El; [|discriminate].
    injection E as <- <- <-. by apply match_lazy_inner_matched in El.
  - destruct (search s) as [[[[b d'] i] r]|] eqn:Es; [|discriminate].
    intros [= <- <- <- <-]. by apply (IH b).
Qed.

Lemma split_from_matched fuel s :
  exists head segments,
    split_from fuel s = parts_of head segments
    /\ written head segments = s
    /\ forallb matched_segment segments = true.
Proof.
  revert s. induction fuel as [|fuel IH]; intros s.
  - exists s, []. split; [reflexivity|]. split; [apply append_empty_r|reflexivity].
  - simpl. destruct (search s) as [[[[b d] i] r]|] eqn:E.
    + destruct (IH r) as (h & segs & Hp & Hw & Hm).
      exists b, ({| segment_delimiter := d; segment_inner := i;
                    segment_trailing := h |} :: segs).
      split; [by rewrite Hp|]. split.
      * apply search_sound in E. rewrite E. unfold written in *. simpl.
        by rewrite <- Hw.
      * destruct (search_inner_matched _ _ _ _ _ E) as [Hl Ho].
        cbn [forallb]. unfold matched_segment at 1. cbn. by rewrite Hl, Ho, Hm.
    + exists s, []. split; [reflexivity|]. split; [apply append_empty_r|reflexivity].
Qed.

Lemma run_texts_of head segments :
  map run_text (runs_of head segments)
  = map _escape_ctrl_chars
      (head :: flat_map (fun s => [segment_inner s; segment_trailing s]) segments).
Proof.
  unfold runs_of. cbn [map]. f_equal.
  induction segments as [|s segs IH]; [reflexivity|].
  cbn [flat_map segment_runs app map]. by rewrite IH, run_text_styled.
Qed.

(** X1.  Whatever the text, the runs the parser leaves alternate: a plain
    run, then for every matched pair a run that is bold or underlined, never
    both, followed by a plain run.  The text inside a matched pair stays on
    one line and does not hold the delimiter of its pair; the head, the
    texts inside the pairs and the texts after them, with the delimiters
    back in place, are the text that was parsed, and each run carries its
    piece as python-pptx stores it. *)
Theorem parser_runs_alternate (paragraph : Paragraph) (text : string) :
  exists head segments,
    _process_markdown_to_runs paragraph (PyStr text) =
      Ok {| paragraph_runs := runs_of head segments;
            paragraph_level := paragraph_level paragraph |}
    /\ written head segments = text
    /\ forallb matched_segment segments = true
    /\ Forall (fun r => font_bold (run_font r) <> Some true
                        \/ font_underline (run_font r) <> Some true)
         (runs_of head segments)
    /\ map run_text (runs_of head segments)
       = map _escape_ctrl_chars
           (head :: flat_map (fun s => [segment_inner s; segment_trailing s]) segments).
Proof.
  destruct (split_from_matched (String.length text) text) as (head & segments & Hp & Hw & Hm).
  exists head, segments. split; [by apply process_markdown_parts|].
  split; [assumption|]. split; [assumption|]. split; [|apply run_texts_of].
  unfold runs_of. constructor; [by left|].
  clear. induction segments as [|s segs IH]; [constructor|].
  cbn [flat_map segment_runs app]. constructor; [|constructor; [by left|assumption]].
  destruct (segment_delimiter s); [by right|by left].
Qed.





Lemma markdown_runs_parts text head segments :
  re_split text = parts_of head segments ->
  markdown_runs text = runs_of head segments.
Proof.
  intros Hp. unfold markdown_runs. by rewrite (process_markdown_parts _ _ _ _ Hp).
Qed.



Lemma search_without_delimiter_char s :
  has_delimiter_char s = false -> search s = None.
Proof.
  induction s as [|a s IH]; [reflexivity|].
  cbn [has_delimiter_char]. intros H.
  apply orb_false_iff in H as [H Hs]. apply orb_false_iff in H as [Hstar Hunder].
  cbn [search]. rewrite (IH Hs).
  assert (match_here (String a s) = None) as ->; [|reflexivity].
  unfold match_here, match_delimiter. destruct s; [reflexivity|].
  by rewrite Hstar, Hunder.
Qed.

(** X3.  A text without [*] and without [_] comes out of the parser as a
    single run, neither bold nor underlined, that carries the text as
    python-pptx stores it: unchanged when it has no control character but
    tab and line feed. *)
Theorem plain_text_is_one_run (paragraph : Paragraph) (text : string) :
  has_delimiter_char text = false ->
  _process_markdown_to_runs paragraph (PyStr text) =
  Ok {| paragraph_runs :=
          [ {| run_text := _escape_ctrl_chars text; run_font := no_font |} ];
        paragraph_level := paragraph_level paragraph |}
  /\ (no_ctrl_char text = true ->
      _process_markdown_to_runs paragraph (PyStr text) =
      Ok {| paragraph_runs := [ {| run_text := text; run_font := no_font |} ];
            paragraph_level := paragraph_level paragraph |}).
Proof.
  intros H.
  assert (Hrun : _process_markdown_to_runs paragraph (PyStr text) =
                 Ok {| paragraph_runs :=
                         [ {| run_text := _escape_ctrl_chars text; run_font := no_font |} ];
                       paragraph_level := paragraph_level paragraph |}).
  { apply (process_markdown_parts _ _ text []).
    by rewrite re_split_eq, (search_without_delimiter_char _ H). }
  split; [assumption|].
  intros Hc. rewrite Hrun. by rewrite (escape_no_ctrl_char _ Hc).
Qed.

Lemma plain_text_is_one_run_witness :
  _process_markdown_to_runs empty_paragraph (PyStr "The History of Ancient Rome") =
  Ok {| paragraph_runs :=
          [ {| run_text := "The History of Ancient Rome"; run_font := no_font |} ];
        paragraph_level := 0 |}.
Proof.
  exact (proj2 (plain_text_is_one_run empty_paragraph "The History of Ancient Rome"
                  eq_refl) eq_refl).
Defined.

(** X4.  The parser writes over what the paragraph held: the runs it
    leaves do not depend on the runs that were there, the level of the
    paragraph is kept, and parsing the same text into the result again
    changes nothing. *)
Theorem parser_overwrites (p p' : Paragraph) (text : string) :
  paragraph_level p = paragraph_level p' ->
  _process_markdown_to_runs p (PyStr text) = _process_markdown_to_runs p' (PyStr text)
  /\ (exists q, _process_markdown_to_runs p (PyStr text) = Ok q
                /\ paragraph_level q = paragraph_level p
                /\ _process_markdown_to_runs q (PyStr text) = Ok q).
Proof.
  intros Hlevel. rewrite !process_markdown_total, Hlevel. split; [reflexivity|].
  eexists. split; [reflexivity|]. split; [reflexivity|].
  by rewrite process_markdown_total.
Qed.

Lemma parser_overwrites_witness :
  _process_markdown_to_runs
    {| paragraph_runs := [plain_run "Click to add title"]; paragraph_level := 0 |}
    (PyStr "**T**")
  = _process_markdown_to_runs empty_paragraph (PyStr "**T**").
Proof.
  exact (proj1 (parser_overwrites
                  {| paragraph_runs := [plain_run "Click to add title"];
                     paragraph_level := 0 |}
                  empty_paragraph "**T**" eq_refl)).
Defined.

(** ** More on the style resolver *)

Lemma apply_font_style_run_twice a b r :
  apply_font_style_run b (apply_font_style_run a r) = apply_font_style_run b r.
Proof.
  destruct r as [t [bo un na sz co]]. unfold apply_font_style_run.
  destruct a, b; cbn; by destruct bo as [[|]|].
Qed.

(** X5.  Styling a text frame a second time makes the first styling
    disappear: the result is the styling of the last role alone, and
    styling twice for the same role is styling once. *)
Theorem last_style_wins (tf : TextFrame) (first last : bool) :
  _apply_font_style (_apply_font_style tf first) last = _apply_font_style tf last.
Proof.
  assert (Hp : forall p, apply_font_style_paragraph last (apply_font_style_paragraph first p)
                         = apply_font_style_paragraph last p).
  { intros p. unfold apply_font_style_paragraph. cbn. f_equal.
    rewrite map_map. apply map_ext. intros r. apply apply_font_style_run_twice. }
  unfold _apply_font_style. cbn. rewrite Hp. f_equal.
  rewrite map_map. apply map_ext. intros p. apply Hp.
Qed.

(** ** More on the renderers *)

Lemma markdown_runs_plain_text text :
  has_delimiter_char text = false -> markdown_runs text = [plain_run text].
Proof.
  intros H. apply (markdown_runs_parts text text []).
  by rewrite re_split_eq, (search_without_delimiter_char _ H).
Qed.

Lemma title_slide_title l content :
  slide_placeholders (title_slide_of l content) !! 0 =
  Some (title_frame (default "Presentation Title" (title content))).
Proof.
  unfold title_slide_of, set_text_frame. cbn [slide_placeholders].
  rewrite lookup_insert_ne by done. by rewrite lookup_insert_eq.
Qed.

Lemma title_slide_subtitle l content :
  slide_placeholders (title_slide_of l content) !! 1 =
  Some {| first_paragraph := body_paragraph (default "" (subtitle content)) 0;
          more_paragraphs := [] |}.
Proof.
  unfold title_slide_of, set_text_frame. cbn [slide_placeholders].
  by rewrite lookup_insert_eq.
Qed.

(** X6.  On a layout 0 with a title and a placeholder 1, the title slide
    has its title in one paragraph styled as a title and its subtitle in
    one paragraph styled as body text.  A title and a subtitle without
    delimiters are one run each, in Calibri Light 36 pt dark blue and in
    Calibri 18 pt dark grey, with the text as python-pptx stores it.  A
    missing title is "Presentation Title"; a missing subtitle leaves one
    run with the empty text. *)
Theorem title_slide_regions (prs : Presentation) (content : Content) :
  has_placeholders prs 0 [0; 1] = true ->
  exists slide title_tf subtitle_tf,
    _add_title_slide prs (content_dict content) = Ok (append_slide prs slide)
    /\ slide_layout slide = 0
    /\ slide_placeholders slide !! 0 = Some title_tf
    /\ slide_placeholders slide !! 1 = Some subtitle_tf
    /\ paragraphs title_tf =
       [title_paragraph (default "Presentation Title" (title content))]
    /\ paragraphs subtitle_tf = [body_paragraph (default "" (subtitle content)) 0]
    /\ (has_delimiter_char (default "Presentation Title" (title content)) = false ->
        paragraph_runs (first_paragraph title_tf) =
        [ {| run_text :=
               _escape_ctrl_chars (default "Presentation Title" (title content));
             run_font := {| font_bold := None; font_underline := None;
                            font_name := Some "Calibri Light";
                            font_size := Some 457200%Z;
                            font_color := Some (10, 44, 82)%Z |} |} ])
    /\ (has_delimiter_char (default "" (subtitle content)) = false ->
        paragraph_runs (first_paragraph subtitle_tf) =
        [ {| run_text := _escape_ctrl_chars (default "" (subtitle content));
             run_font := {| font_bold := None; font_underline := None;
                            font_name := Some "Calibri";
                            font_size := Some 228600%Z;
                            font_color := Some (51, 51, 51)%Z |} |} ])
    /\ (title content = None -> text_frame_text title_tf = "Presentation Title")
    /\ (subtitle content = None ->
        text_frame_text subtitle_tf = ""
        /\ length (paragraph_runs (first_paragraph subtitle_tf)) = 1).
Proof.
  intros Hs. apply has_placeholders_spec in Hs as (l & Hl & F).
  repeat match goal with
         | F : Forall _ (_ :: _) |- _ => apply Forall_cons in F as [? F]
         end.
  eexists (title_slide_of l content), _, _.
  split; [by apply add_title_slide_dict|]. split; [reflexivity|].
  split; [apply title_slide_title|]. split; [apply title_slide_subtitle|].
  split; [reflexivity|]. split; [reflexivity|].
  split; [|split; [|split]].
  - intros Hplain. cbn. by rewrite (markdown_runs_plain_text _ Hplain).
  - intros Hplain. cbn. by rewrite (markdown_runs_plain_text _ Hplain).
  - by intros ->.
  - by intros ->.
Qed.

Lemma title_slide_regions_witness :
  exists slide title_tf,
    _add_title_slide default_presentation
      (content_dict
         {| title := Some "Rome"; subtitle := None; points := None;
            left_column := None; right_column := None |})
    = Ok (append_slide default_presentation slide)
    /\ slide_placeholders slide !! 0 = Some title_tf
    /\ paragraph_runs (first_paragraph title_tf) =
       [ {| run_text := "Rome";
            run_font := {| font_bold := None; font_underline := None;
                           font_name := Some "Calibri Light";
                           font_size := Some 457200%Z;
                           font_color := Some (10, 44, 82)%Z |} |} ].
Proof.
  destruct (title_slide_regions default_presentation
              {| title := Some "Rome"; subtitle := None; points := None;
                 left_column := None; right_column := None |} eq_refl)
    as (slide & title_tf & subtitle_tf & Hadd & _ & Ht & _ & _ & _ & Hruns & _).
  exists slide, title_tf. split; [exact Hadd|]. split; [exact Ht|exact (Hruns eq_refl)].
Defined.

Lemma paragraph_text_body_plain text level :
  has_delimiter_char text = false ->
  paragraph_text (body_paragraph text level) = _escape_ctrl_chars text.
Proof.
  intros H. unfold paragraph_text, body_paragraph. cbn [paragraph_runs].
  by rewrite (markdown_runs_plain_text _ H).
Qed.

(** X7.  On a layout 1 with a title and a placeholder 1, the body of a
    bullet slide holds, after the empty paragraph that clearing leaves, one
    paragraph for each point, in the order of the points and all at level
    0; the text of the paragraph of a point without delimiters is the point
    as python-pptx stores it. *)
Theorem bullet_points_body (prs : Presentation) (content : Content) :
  has_placeholders prs 1 [0; 1] = true ->
  exists slide body_tf,
    _add_bullet_points_slide prs (content_dict content) = Ok (append_slide prs slide)
    /\ slide_placeholders slide !! 1 = Some body_tf
    /\ paragraphs body_tf =
       empty_paragraph
       :: map (fun t => body_paragraph t 0) (default [] (points content))
    /\ length (paragraphs body_tf) = 1 + length (default [] (points content))
    /\ Forall (fun p => paragraph_level p = 0) (paragraphs body_tf)
    /\ (forallb (fun t => negb (has_delimiter_char t)) (default [] (points content)) = true ->
        map paragraph_text (paragraphs body_tf)
        = "" :: map _escape_ctrl_chars (default [] (points content))).
Proof.
  intros Hs. apply has_placeholders_spec in Hs as (l & Hl & F).
  repeat match goal with
         | F : Forall _ (_ :: _) |- _ => apply Forall_cons in F as [? F]
         end.
  eexists (bullet_points_slide_of l content), _.
  split; [by apply add_bullet_points_slide_dict|].
  split; [apply bullet_points_slide_body|].
  unfold paragraphs. cbn [first_paragraph more_paragraphs].
  split; [reflexivity|]. split; [cbn [length]; by rewrite length_map|]. split.
  - constructor; [reflexivity|]. apply Forall_forall. intros p Hp.
    apply list_elem_of_fmap in Hp as (t & -> & _). reflexivity.
  - intros Hplain. cbn [map]. f_equal.
    induction (default [] (points content)) as [|t ts IH]; [reflexivity|].
    cbn [forallb] in Hplain. apply andb_prop in Hplain as [Ht Hts].
    apply negb_true_iff in Ht.
    cbn [map]. by rewrite (paragraph_text_body_plain _ _ Ht), (IH Hts).
Qed.

Lemma bullet_points_body_witness :
  exists slide body_tf,
    _add_bullet_points_slide default_presentation
      (content_dict
         {| title := Some "Rome"; subtitle := None;
            points := Some ["Founded in 753 BC"; "Republic from 509 BC"];
            left_column := None; right_column := None |})
    = Ok (append_slide default_presentation slide)
    /\ slide_placeholders slide !! 1 = Some body_tf
    /\ map paragraph_text (paragraphs body_tf) =
       [""; "Founded in 753 BC"; "Republic from 509 BC"].
Proof.
  destruct (bullet_points_body default_presentation
              {| title := Some "Rome"; subtitle := None;
                 points := Some ["Founded in 753 BC"; "Republic from 509 BC"];
                 left_column := None; right_column := None |} eq_refl)
    as (slide & body_tf & Hadd & Hb & _ & _ & _ & Htexts).
  exists slide, body_tf. split; [exact Hadd|]. split; [exact Hb|exact (Htexts eq_refl)].
Defined.

(** ** Templates that lack what a renderer reaches for *)

Lemma new_slide_no_placeholder i layout idx :
  idx ∉ layout_placeholders layout ->
  slide_placeholders (new_slide i layout) !! idx = None.
Proof.
  unfold new_slide. cbn [slide_placeholders].
  induction (layout_placeholders layout) as [|x l IH]; intros Hin.
  - apply lookup_empty.
  - cbn [map]. rewrite list_to_map_cons. apply not_elem_of_cons in Hin as [Hne Hin].
    rewrite lookup_insert_ne by done. by apply IH.
Qed.

Lemma get_layout_lookup prs i :
  get_layout prs i =
  match slide_layouts prs !! i with Some l => Ok l | None => Raise IndexError end.
Proof. reflexivity. Qed.

(** X8.  What a renderer raises on a template that lacks a piece: a missing
    layout is an [IndexError]; a layout that has the title but not the
    placeholder asked for is a [KeyError]; a layout without a title is an
    [AttributeError], for the two-column renderer whatever else the layout
    has, for the other two when placeholder 1 is there; without the title
    and without placeholder 1 the other two raise the [KeyError] of the
    placeholder, which they look up first. *)
Theorem renderer_exceptions (prs : Presentation) (content : Content) :
  (slide_layouts prs !! 0 = None ->
   _add_title_slide prs (content_dict content) = Raise IndexError)
  /\ (slide_layouts prs !! 1 = None ->
      _add_bullet_points_slide prs (content_dict content) = Raise IndexError)
  /\ (slide_layouts prs !! 3 = None ->
      _add_two_column_slide prs (content_dict content) = Raise IndexError)
  /\ (forall l, 0 ∈ layout_placeholders l -> 1 ∉ layout_placeholders l ->
        (slide_layouts prs !! 0 = Some l ->
         _add_title_slide prs (content_dict content) = Raise KeyError)
        /\ (slide_layouts prs !! 1 = Some l ->
            _add_bullet_points_slide prs (content_dict content) = Raise KeyError)
        /\ (slide_layouts prs !! 3 = Some l ->
            _add_two_column_slide prs (content_dict content) = Raise KeyError))
  /\ (forall l, 0 ∈ layout_placeholders l -> 1 ∈ layout_placeholders l ->
        2 ∉ layout_placeholders l -> slide_layouts prs !! 3 = Some l ->
        _add_two_column_slide prs (content_dict content) = Raise KeyError)
  /\ (forall l, 0 ∉ layout_placeholders l -> slide_layouts prs !! 3 = Some l ->
        _add_two_column_slide prs (content_dict content) = Raise AttributeError)
  /\ (forall l, 0 ∉ layout_placeholders l -> 1 ∈ layout_placeholders l ->
        (slide_layouts prs !! 0 = Some l ->
         _add_title_slide prs (content_dict content) = Raise AttributeError)
        /\ (slide_layouts prs !! 1 = Some l ->
            _add_bullet_points_slide prs (content_dict content) = Raise AttributeError))
  /\ (forall l, 0 ∉ layout_placeholders l -> 1 ∉ layout_placeholders l ->
        (slide_layouts prs !! 0 = Some l ->
         _add_title_slide prs (content_dict content) = Raise KeyError)
        /\ (slide_layouts prs !! 1 = Some l ->
            _add_bullet_points_slide prs (content_dict content) = Raise KeyError)).
Proof.
  destruct (is_content_fields _ (is_content_dict content))
    as (items & -> & Ht & _ & _ & Hlc & _).
  destruct (get_column _ _ Hlc) as (ldata & Hlget & Hlshape & _).
  destruct (fill_column_spec ldata Hlshape) as (ltf & Hlfill & _).
  unfold _add_title_slide, _add_bullet_points_slide, _add_two_column_slide,
    title_text_frame, placeholder_text_frame.
  rewrite !get_layout_lookup.
  split; [by intros ->|]. split; [by intros ->|]. split; [by intros ->|].
  split; [|split; [|split; [|split]]].
  - intros l H0 H1. repeat split; intros ->; cbn [bind];
      rewrite ?(new_slide_no_placeholder _ _ _ H1); cbn [bind]; [reflexivity..|].
    rewrite (new_slide_placeholder _ _ _ H0). cbn [bind].
    rewrite (get_text _ _ _ Ht). cbn [bind]. rewrite process_markdown_total. cbn [bind].
    by rewrite Hlget.
  - intros l H0 H1 H2 ->. cbn [bind].
    rewrite (new_slide_placeholder _ _ _ H0). cbn [bind].
    rewrite (get_text _ _ _ Ht). cbn [bind]. rewrite process_markdown_total. cbn [bind].
    rewrite Hlget. cbn [bind].
    rewrite (new_slide_placeholder _ _ _ H1). cbn [bind]. rewrite Hlfill. cbn [bind].
    destruct (py_get (PyDict items) "right_column" (PyDict [])) eqn:Hright;
      [|discriminate].
    cbn [bind]. by rewrite (new_slide_no_placeholder _ _ _ H2).
  - intros l H0 ->. cbn [bind]. by rewrite (new_slide_no_placeholder _ _ _ H0).
  - intros l H0 H1. split; intros ->; cbn [bind];
      rewrite (new_slide_placeholder _ _ _ H1); cbn [bind];
      by rewrite (new_slide_no_placeholder _ _ _ H0).
  - intros l H0 H1. split; intros ->; cbn [bind];
      by rewrite (new_slide_no_placeholder _ _ _ H1).
Qed.

Lemma renderer_exceptions_witness :
  let title_only :=
    {| slide_layouts := [ {| layout_placeholders := [0] |};
                          {| layout_placeholders := [0] |} ];
       slides := [] |} in
  _add_title_slide title_only (content_dict empty_content) = Raise KeyError
  /\ _add_bullet_points_slide title_only (content_dict empty_content) = Raise KeyError
  /\ _add_two_column_slide title_only (content_dict empty_content) = Raise IndexError.
Proof.
  intros title_only.
  destruct (renderer_exceptions title_only empty_content)
    as (_ & _ & Hindex & Hkey & _).
  destruct (Hkey {| layout_placeholders := [0] |}) as (Htitle & Hbullet & _);
    [apply (bool_decide_unpack _); vm_compute; exact I..|].
  split; [exact (Htitle eq_refl)|]. split; [exact (Hbullet eq_refl)|exact (Hindex eq_refl)].
Defined.

Lemma add_slide_for_cases slide_info :
  well_formed slide_info = true ->
  (recognised slide_info = true /\ layout_index slide_info = 0
   /\ is_two_column slide_info = false
   /\ exists content,
        is_content content = true
        /\ forall prs, add_slide_for prs slide_info = _add_title_slide prs content)
  \/ (recognised slide_info = true /\ layout_index slide_info = 1
      /\ is_two_column slide_info = false
      /\ exists content,
           is_content content = true
           /\ forall prs,
                add_slide_for prs slide_info = _add_bullet_points_slide prs content)
  \/ (recognised slide_info = true /\ layout_index slide_info = 3
      /\ is_two_column slide_info = true
      /\ exists content,
           forall prs, add_slide_for prs slide_info = _add_two_column_slide prs content)
  \/ (recognised slide_info = false /\ is_two_column slide_info = false
      /\ forall prs, add_slide_for prs slide_info = Ok prs).
Proof.
  intros Hw. destruct slide_info as [| | | | |?|items]; try discriminate.
  pose proof (well_formed_content items Hw) as Hcontent.
  unfold recognised, layout_index, is_two_column, add_slide_for in *.
  cbn [py_get layout_name_of bind] in *.
  destruct (default PyNone (dict_get items "layout")) as [| | | |name| |];
    try (right; right; right; by repeat split).
  cbn [is_str] in *.
  destruct (String.eqb name "title_slide") eqn:Et.
  { left. apply String.eqb_eq in Et. subst name.
    destruct (Hcontent eq_refl) as (content & -> & Hshape).
    repeat split. by exists content. }
  destruct (String.eqb name "bullet_points") eqn:Eb.
  { right. left. apply String.eqb_eq in Eb. subst name.
    destruct (Hcontent eq_refl) as (content & -> & Hshape).
    repeat split. by exists content. }
  destruct (String.eqb name "two_column") eqn:Ec.
  { right. right. left.
    destruct (Hcontent eq_refl) as (content & -> & Hshape).
    repeat split. by exists content. }
  right. right. right. by repeat split.
Qed.

Lemma slides_loop_without_layout_3 slide_infos : forall prs,
  has_placeholders prs 0 [0; 1] = true ->
  has_placeholders prs 1 [0; 1] = true ->
  slide_layouts prs !! 3 = None ->
  forallb well_formed slide_infos = true ->
  (existsb is_two_column slide_infos = true ->
   slides_loop slide_infos prs = Raise IndexError)
  /\ (existsb is_two_column slide_infos = false ->
      exists new,
        slides_loop slide_infos prs =
          Ok {| slide_layouts := slide_layouts prs; slides := slides prs ++ new |}
        /\ map slide_layout new = map layout_index (List.filter recognised slide_infos)).
Proof.
  induction slide_infos as [|info rest IH]; intros prs H0 H1 H3 Hw.
  - split; [discriminate|]. intros _. exists []. rewrite app_nil_r. by destruct prs.
  - cbn [forallb] in Hw. apply andb_prop in Hw as [Hw Hrest].
    cbn [existsb slides_loop List.filter].
    destruct (has_placeholders_spec _ _ _ H0) as (l0 & Hl0 & F0).
    destruct (has_placeholders_spec _ _ _ H1) as (l1 & Hl1 & F1).
    repeat match goal with
           | F : Forall _ (_ :: _) |- _ => apply Forall_cons in F as [? F]
           end.
    destruct (add_slide_for_cases info Hw)
      as [(-> & Hi & -> & content & Hshape & ->)
         |[(-> & Hi & -> & content & Hshape & ->)
          |[(-> & Hi & -> & content & ->)|(-> & -> & ->)]]].
    + rewrite (add_title_slide_spec _ _ l0) by assumption. cbn [bind orb].
      destruct (IH (append_slide prs (title_slide_of l0 (content_of content)))
                  H0 H1 H3 Hrest)
        as [IHyes IHno].
      split; [assumption|]. intros Hno. destruct (IHno Hno) as (new & -> & Hidx).
      exists (title_slide_of l0 (content_of content) :: new)%list.
      cbn [append_slide slide_layouts slides map]. rewrite <- app_assoc.
      split; [reflexivity|]. by rewrite Hidx, Hi.
    + rewrite (add_bullet_points_slide_spec _ _ l1) by assumption. cbn [bind orb].
      destruct (IH (append_slide prs (bullet_points_slide_of l1 (content_of content)))
                  H0 H1 H3 Hrest)
        as [IHyes IHno].
      split; [assumption|]. intros Hno. destruct (IHno Hno) as (new & -> & Hidx).
      exists (bullet_points_slide_of l1 (content_of content) :: new)%list.
      cbn [append_slide slide_layouts slides map]. rewrite <- app_assoc.
      split; [reflexivity|]. by rewrite Hidx, Hi.
    + split; [|discriminate]. intros _.
      unfold _add_two_column_slide. rewrite get_layout_lookup, H3. reflexivity.
    + cbn [bind orb]. apply (IH prs H0 H1 H3 Hrest).
Qed.

(** X9.  A template with the layouts 0 and 1 but without a layout 3 serves
    every content tree of well-formed records that has no [two_column]
    record, with one slide for each [title_slide] and [bullet_points] record
    in input order; on such a tree with a [two_column] record the assembler
    leaves with an [IndexError] and writes nothing. *)
Theorem template_without_layout_3 (open_pptx : string -> result Presentation)
    (presentation_data : value) (slide_infos : list value)
    (output_path aspect_ratio : string) (prs : Presentation) :
  open_pptx (template_path_for aspect_ratio) = Ok prs ->
  has_placeholders prs 0 [0; 1] = true ->
  has_placeholders prs 1 [0; 1] = true ->
  slide_layouts prs !! 3 = None ->
  py_get presentation_data "slides" (PyList []) = Ok (PyList slide_infos) ->
  forallb well_formed slide_infos = true ->
  (existsb is_two_column slide_infos = true ->
   create_presentation open_pptx presentation_data output_path aspect_ratio
   = Raise IndexError)
  /\ (existsb is_two_column slide_infos = false ->
      exists new,
        create_presentation open_pptx presentation_data output_path aspect_ratio =
          Ok {| stdout := ["Using template: " +:+ template_path_for aspect_ratio];
                saved_path := output_path;
                saved := {| slide_layouts := slide_layouts prs;
                            slides := slides prs ++ new |} |}
        /\ map slide_layout new = map layout_index (List.filter recognised slide_infos)).
Proof.
  intros Hopen H0 H1 H3 Hslides Hw.
  destruct (slides_loop_without_layout_3 slide_infos prs H0 H1 H3 Hw) as [Hyes Hno].
  unfold create_presentation. cbv zeta. fold (template_path_for aspect_ratio).
  rewrite Hopen. cbn [bind fst snd]. rewrite Hslides. cbn [bind py_iter]. split.
  - intros H. by rewrite (Hyes H).
  - intros H. destruct (Hno H) as (new & -> & Hidx). by exists new.
Qed.

Lemma template_without_layout_3_witness :
  let prs := {| slide_layouts := [ {| layout_placeholders := [0; 1] |};
                                   {| layout_placeholders := [0; 1] |} ];
                slides := [] |} in
  create_presentation (fun _ => Ok prs)
    (PyDict
       [ ("slides",
          PyList [ PyDict [("layout", PyStr "title_slide"); ("content", PyDict [])];
                   PyDict [("layout", PyStr "two_column"); ("content", PyDict [])] ]) ])
    "out.pptx" "16:9"
  = Raise IndexError.
Proof.
  intros prs.
  exact (proj1 (template_without_layout_3 (fun _ => Ok prs)
                  (PyDict
                     [ ("slides",
                        PyList
                          [ PyDict [("layout", PyStr "title_slide"); ("content", PyDict [])];
                            PyDict [("layout", PyStr "two_column"); ("content", PyDict [])] ]) ])
                  [ PyDict [("layout", PyStr "title_slide"); ("content", PyDict [])];
                    PyDict [("layout", PyStr "two_column"); ("content", PyDict [])] ]
                  "out.pptx" "16:9" prs eq_refl eq_refl eq_refl eq_refl eq_refl eq_refl)
           eq_refl).
Defined.

(** ** Contents that are not of the shape the prompt describes *)

Lemma process_markdown_no_text paragraph v :
  is_text v = false -> _process_markdown_to_runs paragraph v = Raise TypeError.
Proof. by destruct v. Qed.

(** X20.  What a renderer raises, on a template that has the layout and the
    placeholders it uses, for a content that is not what the prompt
    describes.  A content that is no dictionary, [None] for a record
    without content, is an [AttributeError] in all three.  A title that is
    there and is no text is a [TypeError] in all three.  Points that cannot
    be gone through, or one of which is no text, are a [TypeError] in the
    bullet renderer.  In a column, a heading that is false ([None], [0],
    [False], an empty text, list or dictionary) is passed over without an
    exception, and a heading that is true and no text is a [TypeError]. *)
Theorem ill_typed_content_raises (prs : Presentation) :
  supports prs = true ->
  (forall content,
      is_dict content = false ->
      _add_title_slide prs content = Raise AttributeError
      /\ _add_bullet_points_slide prs content = Raise AttributeError
      /\ _add_two_column_slide prs content = Raise AttributeError)
  /\ (forall items v,
        dict_get items "title" = Some v -> is_text v = false ->
        _add_title_slide prs (PyDict items) = Raise TypeError
        /\ _add_bullet_points_slide prs (PyDict items) = Raise TypeError
        /\ _add_two_column_slide prs (PyDict items) = Raise TypeError)
  /\ (forall items v,
        optional is_text items "title" = true ->
        dict_get items "points" = Some v ->
        py_iter v = Raise TypeError
        \/ (exists before x after,
              py_iter v = Ok (map PyStr before ++ x :: after)%list
              /\ is_text x = false) ->
        _add_bullet_points_slide prs (PyDict items) = Raise TypeError)
  /\ (forall items h tf,
        dict_get items "heading" = Some h ->
        (truthy h = false ->
         fill_column (PyDict items) tf
         = (do points <- py_get (PyDict items) "points" (PyList []);
            do point_texts <- py_iter points;
            points_loop 1 point_texts (text_frame_clear tf)))
        /\ (truthy h = true -> is_text h = false ->
            fill_column (PyDict items) tf = Raise TypeError)).
Proof.
  intros Hs.
  destruct (supports_spec _ Hs)
    as (l0 & l1 & l3 & (Hl0 & H00 & H01) & (Hl1 & H10 & H11) & (Hl3 & H30 & H31 & H32)).
  unfold _add_title_slide, _add_bullet_points_slide, _add_two_column_slide,
    title_text_frame, placeholder_text_frame.
  rewrite Hl0, Hl1, Hl3. cbn [bind].
  rewrite !new_slide_placeholder by assumption. cbn [bind].
  split; [|split; [|split]].
  - intros content Hc. by destruct content.
  - intros items v Hv Ht. cbn [py_get]. rewrite Hv. cbn [default from_option id bind].
    by rewrite !(process_markdown_no_text _ _ Ht).
  - intros items v Ht Hv Hbad. rewrite (get_text _ _ _ Ht). cbn [bind].
    rewrite process_markdown_total. cbn [bind py_get]. rewrite Hv.
    cbn [default from_option id bind].
    destruct Hbad as [->|(before & x & after & -> & Hx)]; [reflexivity|].
    cbn [bind]. generalize (text_frame_clear empty_text_frame).
    induction before as [|t ts IH]; intros tf.
    + cbn [map app points_loop]. by rewrite (process_markdown_no_text _ _ Hx).
    + cbn [map app points_loop]. rewrite process_markdown_total. cbn [bind].
      by rewrite IH.
  - intros items h tf Hh. unfold fill_column. cbn [py_get py_getitem]. rewrite Hh.
    cbn [default from_option id bind]. split.
    + by intros ->.
    + intros -> Ht. cbn [bind]. by rewrite (process_markdown_no_text _ _ Ht).
Qed.

Lemma ill_typed_content_raises_witness :
  _add_title_slide default_presentation PyNone = Raise AttributeError
  /\ _add_two_column_slide default_presentation (PyDict [("title", PyInt 3)])
     = Raise TypeError
  /\ _add_bullet_points_slide default_presentation
       (PyDict [("points", PyList [PyStr "a"; PyNone])])
     = Raise TypeError
  /\ fill_column (PyDict [("heading", PyInt 0)]) empty_text_frame = Ok empty_text_frame
  /\ fill_column (PyDict [("heading", PyInt 1)]) empty_text_frame = Raise TypeError.
Proof.
  destruct (ill_typed_content_raises default_presentation eq_refl)
    as (Hdict & Htitle & Hpoints & Hheading).
  split; [exact (proj1 (Hdict PyNone eq_refl))|].
  split; [exact (proj2 (proj2 (Htitle [("title", PyInt 3)] (PyInt 3) eq_refl eq_refl)))|].
  split.
  - apply (Hpoints [("points", PyList [PyStr "a"; PyNone])] (PyList [PyStr "a"; PyNone]));
      [reflexivity|reflexivity|].
    right. exists ["a"], PyNone, []. by split.
  - split.
    + exact (proj1 (Hheading [("heading", PyInt 0)] (PyInt 0) empty_text_frame eq_refl)
               eq_refl).
    + exact (proj2 (Hheading [("heading", PyInt 1)] (PyInt 1) empty_text_frame eq_refl)
               eq_refl eq_refl).
Defined.

(** ** More on ordered dictionaries and on [str.lower] *)

Lemma lower_char_idempotent c : lower_char (lower_char c) = lower_char c.
Proof. by destruct c as [[] [] [] [] [] [] [] []]. Qed.

Lemma lower_idempotent s : lower (lower s) = lower s.
Proof.
  induction s as [|a s IH]; [reflexivity|].
  cbn [lower]. by rewrite lower_char_idempotent, IH.
Qed.

Lemma dict_get_app_ne {K V} `{EqDecision K} (d : list (K * V)) (k k' : K) (v' : V) :
  k' <> k -> dict_get (d ++ [(k', v')])%list k = dict_get d k.
Proof.
  intros Hne. induction d as [|[k1 v1] d IH]; simpl.
  - by rewrite decide_False.
  - by rewrite IH.
Qed.

Lemma dict_get_tail_Some {K V} `{EqDecision K} (d : list (K * V)) (k : K) (v : V) :
  NoDup (keys d) -> dict_get (tail d) k = Some v -> dict_get d k = Some v.
Proof.
  destruct d as [|[k1 v1] d]; [done|]. cbn [tail keys map fst].
  intros Hnd Hget. apply NoDup_cons in Hnd as [Hk1 _]. simpl.
  destruct (decide (k1 = k)) as [->|]; [|assumption].
  exfalso. apply Hk1. fold (keys d).
  destruct (decide (k ∈ keys d)) as [|Hnot]; [assumption|].
  apply dict_get_None in Hnot. congruence.
Qed.

Lemma length_keys {K V} (d : list (K * V)) : length (keys d) = length d.
Proof. apply length_map. Qed.

Lemma keys_tail {K V} (d : list (K * V)) : keys (tail d) = tail (keys d).
Proof. by destruct d. Qed.

Lemma NoDup_tail {A} (l : list A) : NoDup l -> NoDup (tail l).
Proof. destruct l; [done|]. cbn. by intros [_ ?]%NoDup_cons. Qed.

Lemma elem_of_tail {A} (l : list A) (x : A) : x ∈ tail l -> x ∈ l.
Proof. destruct l; [done|]. cbn. intros Hx. apply elem_of_cons. by right. Qed.

(** ** Invariants of the cache *)

Section CacheInvariants.
Context {Tree : Type}.
Variable json_loads : string -> Tree + string.
Implicit Types (self : LLMService Tree) (model : string -> Z -> reply).

Lemma generate_keys model self topic num_slides :
  keys (cache (snd (generate_slides_content json_loads model self topic num_slides)))
  = keys (cache self)
  \/ (dict_get (cache self) (lower topic, num_slides) = None
      /\ exists kept,
           (kept = keys (cache self) \/ kept = tail (keys (cache self)))
           /\ keys (cache (snd (generate_slides_content json_loads model self
                                  topic num_slides)))
              = (kept ++ [(lower topic, num_slides)])%list
           /\ model_calls (snd (generate_slides_content json_loads model self
                                  topic num_slides))
              = (model_calls self ++ [(topic, num_slides)])%list).
Proof.
  destruct (generate_cases json_loads model self topic num_slides)
    as [(tree & _ & ->)|[(message & _ & _ & ->)|(tree & Hmiss & _ & ->)]];
    cbn [snd cache record_call model_calls]; [by left|by left|].
  right. split; [assumption|].
  destruct (max_cache_size <=? length (cache self))%nat.
  - exists (tail (keys (cache self))). split; [by right|].
    split; [|reflexivity]. by rewrite keys_app, keys_tail.
  - exists (keys (cache self)). split; [by left|].
    split; [|reflexivity]. by rewrite keys_app.
Qed.

Lemma generate_calls model self topic num_slides :
  model_calls (snd (generate_slides_content json_loads model self topic num_slides))
  = model_calls self
  \/ model_calls (snd (generate_slides_content json_loads model self topic num_slides))
     = (model_calls self ++ [(topic, num_slides)])%list.
Proof.
  destruct (generate_cases json_loads model self topic num_slides)
    as [(tree & _ & ->)|[(message & _ & _ & ->)|(tree & _ & _ & ->)]];
    cbn [snd record_call model_calls]; auto.
Qed.

Lemma generate_unique_keys model self topic num_slides :
  NoDup (keys (cache self)) ->
  NoDup (keys (cache (snd (generate_slides_content json_loads model self
                             topic num_slides)))).
Proof.
  intros Hnd.
  destruct (generate_keys model self topic num_slides)
    as [->|(Hmiss & kept & Hkept & -> & _)]; [assumption|].
  apply dict_get_None in Hmiss.
  apply NoDup_app. split; [|split].
  - destruct Hkept as [->| ->]; [assumption|by apply NoDup_tail].
  - intros k Hk Hin. apply list_elem_of_singleton in Hin as ->.
    apply Hmiss. destruct Hkept as [->| ->]; [assumption|by apply elem_of_tail].
  - apply NoDup_singleton.
Qed.

Lemma generate_lower_keys model self topic num_slides :
  Forall (fun k => lower (fst k) = fst k) (keys (cache self)) ->
  Forall (fun k => lower (fst k) = fst k)
    (keys (cache (snd (generate_slides_content json_loads model self topic num_slides)))).
Proof.
  intros Hall.
  destruct (generate_keys model self topic num_slides)
    as [->|(_ & kept & Hkept & -> & _)]; [assumption|].
  apply Forall_app. split.
  - destruct Hkept as [->| ->]; [assumption|].
    destruct (keys (cache self)); [constructor|]. cbn. by apply Forall_cons in Hall as [_ ?].
  - constructor; [|constructor]. cbn. apply lower_idempotent.
Qed.

(** X10.  After every run of requests against a new service no key is in
    the cache twice, and the topic of every key is in lower case. *)
Theorem cache_keys_unique_and_lower
    (requests : list ((string -> Z -> reply) * string * Z)) :
  NoDup (keys (cache (serve json_loads new_service requests)))
  /\ Forall (fun k => lower (fst k) = fst k)
       (keys (cache (serve json_loads new_service requests))).
Proof.
  assert (H : forall self,
             NoDup (keys (cache self))
             /\ Forall (fun k => lower (fst k) = fst k) (keys (cache self)) ->
             NoDup (keys (cache (serve json_loads self requests)))
             /\ Forall (fun k => lower (fst k) = fst k)
                  (keys (cache (serve json_loads self requests)))).
  { induction requests as [|[[model topic] num_slides] rest IH]; intros self [Hnd Hl].
    - by split.
    - cbn [serve]. apply IH. split.
      + by apply generate_unique_keys.
      + by apply generate_lower_keys. }
  apply H. split; [apply NoDup_nil_2|constructor].
Qed.
End CacheInvariants.

Section CacheTrace.
Context {Tree : Type}.
Variable json_loads : string -> Tree + string.
Implicit Types (self : LLMService Tree) (model : string -> Z -> reply).

Lemma asked_for_more calls more k : asked_for calls k -> asked_for (calls ++ more) k.
Proof.
  intros (topic & Hin & Hl). exists topic. split; [|assumption].
  apply elem_of_app. by left.
Qed.

Lemma generate_trace model self topic num_slides :
  length (cache self) <= length (model_calls self) ->
  Forall (asked_for (model_calls self)) (keys (cache self)) ->
  let self' := snd (generate_slides_content json_loads model self topic num_slides) in
  length (cache self') <= length (model_calls self')
  /\ Forall (asked_for (model_calls self')) (keys (cache self')).
Proof.
  intros Hlen Hall self'. unfold self'.
  rewrite <- (length_keys (cache (snd _))). rewrite <- (length_keys (cache self)) in Hlen.
  destruct (generate_keys json_loads model self topic num_slides)
    as [->|(_ & kept & Hkept & -> & ->)].
  - destruct (generate_calls json_loads model self topic num_slides) as [->| ->].
    + by split.
    + split; [rewrite length_app; lia|].
      eapply Forall_impl; [exact Hall|]. intros k. apply asked_for_more.
  - rewrite !length_app. cbn [length]. split.
    + destruct Hkept as [->| ->]; [lia|]. destruct (keys (cache self)); simpl in *; lia.
    + apply Forall_app. split.
      * assert (Forall (asked_for (model_calls self)) kept) as Hk.
        { destruct Hkept as [->| ->]; [assumption|].
          destruct (keys (cache self)); [constructor|]. cbn.
          by apply Forall_cons in Hall as [_ ?]. }
        eapply Forall_impl; [exact Hk|]. intros k. apply asked_for_more.
      * constructor; [|constructor]. exists topic. split; [|reflexivity].
        apply elem_of_app. right. apply list_elem_of_singleton. reflexivity.
Qed.

Lemma serve_trace requests : forall self,
  length (cache self) <= length (model_calls self) ->
  Forall (asked_for (model_calls self)) (keys (cache self)) ->
  let final := serve json_loads self requests in
  length (cache final) <= length (model_calls final)
  /\ Forall (asked_for (model_calls final)) (keys (cache final))
  /\ length (model_calls final) <= length (model_calls self) + length requests
  /\ Forall (fun call => call ∈ model_calls self \/ call ∈ map call_of requests)
       (model_calls final).
Proof.
  induction requests as [|[[model topic] num_slides] rest IH]; intros self Hlen Hall.
  - cbn. split; [assumption|]. split; [assumption|]. split; [lia|].
    apply Forall_forall. intros c Hc. by left.
  - cbn [serve].
    destruct (generate_trace model self topic num_slides Hlen Hall) as [Hlen' Hall'].
    destruct (IH _ Hlen' Hall') as (H1 & H2 & H3 & H4).
    cbv zeta. split; [assumption|]. split; [assumption|]. split.
    + cbn [length].
      destruct (generate_calls json_loads model self topic num_slides) as [E|E];
        rewrite E in H3; [lia|rewrite length_app in H3; cbn [length] in H3; lia].
    + eapply Forall_impl; [exact H4|]. intros c [Hc|Hc].
      * destruct (generate_calls json_loads model self topic num_slides) as [E|E];
          rewrite E in Hc; [by left|].
        apply elem_of_app in Hc as [Hc|Hc]; [by left|].
        apply list_elem_of_singleton in Hc as ->. right. cbn [map]. apply elem_of_cons. by left.
      * right. cbn [map]. apply elem_of_cons. by right.
Qed.

(** X11.  Over a run of requests against a new service the model is called
    no more often than there are requests, and each call carries the topic
    and the number of slides of a request as they were written; the cache
    holds no more entries than there were calls, and every key in it is the
    lower-case form of a topic the model was called with, for the same
    number of slides. *)
Theorem cache_entries_come_from_calls
    (requests : list ((string -> Z -> reply) * string * Z)) :
  let final := serve json_loads new_service requests in
  length (model_calls final) <= length requests
  /\ Forall (fun call => call ∈ map call_of requests) (model_calls final)
  /\ length (cache final) <= length (model_calls final)
  /\ Forall (asked_for (model_calls final)) (keys (cache final)).
Proof.
  destruct (serve_trace requests new_service) as (H1 & H2 & H3 & H4);
    [cbn; lia|constructor|].
  cbv zeta. split; [exact H3|]. split; [|by split].
  eapply Forall_impl; [exact H4|]. intros c [Hc|Hc]; [|assumption].
  cbn in Hc. by apply elem_of_nil in Hc.
Qed.
End CacheTrace.

(** ** The reply of the model, unwrapped *)

Lemma strip_prefix_append p r : strip_prefix p (p +:+ r) = Some r.
Proof.
  induction p as [|a p IH]; [reflexivity|].
  rewrite append_cons. simpl. by rewrite Ascii.eqb_refl.
Qed.

Lemma string_rev_append s t : string_rev (s +:+ t) = string_rev t +:+ string_rev s.
Proof.
  induction s as [|a s IH].
  - by rewrite append_empty_l, append_empty_r.
  - rewrite append_cons. cbn [string_rev]. by rewrite IH, append_assoc.
Qed.

Lemma string_rev_involutive s : string_rev (string_rev s) = s.
Proof.
  induction s as [|a s IH]; [reflexivity|].
  cbn [string_rev]. rewrite string_rev_append, IH. reflexivity.
Qed.

Lemma all_space_append s t : all_space (s +:+ t) = all_space s && all_space t.
Proof.
  induction s as [|a s IH]; [reflexivity|].
  rewrite append_cons. cbn [all_space]. by rewrite IH, andb_assoc.
Qed.

Lemma all_space_rev s : all_space (string_rev s) = all_space s.
Proof.
  induction s as [|a s IH]; [reflexivity|].
  cbn [string_rev all_space]. rewrite all_space_append, IH. cbn [all_space].
  rewrite andb_true_r. apply andb_comm.
Qed.

Lemma lstrip_spaces ws s : all_space ws = true -> lstrip (ws +:+ s) = lstrip s.
Proof.
  induction ws as [|a ws IH]; [reflexivity|].
  cbn [all_space]. intros [Ha Hws]%andb_prop.
  rewrite append_cons. cbn [lstrip]. rewrite Ha. by apply IH.
Qed.

Lemma lstrip_no_space a s : is_space a = false -> lstrip (String a s) = String a s.
Proof. intros H. cbn [lstrip]. by rewrite H. Qed.

(** [strip] takes the whitespace around a text that begins and ends with
    other characters, and nothing else. *)
Lemma strip_surrounded ws1 ws2 a s b t :
  all_space ws1 = true -> all_space ws2 = true ->
  is_space a = false -> is_space b = false ->
  string_rev (String a s) = String b t ->
  strip (ws1 +:+ String a s +:+ ws2) = String a s.
Proof.
  intros H1 H2 Ha Hb Hrev. unfold strip.
  rewrite (lstrip_spaces _ _ H1).
  change (String a s +:+ ws2) with (String a (s +:+ ws2)).
  rewrite (lstrip_no_space _ _ Ha).
  change (String a (s +:+ ws2)) with (String a s +:+ ws2).
  rewrite string_rev_append, lstrip_spaces by (by rewrite all_space_rev).
  rewrite Hrev, (lstrip_no_space _ _ Hb), <- Hrev. apply string_rev_involutive.
Qed.

Lemma endswith_append s p : endswith (s +:+ p) p = true.
Proof.
  unfold endswith, startswith. by rewrite string_rev_append, strip_prefix_append.
Qed.

Lemma drop_last_three s : drop_last_chars 3 (s +:+ "```") = s.
Proof.
  unfold drop_last_chars. rewrite string_rev_append.
  change (string_rev "```") with "```".
  change (drop_chars 3 ("```" +:+ string_rev s)) with (string_rev s).
  apply string_rev_involutive.
Qed.

(** X12.  A reply wrapped in a [```json] fence and a closing [```], with
    whitespace before and after, is parsed as the text between the fences;
    on a miss the service returns what [json.loads] makes of that text. *)
Theorem fenced_reply_is_unwrapped {Tree : Type} (json_loads : string -> Tree + string)
    (model : string -> Z -> reply) (self : LLMService Tree)
    (topic : string) (num_slides : Z) (ws1 ws2 body : string) :
  all_space ws1 = true ->
  all_space ws2 = true ->
  model topic num_slides = Text (ws1 +:+ "```json" +:+ body +:+ "```" +:+ ws2) ->
  produced json_loads model topic num_slides = json_loads body
  /\ (forall tree,
        dict_get (cache self) (lower topic, num_slides) = None ->
        json_loads body = inl tree ->
        fst (generate_slides_content json_loads model self topic num_slides)
        = Parsed tree).
Proof.
  intros H1 H2 Hreply.
  assert (Hp : produced json_loads model topic num_slides = json_loads body).
  { unfold produced. rewrite Hreply. cbv zeta.
    assert (strip (ws1 +:+ "```json" +:+ body +:+ "```" +:+ ws2)
            = "```json" +:+ body +:+ "```") as ->.
    { replace (ws1 +:+ "```json" +:+ body +:+ "```" +:+ ws2)
        with (ws1 +:+ ("```json" +:+ body +:+ "```") +:+ ws2)
        by (by rewrite !append_assoc).
      change ("```json" +:+ body +:+ "```")
        with (String "`" ("``json" +:+ body +:+ "```")).
      apply (strip_surrounded ws1 ws2 "`" _ "`"
               ("``" +:+ string_rev body +:+ string_rev "```json"));
        [assumption|assumption|reflexivity|reflexivity|].
      change (String "`" ("``json" +:+ body +:+ "```"))
        with ("```json" +:+ body +:+ "```").
      by rewrite !string_rev_append, !append_assoc. }
    unfold startswith. rewrite strip_prefix_append.
    change (drop_chars 7 ("```json" +:+ body +:+ "```")) with (body +:+ "```").
    by rewrite endswith_append, drop_last_three. }
  split; [assumption|].
  intros tree Hmiss Hjson. rewrite Hjson in Hp.
  by rewrite (generate_success _ _ _ _ _ _ Hmiss Hp).
Qed.

Lemma fenced_reply_is_unwrapped_witness :
  produced (fun s : string => @inl string string s)
    (fun _ _ => Text (" " +:+ "```json" +:+ "{}" +:+ "```" +:+ " ")) "Rome" 5
  = inl "{}".
Proof.
  exact (proj1 (fenced_reply_is_unwrapped (fun s : string => @inl string string s)
                  (fun _ _ => Text (" " +:+ "```json" +:+ "{}" +:+ "```" +:+ " "))
                  new_service "Rome" 5 " " " " "{}" eq_refl eq_refl eq_refl)).
Defined.

(** ** How long an entry stays *)

Section CacheLifetime.
Context {Tree : Type}.
Variable json_loads : string -> Tree + string.
Implicit Types (self : LLMService Tree) (model : string -> Z -> reply).

Lemma generate_keeps_value model self topic num_slides k v :
  NoDup (keys (cache self)) ->
  (lower topic, num_slides) <> k ->
  dict_get (cache (snd (generate_slides_content json_loads model self topic num_slides))) k
  = Some v ->
  dict_get (cache self) k = Some v.
Proof.
  intros Hnd Hne.
  destruct (generate_cases json_loads model self topic num_slides)
    as [(tree & _ & ->)|[(message & _ & _ & ->)|(tree & _ & _ & ->)]];
    cbn [snd cache record_call]; try done.
  destruct (max_cache_size <=? length (cache self))%nat;
    rewrite (dict_get_app_ne _ _ _ _ Hne); [|done].
  by apply dict_get_tail_Some.
Qed.

Lemma serve_keeps_value requests k v : forall self,
  NoDup (keys (cache self)) ->
  Forall (fun request => cache_key_of request <> k) requests ->
  dict_get (cache (serve json_loads self requests)) k = Some v ->
  dict_get (cache self) k = Some v.
Proof.
  induction requests as [|[[model topic] num_slides] rest IH]; intros self Hnd Hne.
  - done.
  - cbn [serve]. apply Forall_cons in Hne as [Hk Hne]. intros Hget.
    apply (generate_keeps_value model self topic num_slides); [assumption|exact Hk|].
    apply IH; [by apply generate_unique_keys|assumption|assumption].
Qed.

(** X13.  An entry stays in the cache through 99 younger entries and no
    longer.  After a request that put its content into the cache, and then
    a run of successful requests with keys that are new and pairwise
    distinct: when the run has fewer than 100 requests, the first request
    made again is a hit with the content it stored; when the run has 100
    requests or more, its key is gone. *)
Theorem cache_entry_lifetime (model model' : string -> Z -> reply)
    (self : LLMService Tree) (topic : string) (num_slides : Z) (tree : Tree)
    (requests : list ((string -> Z -> reply) * string * Z)) :
  length (cache self) <= 100 ->
  NoDup (keys (cache self) ++ (lower topic, num_slides) :: map cache_key_of requests) ->
  produced json_loads model topic num_slides = inl tree ->
  forallb (succeeds json_loads) requests = true ->
  let stored := snd (generate_slides_content json_loads model self topic num_slides) in
  let final := serve json_loads stored requests in
  (length requests < 100 ->
   generate_slides_content json_loads model' final topic num_slides
   = (Parsed tree, final))
  /\ (100 <= length requests ->
      dict_get (cache final) (lower topic, num_slides) = None).
Proof.
  intros Hlen Hnd Hp Hok stored final.
  set (k := (lower topic, num_slides)) in *.
  assert (Hmiss : dict_get (cache self) k = None).
  { apply dict_get_None. apply NoDup_app in Hnd as (_ & Hdisj & _).
    intros Hin. apply (Hdisj _ Hin). apply elem_of_cons. by left. }
  assert (Hnd0 : NoDup (keys (cache self))) by (by apply NoDup_app in Hnd as (? & _)).
  assert (Hstored : exists kept,
             keys (cache stored) = (kept ++ [k])%list
             /\ NoDup (kept ++ k :: map cache_key_of requests)
             /\ dict_get (cache stored) k = Some tree
             /\ length (cache stored) <= 100).
  { unfold stored. rewrite (generate_success _ _ _ _ _ _ Hmiss Hp). cbn [snd cache].
    fold k. destruct (Nat.leb_spec max_cache_size (length (cache self))) as [Hfull|Hroom].
    - exists (tail (keys (cache self))). rewrite keys_app, keys_tail.
      split; [reflexivity|]. split; [|split].
      + destruct (keys (cache self)); [assumption|]. cbn [tail app] in *.
        by apply NoDup_cons in Hnd as [_ ?].
      + apply dict_get_last. by apply dict_get_tail_None.
      + rewrite length_app. cbn [length]. destruct (cache self); simpl in *; lia.
    - exists (keys (cache self)). rewrite keys_app.
      split; [reflexivity|]. split; [assumption|]. split.
      + by apply dict_get_last.
      + rewrite length_app. cbn [length]. unfold max_cache_size in Hroom. lia. }
  destruct Hstored as (kept & Hkeys & Hnd1 & Hget & Hlen1).
  assert (Hfinal : keys (cache final)
                   = drop (length kept + 1 + length requests - 100)
                          (kept ++ k :: map cache_key_of requests)).
  { unfold final. rewrite serve_fresh_keys; [| exact Hlen1 | | exact Hok].
    - rewrite Hkeys, <- !app_assoc. cbn [app].
      rewrite !length_app. cbn [length]. rewrite length_map.
      unfold max_cache_size. f_equal. lia.
    - rewrite Hkeys, <- app_assoc. exact Hnd1. }
  split.
  - intros Hfew. apply generate_hit. fold k.
    destruct (dict_get (cache final) k) as [v|] eqn:Hv.
    + f_equal. apply (serve_keeps_value requests k v stored) in Hv.
      * congruence.
      * rewrite Hkeys. apply NoDup_app in Hnd1 as (Hk & Hd & Hr).
        apply NoDup_app. split; [assumption|]. split; [|apply NoDup_singleton].
        intros x Hx Hin. apply list_elem_of_singleton in Hin as ->.
        apply (Hd _ Hx). apply elem_of_cons. by left.
      * apply Forall_forall. intros request Hin Heq.
        apply NoDup_app in Hnd1 as (_ & _ & Hr). apply NoDup_cons in Hr as [Hk _].
        apply Hk. rewrite <- Heq. by apply (list_elem_of_fmap_2 cache_key_of).
    + exfalso. apply dict_get_None in Hv. apply Hv. rewrite Hfinal.
      rewrite drop_app_le by lia. apply elem_of_app. right. apply elem_of_cons. by left.
  - intros Hmany. apply dict_get_None. rewrite Hfinal. intros Hin.
    apply NoDup_app in Hnd1 as (_ & _ & Hr). apply NoDup_cons in Hr as [Hk _].
    apply Hk.
    replace (length kept + 1 + length requests - 100)
      with (length (kept ++ [k])%list + (length requests - 100)) in Hin
      by (rewrite length_app; cbn [length]; lia).
    change (kept ++ k :: map cache_key_of requests)%list
      with (kept ++ [k] ++ map cache_key_of requests)%list in Hin.
    rewrite app_assoc, drop_app_add in Hin.
    by apply (subseteq_drop _ _ _ Hin).
Qed.
End CacheLifetime.

Lemma cache_entry_lifetime_witness :
  let model : string -> Z -> reply := fun _ _ => Text "{}" in
  let request i : (string -> Z -> reply) * string * Z := (model, "Rome", Z.of_nat i) in
  let stored :=
    snd (generate_slides_content (fun s : string => @inl string string s) model
           new_service "Rome" 0) in
  let final := serve (fun s : string => @inl string string s) stored
                 (map request (seq 1 99)) in
  generate_slides_content (fun s : string => @inl string string s) model final "Rome" 0
  = (Parsed "{}", final).
Proof.
  intros model request stored final.
  apply (proj1 (cache_entry_lifetime (fun s : string => @inl string string s)
                  model model new_service "Rome" 0 "{}" (map request (seq 1 99))
                  ltac:(cbn; lia)
                  ltac:(apply (bool_decide_unpack _); vm_compute; exact I)
                  eq_refl ltac:(vm_compute; reflexivity))).
  vm_compute. lia.
Defined.

(** ** The endpoint *)

Lemma occurs_space_cons a s :
  occurs " " (String a s) = Ascii.eqb " " a || occurs " " s.
Proof. cbn [occurs strip_prefix]. by destruct (Ascii.eqb " " a). Qed.

Lemma occurs_space_append s t : occurs " " (s +:+ t) = occurs " " s || occurs " " t.
Proof.
  induction s as [|a s IH]; [reflexivity|].
  rewrite append_cons, !occurs_space_cons, IH. apply orb_assoc.
Qed.

Lemma replace_space_no_space s : occurs " " (replace " " "_" s) = false.
Proof.
  induction s as [|a s IH]; [reflexivity|].
  cbn [replace]. rewrite occurs_space_cons, IH, orb_false_r.
  destruct (Ascii.eqb_spec a " ") as [->|Hne]; [reflexivity|].
  apply Ascii.eqb_neq. congruence.
Qed.

Lemma length_replace old new s : String.length (replace old new s) = String.length s.
Proof. induction s as [|a s IH]; [reflexivity|]. cbn. by rewrite IH. Qed.
Lemma generate_stores {Tree} (json_loads : string -> Tree + string) model
    (self : LLMService Tree) t n tree :
  fst (generate_slides_content json_loads model self t n) = Parsed tree ->
  dict_get (cache (snd (generate_slides_content json_loads model self t n))) (lower t, n)
  = Some tree.
Proof.
  intros Hfirst.
  destruct (generate_cases json_loads model self t n)
    as [(tree0 & Hget & Hgen)|[(message & _ & _ & Hgen)|(tree0 & Hmiss & _ & Hgen)]];
    rewrite Hgen in *; cbn [fst snd cache] in *.
  - by injection Hfirst as <-.
  - discriminate.
  - injection Hfirst as <-.
    destruct (max_cache_size <=? length (cache self))%nat.
    + apply dict_get_last. by apply dict_get_tail_None.
    + by apply dict_get_last.
Qed.

Lemma generate_again {Tree} (json_loads : string -> Tree + string) model model'
    (self : LLMService Tree) t n tree :
  fst (generate_slides_content json_loads model self t n) = Parsed tree ->
  generate_slides_content json_loads model'
    (snd (generate_slides_content json_loads model self t n)) t n
  = (Parsed tree, snd (generate_slides_content json_loads model self t n)).
Proof. intros Hfirst. apply generate_hit. by apply generate_stores. Qed.

Lemma check_content_usable items slides_data :
  dict_get items "error" = None ->
  dict_get items "slides" = Some slides_data ->
  check_content (PyDict items) = Ok tt.
Proof.
  intros He Hs. unfold check_content. cbn [py_in bind]. rewrite He, Hs. cbn [bind].
  destruct items; [discriminate|]. reflexivity.
Qed.

Section EndpointFacts.
Variable json_loads : string -> value + string.
Variable str_of_exception : exception -> string.

(** Whatever becomes of a request within the limit, the service is left as
    [generate_slides_content] left it. *)
Lemma endpoint_service model open_pptx uuid4 app request :
  llm_service (snd (generate_presentation json_loads str_of_exception
                      model open_pptx uuid4 true app request))
  = snd (generate_slides_content json_loads model (llm_service app)
           (topic request) (num_slides request)).
Proof.
  unfold generate_presentation. cbn [negb].
  destruct (check_content _); [|reflexivity].
  by destruct (create_presentation _ _ _ _).
Qed.


(** X15.  A reply that parses but that the endpoint refuses (it has an
    ["error"] key, or it is empty, or it has no ["slides"], or it is no
    container at all) is put into the cache all the same.  The endpoint
    raises, and the same request let through again gets the same answer
    from the cache: the model is not called, and no document is written
    either time.  For a dictionary with an ["error"] key the answer is
    status 500 with the value of that key; for one without ["error"] and
    without ["slides"] it is status 500 with the fixed detail of the
    endpoint. *)
Theorem unusable_content_is_cached (model model' : string -> Z -> reply)
    (open_pptx open_pptx' : string -> result Presentation) (uuid4 uuid4' : string)
    (app : App) (request : PresentationRequest) (tree : value) (e : exception) :
  dict_get (cache (llm_service app)) (lower (topic request), num_slides request) = None ->
  produced json_loads model (topic request) (num_slides request) = inl tree ->
  check_content tree = Raise e ->
  let answer :=
    generate_presentation json_loads str_of_exception
      model open_pptx uuid4 true app request in
  let again :=
    generate_presentation json_loads str_of_exception
      model' open_pptx' uuid4' true (snd answer) request in
  fst answer = Raise e
  /\ dict_get (cache (llm_service (snd answer)))
       (lower (topic request), num_slides request) = Some tree
  /\ output_files (snd answer) = output_files app
  /\ fst again = fst answer
  /\ snd again = snd answer
  /\ (forall items detail,
        tree = PyDict items -> dict_get items "error" = Some detail ->
        e = HTTPException 500 detail)
  /\ (forall items,
        tree = PyDict items -> dict_get items "error" = None ->
        dict_get items "slides" = None ->
        e = HTTPException 500 (PyStr "Failed to generate valid slide content.")).
Proof.
  intros Hmiss Hp Hbad answer again.
  assert (Hfirst : fst (generate_slides_content json_loads model (llm_service app)
                          (topic request) (num_slides request)) = Parsed tree)
    by (by rewrite (generate_success _ _ _ _ _ _ Hmiss Hp)).
  pose proof (generate_again json_loads model model' _ _ _ _ Hfirst) as Hagain.
  assert (Hanswer : answer =
            (Raise e,
             {| llm_service :=
                  snd (generate_slides_content json_loads model (llm_service app)
                         (topic request) (num_slides request));
                output_files := output_files app |})).
  { unfold answer, generate_presentation. cbn [negb].
    rewrite Hfirst. cbn [returned]. by rewrite Hbad. }
  split; [by rewrite Hanswer|].
  split; [rewrite Hanswer; by apply generate_stores|].
  split; [by rewrite Hanswer|].
  assert (again = answer) as ->.
  { unfold again. rewrite Hanswer. unfold generate_presentation.
    cbn [negb snd llm_service output_files]. rewrite Hagain. cbn [fst snd returned].
    by rewrite Hbad. }
  split; [reflexivity|]. split; [reflexivity|]. split.
  - intros items detail -> Herror. unfold check_content in Hbad.
    cbn [py_in py_get py_getitem bind] in Hbad. rewrite Herror in Hbad.
    cbn [bind] in Hbad. congruence.
  - intros items -> Herror Hslides. unfold check_content in Hbad.
    cbn [py_in bind] in Hbad. rewrite Herror, Hslides in Hbad. cbn [bind] in Hbad.
    destruct (negb (truthy (PyDict items))); cbn [bind negb] in Hbad; congruence.
Qed.

(** X16.  With python-pptx, a request let through whose content is usable
    (a dictionary with ["slides"] and without ["error"]) but whose template
    is not where the aspect ratio points ends in the [HTTPException] with
    status 500 and the detail ["Failed to create presentation file: "]
    followed by the text of the [PackageNotFoundError]; no document is
    written, while the content stays in the cache. *)
Theorem missing_template_is_500 (model : string -> Z -> reply)
    (files : gmap string Presentation) (uuid4 : string)
    (app : App) (request : PresentationRequest)
    (items : list (string * value)) (slides_data : value) :
  fst (generate_slides_content json_loads model (llm_service app)
         (topic request) (num_slides request)) = Parsed (PyDict items) ->
  dict_get items "error" = None ->
  dict_get items "slides" = Some slides_data ->
  files !! template_path_for (AspectRatio_value (aspect_ratio request)) = None ->
  let answer :=
    generate_presentation json_loads str_of_exception
      model (Presentation_at files) uuid4 true app request in
  fst answer =
    Raise (HTTPException 500
             (PyStr ("Failed to create presentation file: "
                     +:+ str_of_exception PackageNotFoundError)))
  /\ output_files (snd answer) = output_files app
  /\ dict_get (cache (llm_service (snd answer)))
       (lower (topic request), num_slides request) = Some (PyDict items).
Proof.
  intros Hfirst Herror Hslides Hmissing answer.
  unfold answer, generate_presentation. cbn [negb]. rewrite Hfirst. cbn [returned].
  rewrite (check_content_usable _ _ Herror Hslides).
  rewrite open_error_propagates with (e := PackageNotFoundError);
    [|unfold Presentation_at; by rewrite Hmissing|discriminate].
  cbn [fst snd llm_service output_files].
  split; [reflexivity|]. split; [reflexivity|].
  by apply generate_stores.
Qed.

(** X17.  A request let through whose content is a dictionary without
    ["error"] and with a list of well-formed records as its ["slides"], on a
    template that opens and has the layouts the renderers use, is answered
    with the document written at [generated_presentations/<uuid>.pptx],
    which holds one more slide for each record with a known layout; the
    name offered for download is the topic with every space turned into
    [_], followed by [_presentation.pptx], so it has no space in it.  The
    widescreen ratio opens [template_16_9.pptx] and the standard ratio
    [template_4_3.pptx]. *)
Theorem successful_request (model : string -> Z -> reply)
    (open_pptx : string -> result Presentation) (uuid4 : string)
    (app : App) (request : PresentationRequest)
    (items : list (string * value)) (slide_infos : list value)
    (prs : Presentation) :
  fst (generate_slides_content json_loads model (llm_service app)
         (topic request) (num_slides request)) = Parsed (PyDict items) ->
  dict_get items "error" = None ->
  dict_get items "slides" = Some (PyList slide_infos) ->
  forallb well_formed slide_infos = true ->
  open_pptx (match aspect_ratio request with
             | widescreen => "template_16_9.pptx"
             | standard => "template_4_3.pptx"
             end) = Ok prs ->
  supports prs = true ->
  let answer :=
    generate_presentation json_loads str_of_exception
      model open_pptx uuid4 true app request in
  let output_path := "generated_presentations/" +:+ uuid4 +:+ ".pptx" in
  let name := replace " " "_" (topic request) +:+ "_presentation.pptx" in
  exists new stdout_lines,
    fst answer =
      Ok {| path := output_path; media_type := PPTX_MEDIA_TYPE; filename := name |}
    /\ output_files (snd answer) =
       (output_files app
        ++ [ {| stdout := stdout_lines; saved_path := output_path;
                saved := {| slide_layouts := slide_layouts prs;
                            slides := slides prs ++ new |} |} ])%list
    /\ map slide_layout new = map layout_index (List.filter recognised slide_infos)
    /\ occurs " " name = false
    /\ String.length name = String.length (topic request) + 18.
Proof.
  intros Hfirst Herror Hslides Hw Hopen Hs answer output_path name.
  assert (Hpath : template_path_for (AspectRatio_value (aspect_ratio request))
                  = match aspect_ratio request with
                    | widescreen => "template_16_9.pptx"
                    | standard => "template_4_3.pptx"
                    end) by (by destruct (aspect_ratio request)).
  destruct (create_presentation_from open_pptx (PyDict items) slide_infos output_path
              (AspectRatio_value (aspect_ratio request)) prs
              ["Using template: "
               +:+ template_path_for (AspectRatio_value (aspect_ratio request))])
    as (new & Hcreate & _ & Hidx);
    [by rewrite Hpath, Hopen|assumption|cbn [py_get]; by rewrite Hslides|assumption|].
  exists new, ["Using template: "
               +:+ template_path_for (AspectRatio_value (aspect_ratio request))].
  unfold answer, generate_presentation. cbn [negb]. rewrite Hfirst. cbn [returned].
  rewrite (check_content_usable _ _ Herror Hslides).
  change (OUTPUT_DIR +:+ "/" +:+ uuid4 +:+ ".pptx") with output_path.
  rewrite Hcreate. cbn [fst snd llm_service output_files].
  split; [reflexivity|]. split; [reflexivity|]. split; [assumption|]. split.
  - unfold name. by rewrite occurs_space_append, replace_space_no_space.
  - unfold name. rewrite length_append, length_replace. reflexivity.
Qed.
End EndpointFacts.


Lemma unusable_content_is_cached_witness :
  let text := "{" +:+ quoted "error" +:+ ": " +:+ quoted "quota exceeded" +:+ "}" in
  let tree := PyDict [("error", PyStr "quota exceeded")] in
  let run model uuid4 app :=
    generate_presentation
      (fun s => if String.eqb s text then inl tree else inr "Expecting value")
      (fun _ => "error") model (fun _ => Ok default_presentation) uuid4 true app
      {| topic := "Rome"; num_slides := 5; aspect_ratio := widescreen |} in
  let answer := run (fun _ _ => Text text) "u1"
                  {| llm_service := new_service; output_files := [] |} in
  let again := run (fun _ _ => Raises "timeout") "u2" (snd answer) in
  fst answer = Raise (HTTPException 500 (PyStr "quota exceeded"))
  /\ fst again = fst answer
  /\ snd again = snd answer.
Proof.
  intros text tree run answer again.
  destruct (unusable_content_is_cached
              (fun s => if String.eqb s text then inl tree else inr "Expecting value")
              (fun _ => "error")
              (fun _ _ => Text text) (fun _ _ => Raises "timeout")
              (fun _ => Ok default_presentation) (fun _ => Ok default_presentation)
              "u1" "u2"
              {| llm_service := new_service; output_files := [] |}
              {| topic := "Rome"; num_slides := 5; aspect_ratio := widescreen |}
              tree (HTTPException 500 (PyStr "quota exceeded"))
              eq_refl eq_refl eq_refl)
    as (Hanswer & _ & _ & Hagain & Hstate & _).
  split; [exact Hanswer|]. split; [exact Hagain|exact Hstate].
Defined.

Lemma missing_template_is_500_witness :
  let text := "{" +:+ quoted "slides" +:+ ": []}" in
  fst (generate_presentation
         (fun s => if String.eqb s text then inl (PyDict [("slides", PyList [])])
                   else inr "Expecting value")
         (fun _ => "Package not found at 'template_4_3.pptx'")
         (fun _ _ => Text text) (Presentation_at ∅) "u1" true
         {| llm_service := new_service; output_files := [] |}
         {| topic := "Rome"; num_slides := 5; aspect_ratio := standard |})
  = Raise (HTTPException 500
             (PyStr "Failed to create presentation file: Package not found at 'template_4_3.pptx'")).
Proof.
  intros text.
  exact (proj1 (missing_template_is_500
                  (fun s => if String.eqb s text then inl (PyDict [("slides", PyList [])])
                            else inr "Expecting value")
                  (fun _ => "Package not found at 'template_4_3.pptx'")
                  (fun _ _ => Text text) ∅ "u1"
                  {| llm_service := new_service; output_files := [] |}
                  {| topic := "Rome"; num_slides := 5; aspect_ratio := standard |}
                  [("slides", PyList [])] (PyList [])
                  eq_refl eq_refl eq_refl (lookup_empty _))).
Defined.

Lemma successful_request_witness :
  let text :=
    "{" +:+ quoted "slides" +:+ ": [{" +:+ quoted "layout" +:+ ": "
    +:+ quoted "title_slide" +:+ ", " +:+ quoted "content" +:+ ": {}}]}" in
  let record := PyDict [("layout", PyStr "title_slide"); ("content", PyDict [])] in
  exists new,
    fst (generate_presentation
           (fun s => if String.eqb s text then inl (PyDict [("slides", PyList [record])])
                     else inr "Expecting value")
           (fun _ => "error")
           (fun _ _ => Text text) (fun _ => Ok default_presentation) "u1" true
           {| llm_service := new_service; output_files := [] |}
           {| topic := "The History of Rome"; num_slides := 5;
              aspect_ratio := widescreen |})
    = Ok {| path := "generated_presentations/u1.pptx";
            media_type := PPTX_MEDIA_TYPE;
            filename := "The_History_of_Rome_presentation.pptx" |}
    /\ map slide_layout new = [0].
Proof.
  intros text record.
  destruct (successful_request
              (fun s => if String.eqb s text then inl (PyDict [("slides", PyList [record])])
                        else inr "Expecting value")
              (fun _ => "error")
              (fun _ _ => Text text) (fun _ => Ok default_presentation) "u1"
              {| llm_service := new_service; output_files := [] |}
              {| topic := "The History of Rome"; num_slides := 5;
                 aspect_ratio := widescreen |}
              [("slides", PyList [record])] [record] default_presentation
              eq_refl eq_refl eq_refl eq_refl eq_refl eq_refl)
    as (new & lines & Hanswer & _ & Hidx & _).
  exists new. split; [exact Hanswer|exact Hidx].
Defined.

Section Limit.
Variable json_loads : string -> value + string.
Variable str_of_exception : exception -> string.

Lemma endpoint_step model open_pptx uuid4 within_limit app request :
  let app' := snd (generate_presentation json_loads str_of_exception
                     model open_pptx uuid4 within_limit app request) in
  length (model_calls (llm_service app'))
  <= length (model_calls (llm_service app)) + (if within_limit then 1 else 0)
  /\ length (output_files app')
     <= length (output_files app) + (if within_limit then 1 else 0)
  /\ (length (cache (llm_service app)) <= max_cache_size ->
      length (cache (llm_service app')) <= max_cache_size)
  /\ (within_limit = false -> app' = app).
Proof.
  destruct within_limit; cbv zeta.
  - rewrite endpoint_service. split; [|split; [|split; [|discriminate]]].
    + destruct (generate_calls json_loads model (llm_service app)
                  (topic request) (num_slides request)) as [->| ->];
        [lia|rewrite length_app; cbn [length]; lia].
    + unfold generate_presentation. cbn [negb].
      destruct (check_content _); [|cbn; lia].
      destruct (create_presentation _ _ _ _); cbn [snd output_files];
        [rewrite length_app; cbn [length]; lia|lia].
    + apply generate_bound.
  - cbn. split; [lia|]. split; [lia|]. by split.
Qed.

(** X19.  Over any run of requests the model is called, and a document is
    written, no more often than the limiter lets a request through; a
    request that the limiter refuses leaves the cache, the calls and the
    documents as they were, and the cache keeps to its 100 entries. *)
Theorem calls_bounded_by_limit (app : App) (arrivals : list Arrival) :
  let final := handle_all json_loads str_of_exception app arrivals in
  length (model_calls (llm_service final))
  <= length (model_calls (llm_service app)) + length (List.filter arrival_within_limit arrivals)
  /\ length (output_files final)
     <= length (output_files app) + length (List.filter arrival_within_limit arrivals)
  /\ (length (cache (llm_service app)) <= 100 ->
      length (cache (llm_service final)) <= 100)
  /\ (forallb (fun a => negb (arrival_within_limit a)) arrivals = true -> final = app).
Proof.
  revert app. induction arrivals as [|a rest IH]; intros app.
  - cbn. split; [lia|]. split; [lia|]. by split.
  - cbn [handle_all List.filter forallb].
    destruct (endpoint_step (arrival_model a) (arrival_open_pptx a) (arrival_uuid4 a)
                (arrival_within_limit a) app (arrival_request a)) as (Hc & Ho & Hb & Hr).
    destruct (IH (snd (generate_presentation json_loads str_of_exception
                         (arrival_model a) (arrival_open_pptx a) (arrival_uuid4 a)
                         (arrival_within_limit a) app (arrival_request a))))
      as (IHc & IHo & IHb & IHr).
    cbv zeta. split; [|split; [|split]].
    + destruct (arrival_within_limit a); cbn [length] in *; lia.
    + destruct (arrival_within_limit a); cbn [length] in *; lia.
    + intros Hle. apply IHb, Hb. exact Hle.
    + intros [Ha Hrest]%andb_prop. apply negb_true_iff in Ha.
      rewrite (IHr Hrest). apply Hr. exact Ha.
Qed.
End Limit.

Lemma calls_bounded_by_limit_witness :
  let arrival let_through :=
    {| arrival_within_limit := let_through;
       arrival_model := fun _ _ => Raises "timeout";
       arrival_open_pptx := fun _ => Ok default_presentation;
       arrival_uuid4 := "u1";
       arrival_request :=
         {| topic := "Rome"; num_slides := 5; aspect_ratio := widescreen |} |} in
  let app := {| llm_service := new_service; output_files := [] |} in
  handle_all (fun _ => inr "Expecting value") (fun _ => "error") app
    [arrival false; arrival false] = app
  /\ length (model_calls
               (llm_service
                  (handle_all (fun _ => inr "Expecting value") (fun _ => "error") app
                     [arrival false; arrival true; arrival true]))) <= 2.
Proof.
  intros arrival app. split.
  - exact (proj2 (proj2 (proj2
             (calls_bounded_by_limit (fun _ => inr "Expecting value")
                (fun _ => "error") app [arrival false; arrival false]))) eq_refl).
  - exact (proj1 (calls_bounded_by_limit (fun _ => inr "Expecting value")
                    (fun _ => "error") app [arrival false; arrival true; arrival true])).
Defined.
